(** * Alfred AI agent: credit-accounted message dispatch

    A shallow embedding of the core of the repository: the intent router
    ([app/core/router.py]), the credit ledger ([app/core/credit_manager.py]),
    the agent engine ([app/core/agent_engine.py]), the prompt compiler
    ([app/core/compiler.py]), the setup orchestrator ([app/core/setup.py]),
    the bot pool ([app/core/bot_pool.py]) and the webhook dispatcher
    ([app/routers/webhooks.py]).

    Conventions.
    - Python [int] is [Z]; Python [str] is [string], read as ASCII text.
    - An integer column holds any [Z]: the overflow of the engine's INTEGER
      type is not modelled, and a property that needs a write to succeed
      states the range of the values written.
    - The SQL session is an explicit database value [Db] threaded through
      every operation; [session.commit()] is counted in [commits].
    - A raised exception is the [Raise] case of [result]; [is_Exception]
      tells the exceptions that [except Exception] catches.
    - A table is the list of its rows in creation order; the order in
      which a select without ORDER BY returns rows is a parameter
      ([row_order] in [BotPoolManager]).
    - A reading of [datetime.utcnow()] is an explicit argument [now]. *)

From Stdlib Require Import ZArith String Ascii List Bool Lia DecimalString DecimalZ Sorted.
From stdpp Require Import base option list gmap strings.

Open Scope string_scope.
Open Scope Z_scope.

(* ===================================================================== *)
(** ** Python string primitives *)
(* ===================================================================== *)

Module PyStr.

(** [c.lower()] on one ASCII character. *)
Definition lower_ascii (c : ascii) : ascii :=
  let n := N_of_ascii c in
  if ((65 <=? n)%N && (n <=? 90)%N)%bool then ascii_of_N (n + 32) else c.

(** [s.lower()]. *)
Fixpoint lower (s : string) : string :=
  match s with
  | EmptyString => EmptyString
  | String c r => String (lower_ascii c) (lower r)
  end.

(** [kw in s] on strings: [kw] occurs in [s] as a contiguous substring. *)
Fixpoint contains (kw s : string) : bool :=
  if String.prefix kw s then true
  else match s with
       | EmptyString => false
       | String _ r => contains kw r
       end.

(** [x in xs] for a list of strings. *)
Fixpoint str_in (x : string) (xs : list string) : bool :=
  match xs with
  | [] => false
  | y :: r => if String.eqb x y then true else str_in x r
  end.

(** [any(word in s for word in words)]. *)
Fixpoint any_in (words : list string) (s : string) : bool :=
  match words with
  | [] => false
  | w :: r => if contains w s then true else any_in r s
  end.

(** The characters removed by [str.strip()] with no argument. *)
Definition is_space (c : ascii) : bool :=
  let n := N_of_ascii c in
  ((n =? 32)%N || ((9 <=? n)%N && (n <=? 13)%N) || ((28 <=? n)%N && (n <=? 31)%N))%bool.

Fixpoint lstrip (s : string) : string :=
  match s with
  | EmptyString => EmptyString
  | String c r => if is_space c then lstrip r else s
  end.

Fixpoint rstrip (s : string) : string :=
  match s with
  | EmptyString => EmptyString
  | String c r =>
      match rstrip r with
      | EmptyString => if is_space c then EmptyString else String c EmptyString
      | r' => String c r'
      end
  end.

(** [s.strip()]. *)
Definition strip (s : string) : string := rstrip (lstrip s).

(** [str(n)] / [f"{n}"] for an integer. *)
Definition str_int (n : Z) : string := NilZero.string_of_int (Z.to_int n).

(** [x or default] for an optional string: [None] and [""] are falsy. *)
Definition or_default (x : option string) (d : string) : string :=
  match x with
  | None => d
  | Some EmptyString => d
  | Some s => s
  end.

End PyStr.

(** Outcome of a call that may raise.  [CancelledError] (of [asyncio]) and
    [OtherBaseException] ([KeyboardInterrupt], [SystemExit],
    [GeneratorExit]) derive from [BaseException] and not from [Exception];
    every other constructor is a subclass of [Exception]. *)
Inductive exn : Type :=
| AttributeError (msg : string)
| ValueError (msg : string)
| RuntimeError (msg : string)
| BotPoolExhaustedException (msg : string)
| KeyError (msg : string)
| IntegrityError (msg : string)
| OtherException (msg : string)
| CancelledError (msg : string)
| OtherBaseException (msg : string).

(** [str(e)] *)
Definition exn_str (e : exn) : string :=
  match e with
  | AttributeError m | ValueError m | RuntimeError m
  | BotPoolExhaustedException m | KeyError m | IntegrityError m
  | OtherException m | CancelledError m | OtherBaseException m => m
  end.

(** [isinstance(e, Exception)]: what [except Exception] catches. *)
Definition is_Exception (e : exn) : bool :=
  match e with
  | CancelledError _ | OtherBaseException _ => false
  | _ => true
  end.

Inductive result (A : Type) : Type :=
| Ok (a : A)
| Raise (e : exn).
Arguments Ok {A} a.
Arguments Raise {A} e.

(* ===================================================================== *)
(** ** app/core/router.py *)
(* ===================================================================== *)

Module Router.

Inductive Intent : Type := SETUP | TASK | ACCOUNT | HELP.

Record RouterResponse : Type := {
  intent : Intent;
  handler : string;
  confidence_permille : Z
}.

Definition SETUP_KEYWORDS : list string :=
  ["connect"; "add"; "change"; "configure"; "set up"; "link";
   "integrate"; "setup"; "install"; "enable"; "activate"].

Definition ACCOUNT_KEYWORDS : list string :=
  ["credits"; "balance"; "buy"; "purchase"; "payment";
   "subscription"; "plan"; "billing"; "how many credits"].

Definition HELP_KEYWORDS : list string :=
  ["help"; "what can you"; "how do i"; "how to"; "?";
   "explain"; "assist"; "support"].

Definition TASK_KEYWORDS : list string :=
  ["help me"; "send"; "find"; "create"; "book"; "write";
   "make"; "get"; "show"; "tell me"; "do"].

(** One [for keyword in KEYWORDS: if keyword in message_lower: return i]
    loop; [None] when the loop falls through. *)
Fixpoint first_match (kws : list string) (message_lower : string) (i : Intent)
  : option Intent :=
  match kws with
  | [] => None
  | keyword :: rest =>
      if PyStr.contains keyword message_lower then Some i
      else first_match rest message_lower i
  end.

Definition classify_intent (message : string) : Intent :=
  let message_lower := PyStr.lower message in
  match first_match SETUP_KEYWORDS message_lower SETUP with
  | Some i => i
  | None =>
    match first_match ACCOUNT_KEYWORDS message_lower ACCOUNT with
    | Some i => i
    | None =>
      match first_match HELP_KEYWORDS message_lower HELP with
      | Some i => i
      | None => TASK
      end
    end
  end.

Definition handler_map (i : Intent) : string :=
  match i with
  | SETUP => "SetupOrchestrator"
  | TASK => "AgentEngine"
  | ACCOUNT => "AccountManager"
  | HELP => "HelpResponder"
  end.

(** [client_id], [channel] and [context] are accepted and ignored. *)
Definition route (client_id : Z) (message : string) (channel : string)
  : RouterResponse :=
  let i := classify_intent message in
  {| intent := i; handler := handler_map i; confidence_permille := 900 |}.

End Router.

(* ===================================================================== *)
(** ** app/models.py *)
(* ===================================================================== *)

Module Models.

Inductive BotStatus : Type := AVAILABLE | ASSIGNED | RETIRED.

Inductive TransactionType : Type := PURCHASE | DEDUCT | REFUND | WELCOME.

Record AgentConfig : Type := {
  ac_id : Z;
  ac_client_id : Z;
  agent_name : string;
  personality : string;
  language : string;
  custom_instructions : option string;
  compiled_system_prompt : option string;
  ac_updated_at : Z
}.

Record BotPool : Type := {
  bp_id : Z;
  bot_token : string;
  bot_username : string;
  bot_name : string;
  status : BotStatus;
  assigned_to_client_id : option Z;
  assigned_at : option Z;
  bp_created_at : Z
}.

(** The mapped columns of [setup_sessions].  The answers column is
    [collected_data_json]. *)
Record SetupSession : Type := {
  ss_id : Z;
  ss_client_id : Z;
  flow_name : string;
  current_step : nat;
  collected_data_json : option string;
  started_at : Z;
  completed_at : option Z
}.

Record CreditAccount : Type := {
  ca_client_id : Z;
  balance : Z;
  total_purchased : Z;
  total_used : Z;
  ca_updated_at : Z
}.

Record CreditTransaction : Type := {
  ct_client_id : Z;
  amount : Z;
  type_ : TransactionType;
  description : option string;
  ct_created_at : Z
}.

(** The database behind a [Session].  [agent_configs] and
    [credit_accounts] carry a unique [client_id] and are keyed by it; the
    other tables are rows in insertion order.  [commits] counts the calls
    of [session.commit()]. *)
Record Db : Type := {
  agent_configs : gmap Z AgentConfig;
  credit_accounts : gmap Z CreditAccount;
  credit_transactions : list CreditTransaction;
  setup_sessions : list SetupSession;
  bot_pool : list BotPool;
  commits : nat
}.

Definition empty_db : Db :=
  {| agent_configs := ∅; credit_accounts := ∅; credit_transactions := [];
     setup_sessions := []; bot_pool := []; commits := 0 |}.

(** [session.add(account); session.add(transaction); session.commit()]:
    the account row of [client_id] is written (inserted when new), the
    transaction row appended, in one commit. *)
Definition commit_credit (client_id : Z) (account : CreditAccount)
    (transaction : CreditTransaction) (db : Db) : Db :=
  {| agent_configs := agent_configs db;
     credit_accounts := <[client_id := account]> (credit_accounts db);
     credit_transactions := credit_transactions db ++ [transaction];
     setup_sessions := setup_sessions db;
     bot_pool := bot_pool db;
     commits := S (commits db) |}.

Definition with_setup_sessions (rows : list SetupSession) (db : Db) : Db :=
  {| agent_configs := agent_configs db;
     credit_accounts := credit_accounts db;
     credit_transactions := credit_transactions db;
     setup_sessions := rows;
     bot_pool := bot_pool db;
     commits := S (commits db) |}.

Definition with_bot_pool (rows : list BotPool) (db : Db) : Db :=
  {| agent_configs := agent_configs db;
     credit_accounts := credit_accounts db;
     credit_transactions := credit_transactions db;
     setup_sessions := setup_sessions db;
     bot_pool := rows;
     commits := S (commits db) |}.

End Models.

(* ===================================================================== *)
(** ** app/core/credit_manager.py *)
(* ===================================================================== *)

Module CreditManager.
Import Models.

Definition get_balance (client_id : Z) (session : Db) : Z :=
  match credit_accounts session !! client_id with
  | Some account => balance account
  | None => 0
  end.

Definition add_credits (client_id amount : Z) (source : string) (now : Z)
    (session : Db) : bool * Db :=
  let account :=
    match credit_accounts session !! client_id with
    | None =>
        {| ca_client_id := client_id; balance := amount;
           total_purchased := amount; total_used := 0;
           ca_updated_at := now |}
    | Some account =>
        {| ca_client_id := ca_client_id account;
           balance := balance account + amount;
           total_purchased := total_purchased account + amount;
           total_used := total_used account;
           ca_updated_at := now |}
    end in
  let transaction :=
    {| ct_client_id := client_id; amount := amount;
       type_ := if PyStr.contains "purchase" (PyStr.lower source)
                then PURCHASE else WELCOME;
       description := Some source; ct_created_at := now |} in
  (true, commit_credit client_id account transaction session).

Definition deduct_credits (client_id amount : Z) (description : string)
    (now : Z) (session : Db) : bool * Db :=
  match credit_accounts session !! client_id with
  | None => (false, session)
  | Some account =>
      if balance account <? amount then (false, session)
      else
        let account' :=
          {| ca_client_id := ca_client_id account;
             balance := balance account - amount;
             total_purchased := total_purchased account;
             total_used := total_used account + amount;
             ca_updated_at := now |} in
        let transaction :=
          {| ct_client_id := client_id; amount := - amount;
             type_ := DEDUCT; description := Some description;
             ct_created_at := now |} in
        (true, commit_credit client_id account' transaction session)
  end.

Definition check_low_balance (client_id : Z) (session : Db) : option string :=
  let balance := get_balance client_id session in
  if balance <? 50
  then Some ("⚠️ You have " +:+ PyStr.str_int balance
             +:+ " credits left. Reply 'buy credits' to top up.")
  else None.

End CreditManager.

(* ===================================================================== *)
(** ** app/core/compiler.py *)
(* ===================================================================== *)

Module SystemPromptCompiler.
Import Models.

Definition nl : string := String (ascii_of_nat 10) EmptyString.

(** [personality_styles.get(personality, "helpful and professional")] *)
Definition personality_styles : list (string * string) :=
  [("formal", "professional, formal, and business-like");
   ("friendly", "warm, friendly, and approachable");
   ("brief", "concise, brief, and to-the-point")].

Fixpoint dict_get {A : Type} (d : list (string * A)) (k : string) (dflt : A) : A :=
  match d with
  | [] => dflt
  | (k', v) :: r => if String.eqb k k' then v else dict_get r k dflt
  end.

Definition compile (config : AgentConfig) : string :=
  let style := dict_get personality_styles (personality config)
                        "helpful and professional" in
  let prompt :=
    "You are " +:+ agent_name config +:+ "." +:+ nl
    +:+ nl
    +:+ "Communication style: " +:+ style +:+ nl
    +:+ "Primary language: " +:+ language config +:+ nl
    +:+ nl
    +:+ "About the business:" +:+ nl
    +:+ PyStr.or_default (custom_instructions config)
          "I help businesses automate their operations with AI." +:+ nl
    +:+ nl
    +:+ "Guidelines:" +:+ nl
    +:+ "- Always be helpful, concise, and stay in character" +:+ nl
    +:+ "- If you cannot help with something, say so clearly and suggest alternatives" +:+ nl
    +:+ "- Remember: users configure everything by talking to you" +:+ nl
    +:+ "- Guide them through setup naturally" +:+ nl
    +:+ "- Be proactive in suggesting next steps" +:+ nl in
  PyStr.strip prompt.

Definition compile_with_tools (config : AgentConfig)
    (enabled_integrations : list string) : string :=
  let base_prompt := compile config in
  match enabled_integrations with
  | [] => base_prompt
  | _ =>
      let tools_text :=
        fold_left (fun acc integration => acc +:+ "- " +:+ integration +:+ nl)
                  enabled_integrations (nl +:+ "Connected tools:" +:+ nl) in
      base_prompt +:+ nl +:+ tools_text
  end.

End SystemPromptCompiler.

(* ===================================================================== *)
(** ** app/core/agent_engine.py *)
(* ===================================================================== *)

Module AgentEngine.
Import Models.

(** One entry of the conversation memory: role and content. *)
Definition MemoryItem : Type := (string * string)%type.

(** [BaseRuntime]: the abstract LLM runtime.  [run] returns the response
    text or raises. *)
Class BaseRuntime : Type := {
  run : string -> string -> list MemoryItem -> result string
}.

(** The cost variables of the process environment, already read as
    integers; [None] when a variable is not set. *)
Record CostEnv : Type := {
  COST_TELEGRAM_MSG : option Z;
  COST_EMAIL : option Z;
  COST_VOIP_PER_MIN : option Z;
  COST_SMS : option Z;
  COST_WEB_WIDGET : option Z
}.

Definition default_env : CostEnv :=
  {| COST_TELEGRAM_MSG := None; COST_EMAIL := None; COST_VOIP_PER_MIN := None;
     COST_SMS := None; COST_WEB_WIDGET := None |}.

(** [int(os.getenv(name, dflt))] *)
Definition getenv_int (v : option Z) (dflt : Z) : Z :=
  match v with Some n => n | None => dflt end.

Definition config_error : string := "Error: Agent not configured".
Definition out_of_credits : string :=
  "⚠️ You've run out of credits. Reply 'buy credits' to top up.".
Definition apology : string := "Sorry, I encountered an error. Please try again.".

Definition _load_config (client_id : Z) (session : Db) : option AgentConfig :=
  agent_configs session !! client_id.

Definition _load_memory (client_id : Z) (session : Db) : list MemoryItem := [].

Definition _save_memory (client_id : Z) (message response : string)
    (session : Db) : Db := session.

Definition _get_credit_cost (env : CostEnv) (channel_type : string) : Z :=
  let costs :=
    [("telegram", getenv_int (COST_TELEGRAM_MSG env) 1);
     ("email", getenv_int (COST_EMAIL env) 2);
     ("voip", getenv_int (COST_VOIP_PER_MIN env) 2);
     ("sms", getenv_int (COST_SMS env) 1);
     ("web_widget", getenv_int (COST_WEB_WIDGET env) 1)] in
  SystemPromptCompiler.dict_get costs channel_type 1.

Definition _check_and_deduct_credits (client_id amount now : Z) (session : Db)
  : bool * Db :=
  match credit_accounts session !! client_id with
  | None => (false, session)
  | Some account =>
      if balance account <? amount then (false, session)
      else
        let account' :=
          {| ca_client_id := ca_client_id account;
             balance := balance account - amount;
             total_purchased := total_purchased account;
             total_used := total_used account + amount;
             ca_updated_at := now |} in
        let transaction :=
          {| ct_client_id := client_id; amount := - amount;
             type_ := DEDUCT;
             description :=
               Some ("Used " +:+ PyStr.str_int amount +:+ " credits");
             ct_created_at := now |} in
        (true, commit_credit client_id account' transaction session)
  end.

Definition _refund_credits (client_id amount : Z) (reason : string) (now : Z)
    (session : Db) : Db :=
  match credit_accounts session !! client_id with
  | Some account =>
      let account' :=
        {| ca_client_id := ca_client_id account;
           balance := balance account + amount;
           total_purchased := total_purchased account;
           total_used := total_used account - amount;
           ca_updated_at := now |} in
      let transaction :=
        {| ct_client_id := client_id; amount := amount;
           type_ := REFUND;
           description := Some ("Refund: " +:+ reason);
           ct_created_at := now |} in
      commit_credit client_id account' transaction session
  | None => session
  end.

Section Engine.
Context (runtime : BaseRuntime) (env : CostEnv).

(** The body of the [try] block of [execute]: load the memory, run the
    runtime, save the exchange; the first exception ends it. *)
Definition try_body (config : AgentConfig) (client_id : Z) (message : string)
    (session : Db) : result string * Db :=
  let memory := _load_memory client_id session in
  match run (PyStr.or_default (compiled_system_prompt config)
                              "You are a helpful AI assistant.")
            message memory with
  | Raise e => (Raise e, session)
  | Ok response =>
      (Ok response, _save_memory client_id message response session)
  end.

(** [now_deduct] and [now_refund] are the clock readings taken by the
    deduction and by the refund.  The handler is [except Exception]: an
    exception of the [try] block that is not an [Exception] leaves
    [execute] as it is, past the refund. *)
Definition execute (client_id : Z) (message channel_type : string)
    (now_deduct now_refund : Z) (session : Db) : result string * Db :=
  match _load_config client_id session with
  | None => (Ok config_error, session)
  | Some config =>
      let credit_cost := _get_credit_cost env channel_type in
      match _check_and_deduct_credits client_id credit_cost now_deduct session with
      | (false, session1) => (Ok out_of_credits, session1)
      | (true, session1) =>
          match try_body config client_id message session1 with
          | (Ok response, session2) => (Ok response, session2)
          | (Raise e, session2) =>
              if is_Exception e then
                (Ok apology,
                 _refund_credits client_id credit_cost
                   ("Error: " +:+ exn_str e) now_refund session2)
              else (Raise e, session2)
          end
      end
  end.

End Engine.

End AgentEngine.

(* ===================================================================== *)
(** ** app/core/setup.py *)
(* ===================================================================== *)

Module SetupOrchestrator.
Import Models.

(** A flat JSON object with string values, in key insertion order, as
    [json.loads] returns it and [json.dumps] writes it. *)
Definition AnswerDict : Type := list (string * string).

Fixpoint dict_lookup (d : AnswerDict) (k : string) : option string :=
  match d with
  | [] => None
  | (k', v) :: r => if String.eqb k k' then Some v else dict_lookup r k
  end.

(** [d[k] = v] *)
Fixpoint dict_set (d : AnswerDict) (k v : string) : AnswerDict :=
  match d with
  | [] => [(k, v)]
  | (k', v') :: r =>
      if String.eqb k k' then (k', v) :: r else (k', v') :: dict_set r k v
  end.

(** A [SetupFlow] subclass: its [name], [steps], [validate] and
    [execute] (the result dict as the pair of [success] and [message]). *)
Record SetupFlow : Type := {
  name : string;
  steps : list string;
  validate : nat -> string -> bool * option string;
  execute : AnswerDict -> bool * string
}.

Definition get_step_message (flow : SetupFlow) (step : nat) : string :=
  match nth_error (steps flow) step with
  | Some m => m
  | None => "Setup complete!"
  end.

Definition VoIPSetupFlow : SetupFlow :=
  {| name := "voip";
     steps :=
       ["Do you have a VoIP number or should I create one for you? (reply: 'have' or 'create')";
        "What should I say when I answer calls?";
        "Great! I'll configure this now."];
     validate := fun step user_input =>
       match step with
       | O =>
           if negb (PyStr.str_in (PyStr.lower user_input) ["have"; "create"])
           then (false,
                 Some "Please reply 'have' if you have a number, or 'create' if you need one.")
           else (true, None)
       | _ => (true, None)
       end;
     execute := fun _ =>
       (true, "✅ VoIP configured! Your number will be ready in a few minutes.") |}.

Definition PersonalitySetupFlow : SetupFlow :=
  {| name := "personality";
     steps :=
       ["What's your agent's name?";
        "How should it communicate? (formal / friendly / brief)";
        "What's your business about? Describe it in a few words.";
        "Any specific instructions? (languages, things to avoid, etc.)"];
     validate := fun step user_input =>
       match step with
       | 1%nat =>
           if negb (PyStr.str_in (PyStr.lower user_input)
                                 ["formal"; "friendly"; "brief"])
           then (false, Some "Please choose: formal, friendly, or brief")
           else (true, None)
       | _ => (true, None)
       end;
     execute := fun collected_data =>
       (true,
        "✅ Your agent '"
        +:+ match dict_lookup collected_data "name" with
            | Some v => v
            | None => "None"
            end
        +:+ "' is ready!") |}.

(** The class attribute [flows]; a [None] value is a flow not yet
    implemented. *)
Definition flows : list (string * option SetupFlow) :=
  [("voip", Some VoIPSetupFlow);
   ("sms", None);
   ("calendar", None);
   ("email", None);
   ("crm", None);
   ("web_widget", None);
   ("personality", Some PersonalitySetupFlow)].

(** [cls.flows.get(flow_name)]; a missing key and a [None] value are both
    falsy for the caller. *)
Definition flows_get (flow_name : string) : option SetupFlow :=
  SystemPromptCompiler.dict_get flows flow_name None.

(** A [SetupSession] object in memory: the mapped columns, and the
    attribute [collected_data], which is not a column of the model.
    [collected_data = None] is an object on which the attribute was never
    set; [Some None] is the attribute holding Python's [None]; [Some (Some
    d)] is the attribute holding the JSON text of [d]. *)
Record SetupSessionObj : Type := {
  row : SetupSession;
  collected_data : option (option AnswerDict)
}.

(** An object loaded by a query carries the mapped columns only. *)
Definition loaded (r : SetupSession) : SetupSessionObj :=
  {| row := r; collected_data := None |}.

Definition is_active (client_id : Z) (r : SetupSession) : bool :=
  (ss_client_id r =? client_id)
  && match completed_at r with None => true | Some _ => false end.

Definition _get_active_session (client_id : Z) (session : Db)
  : option SetupSession :=
  find (is_active client_id) (setup_sessions session).

Definition _detect_flow (message : string) : option string :=
  let message_lower := PyStr.lower message in
  if PyStr.any_in ["phone"; "voip"; "call"; "number"] message_lower
  then Some "voip"
  else if PyStr.any_in ["personality"; "name"; "style"; "character"] message_lower
  then Some "personality"
  else None.

(** The primary key the database gives the next inserted row. *)
Definition next_id (rows : list SetupSession) : Z :=
  1 + fold_right Z.max 0 (map ss_id rows).

(** [session.add(obj); session.commit()] for a new object: the mapped
    columns are inserted. *)
Definition insert_session (r : SetupSession) (session : Db) : Db :=
  with_setup_sessions (setup_sessions session ++ [r]) session.

(** [session.add(obj); session.commit()] for a loaded object: the mapped
    columns of its row are written back. *)
Definition update_session (r : SetupSession) (session : Db) : Db :=
  with_setup_sessions
    (map (fun r' => if ss_id r' =? ss_id r then r else r')
         (setup_sessions session))
    session.

Definition set_completed_at (t : option Z) (r : SetupSession) : SetupSession :=
  {| ss_id := ss_id r; ss_client_id := ss_client_id r;
     flow_name := flow_name r; current_step := current_step r;
     collected_data_json := collected_data_json r;
     started_at := started_at r; completed_at := t |}.

Definition set_current_step (n : nat) (r : SetupSession) : SetupSession :=
  {| ss_id := ss_id r; ss_client_id := ss_client_id r;
     flow_name := flow_name r; current_step := n;
     collected_data_json := collected_data_json r;
     started_at := started_at r; completed_at := completed_at r |}.

Definition cancelled_msg : string :=
  "Setup cancelled. You can start again anytime by saying 'setup'.".
Definition menu_msg : string :=
  "I can help you set up: phone (VoIP), email, calendar, or customize my personality. Which would you like?".

(** The constructor is given [collected_data="{}"], which is not a field
    of the model: the inserted row has the column defaults, so
    [collected_data_json] is [None]. *)
Definition _start_flow (client_id : Z) (flow_name : string) (now : Z)
    (session : Db) : result string * Db :=
  match flows_get flow_name with
  | None =>
      (Ok ("Sorry, I don't know how to set up " +:+ flow_name +:+ " yet."),
       session)
  | Some flow =>
      let setup_session :=
        {| ss_id := next_id (setup_sessions session);
           ss_client_id := client_id; flow_name := flow_name;
           current_step := 0%nat; collected_data_json := None;
           started_at := now; completed_at := None |} in
      (Ok (get_step_message flow 0), insert_session setup_session session)
  end.

Definition _continue_flow (client_id : Z) (setup_session : SetupSessionObj)
    (message : string) (now : Z) (session : Db)
  : result string * SetupSessionObj * Db :=
  if PyStr.str_in (PyStr.lower message) ["cancel"; "stop"; "exit"] then
    let r := set_completed_at (Some now) (row setup_session) in
    (Ok cancelled_msg,
     {| row := r; collected_data := collected_data setup_session |},
     update_session r session)
  else
    match flows_get (flow_name (row setup_session)) with
    | None => (Ok "Error: Unknown setup flow.", setup_session, session)
    | Some flow =>
        let current_step := current_step (row setup_session) in
        match validate flow current_step message with
        | (false, error) =>
            (Ok (default "None" error), setup_session, session)
        | (true, _) =>
            (* setup_session.collected_data is read here *)
            match collected_data setup_session with
            | None =>
                (Raise (AttributeError
                   "'SetupSession' object has no attribute 'collected_data'"),
                 setup_session, session)
            | Some text =>
                let collected := default [] text in
                let collected :=
                  dict_set collected
                    ("step_" +:+ PyStr.str_int (Z.of_nat current_step))
                    message in
                let current_step := S current_step in
                let r := set_current_step current_step (row setup_session) in
                let session1 := update_session r session in
                if (length (steps flow) <=? current_step)%nat then
                  let result := execute flow collected in
                  let r2 := set_completed_at (Some now) r in
                  (Ok (snd result),
                   {| row := r2; collected_data := Some (Some collected) |},
                   update_session r2 session1)
                else
                  (Ok (get_step_message flow current_step),
                   {| row := r; collected_data := Some (Some collected) |},
                   session1)
            end
        end
    end.

Definition handle (client_id : Z) (message : string) (now : Z) (session : Db)
  : result string * Db :=
  match _get_active_session client_id session with
  | Some active_session =>
      let '(reply, _, session') :=
        _continue_flow client_id (loaded active_session) message now session in
      (reply, session')
  | None =>
      match _detect_flow message with
      | Some flow_name => _start_flow client_id flow_name now session
      | None => (Ok menu_msg, session)
      end
  end.

End SetupOrchestrator.

(* ===================================================================== *)
(** ** app/core/bot_pool.py *)
(* ===================================================================== *)

Module BotPoolManager.
Import Models.

(** The [result] object of Telegram's [getMe], a JSON object that is not
    empty (it carries [id] and [is_bot]).  Of its keys [add_bot] reads
    [username] and [first_name]; each of the two is missing ([None]),
    [null] ([Some None]) or a string. *)
Record BotInfo : Type := {
  username : option (option string);
  first_name : option (option string)
}.

Record PoolStatus : Type := {
  ps_available : nat;
  ps_assigned : nat;
  ps_retired : nat;
  ps_total : nat;
  ps_low_alert : bool
}.

Definition status_eqb (a b : BotStatus) : bool :=
  match a, b with
  | AVAILABLE, AVAILABLE | ASSIGNED, ASSIGNED | RETIRED, RETIRED => true
  | _, _ => false
  end.

Definition is_available (b : BotPool) : bool := status_eqb (status b) AVAILABLE.

Definition is_assigned_to (client_id : Z) (b : BotPool) : bool :=
  match assigned_to_client_id b with
  | Some c => (c =? client_id) && status_eqb (status b) ASSIGNED
  | None => false
  end.

(** The primary key the database gives the next inserted row. *)
Definition next_id (rows : list BotPool) : Z :=
  1 + fold_right Z.max 0 (map bp_id rows).

(** [session.add(bot); session.commit()] for a loaded row: the row with
    the primary key of [bot] is rewritten. *)
Definition update_bot (bot : BotPool) (session : Db) : Db :=
  with_bot_pool
    (map (fun b => if bp_id b =? bp_id bot then bot else b) (bot_pool session))
    session.

Section Pool.
(** The Telegram [getMe] call and the Fernet encryption are outside the
    program. *)
Variable validate_bot_token : string -> option BotInfo.
Variable encrypt_token : string -> string.
(** [LOW_POOL_THRESHOLD], read from the environment (10 when unset). *)
Variable LOW_POOL_THRESHOLD : Z.

(** [bot_info["username"]] raises [KeyError] when the key is missing;
    [bot_info.get("first_name", bot_username)] falls back only when the key
    is missing.  The columns [bot_username] and [bot_name] are NOT NULL:
    the commit of a row with a null in one of them raises [IntegrityError]
    and stores nothing.  A Fernet token carries a random initialisation
    vector of its own, so the UNIQUE constraint on [bot_token] is never
    hit and is not modelled. *)
Definition add_bot (token : string) (now : Z) (session : Db)
  : result BotPool * Db :=
  match validate_bot_token token with
  | None => (Raise (ValueError "Invalid bot token"), session)
  | Some bot_info =>
      match username bot_info with
      | None => (Raise (KeyError "'username'"), session)
      | Some bot_username =>
          let bot_name :=
            match first_name bot_info with
            | Some value => value
            | None => bot_username
            end in
          let encrypted_token := encrypt_token token in
          match bot_username, bot_name with
          | Some bot_username, Some bot_name =>
              let bot_record :=
                {| bp_id := next_id (bot_pool session);
                   bot_token := encrypted_token;
                   bot_username := bot_username;
                   bot_name := bot_name;
                   status := AVAILABLE;
                   assigned_to_client_id := None;
                   assigned_at := None;
                   bp_created_at := now |} in
              (Ok bot_record,
               with_bot_pool (bot_pool session ++ [bot_record]) session)
          | _, _ =>
              (Raise (IntegrityError "NOT NULL constraint failed: bot_pool"),
               session)
          end
      end
  end.

(** [session.exec(statement).all()] for the statement of [claim_bot],
    which has no ORDER BY: the database engine returns the rows that match
    in an order of its own.  [row_order session rows] is that order for
    the rows [rows] that match in [session]. *)
Variable row_order : Db -> list BotPool -> list BotPool.

Definition claim_bot (client_id : Z) (now : Z) (session : Db)
  : result BotPool * Db :=
  let available_bots :=
    row_order session (List.filter is_available (bot_pool session)) in
  match available_bots with
  | [] =>
      (Raise (BotPoolExhaustedException "No bots available in pool"), session)
  | bot :: _ =>
      let bot' :=
        {| bp_id := bp_id bot;
           bot_token := bot_token bot;
           bot_username := bot_username bot;
           bot_name := bot_name bot;
           status := ASSIGNED;
           assigned_to_client_id := Some client_id;
           assigned_at := Some now;
           bp_created_at := bp_created_at bot |} in
      (Ok bot', update_bot bot' session)
  end.

Definition release_bot (client_id : Z) (session : Db) : bool * Db :=
  match find (is_assigned_to client_id) (bot_pool session) with
  | None => (false, session)
  | Some bot =>
      let bot' :=
        {| bp_id := bp_id bot;
           bot_token := bot_token bot;
           bot_username := bot_username bot;
           bot_name := bot_name bot;
           status := AVAILABLE;
           assigned_to_client_id := None;
           assigned_at := None;
           bp_created_at := bp_created_at bot |} in
      (true, update_bot bot' session)
  end.

Definition retire_bot (bot_id : Z) (session : Db) : bool * Db :=
  match find (fun b => bp_id b =? bot_id) (bot_pool session) with
  | None => (false, session)
  | Some bot =>
      let bot' :=
        {| bp_id := bp_id bot;
           bot_token := bot_token bot;
           bot_username := bot_username bot;
           bot_name := bot_name bot;
           status := RETIRED;
           assigned_to_client_id := None;
           assigned_at := assigned_at bot;
           bp_created_at := bp_created_at bot |} in
      (true, update_bot bot' session)
  end.

Definition count_status (st : BotStatus) (rows : list BotPool) : nat :=
  length (List.filter (fun b => status_eqb (status b) st) rows).

Definition get_pool_status (session : Db) : PoolStatus :=
  let all_bots := bot_pool session in
  let available := count_status AVAILABLE all_bots in
  {| ps_available := available;
     ps_assigned := count_status ASSIGNED all_bots;
     ps_retired := count_status RETIRED all_bots;
     ps_total := length all_bots;
     ps_low_alert := Z.of_nat available <? LOW_POOL_THRESHOLD |}.

Definition get_bot_for_client (client_id : Z) (session : Db) : option BotPool :=
  find (is_assigned_to client_id) (bot_pool session).

End Pool.

End BotPoolManager.

(* ===================================================================== *)
(** ** app/routers/webhooks.py *)
(* ===================================================================== *)

Module Webhooks.
Import Models.

Definition help_msg : string :=
  "I can help with setup, tasks, and account questions. Ask me anything.".

Definition balance_msg (balance : Z) : string :=
  "You currently have " +:+ PyStr.str_int balance +:+ " credits.".

Section Dispatch.
Context (runtime : AgentEngine.BaseRuntime) (env : AgentEngine.CostEnv).

(** [now] is the clock reading of the first timestamp a path takes,
    [now_refund] the one of the refund. *)
Definition _dispatch_incoming_message (client_id : Z) (text : string)
    (now now_refund : Z) (db : Db) (channel_type : string)
  : result string * Db :=
  let route_result := Router.route client_id text channel_type in
  if String.eqb (Router.handler route_result) "SetupOrchestrator" then
    SetupOrchestrator.handle client_id text now db
  else if String.eqb (Router.handler route_result) "AccountManager" then
    let balance := CreditManager.get_balance client_id db in
    (Ok (balance_msg balance), db)
  else if String.eqb (Router.handler route_result) "HelpResponder" then
    (Ok help_msg, db)
  else
    AgentEngine.execute runtime env client_id text channel_type
                        now now_refund db.

End Dispatch.

End Webhooks.

(* ===================================================================== *)
(** ** app/core/bot_pool.py, admin helpers *)
(* ===================================================================== *)

Module BotPoolAdmin.
Import Models.

Section Admin.
Variable validate_bot_token : string -> option BotPoolManager.BotInfo.
Variable encrypt_token : string -> string.
(** [clock i] is the clock reading taken while the [i]-th token is added. *)
Variable clock : nat -> Z.

(** The loop of [admin_bulk_add_bots] from the [i]-th token on, with the
    counters so far.  Only [ValueError] is caught. *)
Fixpoint bulk_loop (tokens : list string) (i added invalid : nat) (session : Db)
  : result (nat * nat) * Db :=
  match tokens with
  | [] => (Ok (added, invalid), session)
  | token :: rest =>
      match BotPoolManager.add_bot validate_bot_token encrypt_token
              (PyStr.strip token) (clock i) session with
      | (Ok _, session') => bulk_loop rest (S i) (S added) invalid session'
      | (Raise (ValueError _), session') =>
          bulk_loop rest (S i) added (S invalid) session'
      | (Raise e, session') => (Raise e, session')
      end
  end.

(** The result dict as the pair of [added] and [invalid]. *)
Definition admin_bulk_add_bots (tokens : list string) (session : Db)
  : result (nat * nat) * Db :=
  bulk_loop tokens 0 0 0 session.

End Admin.

End BotPoolAdmin.

(* ===================================================================== *)
(** ** JSON values *)
(* ===================================================================== *)

Module Json.

(** A parsed JSON value, as [response.json()] and [request.json()] return
    it.  A dict is kept as its key/value pairs with distinct keys; numbers
    are integers (no function below looks into a number). *)
#[warnings="-register-all"]
Inductive json : Type :=
| JNull
| JBool (b : bool)
| JInt (n : Z)
| JStr (s : string)
| JList (l : list json)
| JDict (d : list (string * json)).

(** [d.get(k)] *)
Fixpoint get (d : list (string * json)) (k : string) : option json :=
  match d with
  | [] => None
  | (k', v) :: r => if String.eqb k k' then Some v else get r k
  end.

(** [bool(v)]: [None], [False], [0], [""], [[]] and [{}] are falsy. *)
Definition truthy (v : json) : bool :=
  match v with
  | JNull => false
  | JBool b => b
  | JInt n => negb (n =? 0)
  | JStr s => negb (String.eqb s "")
  | JList l => match l with [] => false | _ => true end
  | JDict d => match d with [] => false | _ => true end
  end.

(** [a or b] on optional values, where a missing key reads as [None]. *)
Definition or_else (a : option json) (b : option json) : option json :=
  match a with
  | Some v => if truthy v then Some v else b
  | None => b
  end.

End Json.

(* ===================================================================== *)
(** ** app/core/agent_engine.py, OpenClawRuntime *)
(* ===================================================================== *)

Module OpenClawRuntime.
Import Json.

(** One item of the memory list: [item.get("role")] and
    [item.get("content")], [None] when the key is missing. *)
Definition RawMemoryItem : Type := (option string * option string)%type.

(** The attributes [__init__] reads from the environment. *)
Record Settings : Type := {
  api_url : string;
  api_key : option string;
  model : option string;
  chat_endpoint : string
}.

(** The request payload: the messages as role/content pairs, and the
    optional keys [model] and [tools]. *)
Record Payload : Type := {
  messages : list (string * string);
  payload_model : option string;
  payload_tools : option (list json)
}.

Definition nonempty (s : string) : bool := negb (String.eqb s "").

(** The loop over the memory: an item is appended when its role and its
    content are both truthy. *)
Fixpoint append_memory (messages : list (string * string))
    (memory : list RawMemoryItem) : list (string * string) :=
  match memory with
  | [] => messages
  | (Some role, Some content) :: rest =>
      if nonempty role && nonempty content
      then append_memory (messages ++ [(role, content)])%list rest
      else append_memory messages rest
  | _ :: rest => append_memory messages rest
  end.

Definition _build_payload (self : Settings) (system_prompt message : string)
    (memory : list RawMemoryItem) (tools : option (list json)) : Payload :=
  let messages : list (string * string) := [] in
  let messages :=
    if nonempty system_prompt then (messages ++ [("system", system_prompt)])%list
    else messages in
  let messages := append_memory messages memory in
  let messages := (messages ++ [("user", message)])%list in
  {| messages := messages;
     payload_model :=
       match model self with
       | Some m => if nonempty m then Some m else None
       | None => None
       end;
     payload_tools :=
       match tools with
       | Some (t :: ts) => Some (t :: ts)
       | _ => None
       end |}.

(** [isinstance(s, str) and s.strip()] *)
Definition nonblank (s : string) : bool := nonempty (PyStr.strip s).

(** The text a part of a content list contributes: [part.get("text", "")]
    for a dict part whose ["text"] is a string; other parts are left out. *)
Definition part_text (part : json) : list string :=
  match part with
  | JDict p =>
      match get p "text" with
      | Some (JStr t) => [t]
      | _ => []
      end
  | _ => []
  end.

(** ["".join(parts)] *)
Definition join (parts : list string) : string :=
  fold_right String.append "" parts.

(** The text found under [first["message"]["content"]], if any. *)
Definition message_text (first : json) : option string :=
  match first with
  | JDict f =>
      match get f "message" with
      | Some (JDict m) =>
          match get m "content" with
          | Some (JStr content) =>
              if nonblank content then Some content else None
          | Some (JList content) =>
              let combined := PyStr.strip (join (flat_map part_text content)) in
              if nonempty combined then Some combined else None
          | _ => None
          end
      | _ => None
      end
  | _ => None
  end.

(** The text found under [first["text"]], if any. *)
Definition choice_text (first : json) : option string :=
  match first with
  | JDict f =>
      match get f "text" with
      | Some (JStr t) => if nonblank t then Some t else None
      | _ => None
      end
  | _ => None
  end.

(** The loop over the keys of the simpler response shapes. *)
Fixpoint simple_text (data : list (string * json)) (keys : list string)
  : option string :=
  match keys with
  | [] => None
  | key :: rest =>
      match get data key with
      | Some (JStr value) =>
          if nonblank value then Some value else simple_text data rest
      | _ => simple_text data rest
      end
  end.

Definition _extract_response_text (data : list (string * json)) : option string :=
  let simple := simple_text data ["response"; "text"; "output"] in
  match get data "choices" with
  | Some (JList (c0 :: _)) =>
      let first := if truthy c0 then c0 else JDict [] in
      match message_text first with
      | Some t => Some t
      | None =>
          match choice_text first with
          | Some t => Some t
          | None => simple
          end
      end
  | _ => simple
  end.

(** The headers of the request: the bearer token only when a key is set. *)
Definition headers (self : Settings) : list (string * string) :=
  match api_key self with
  | Some k =>
      if nonempty k
      then [("Content-Type", "application/json"); ("Authorization", "Bearer " +:+ k)]
      else [("Content-Type", "application/json")]
  | None => [("Content-Type", "application/json")]
  end.

Section Run.
(** The HTTP exchange: from the URL, the payload and the headers to the
    parsed response body, or to the exception of the client, of the
    status check or of the parser. *)
Variable post : string -> Payload -> list (string * string) -> result json.

Definition run (self : Settings) (system_prompt message : string)
    (memory : list RawMemoryItem) (tools : option (list json)) : result string :=
  let payload := _build_payload self system_prompt message memory tools in
  match post (api_url self +:+ chat_endpoint self) payload (headers self) with
  | Raise e => Raise e
  | Ok (JDict data) =>
      match _extract_response_text data with
      | None => Raise (RuntimeError "OpenClaw API response missing assistant text")
      | Some EmptyString =>
          Raise (RuntimeError "OpenClaw API response missing assistant text")
      | Some response_text => Ok response_text
      end
  | Ok _ => Raise (RuntimeError "OpenClaw API returned invalid response payload")
  end.

(** The runtime as the engine uses it: memory items with both fields, no
    tools. *)
Definition as_runtime (self : Settings) : AgentEngine.BaseRuntime :=
  {| AgentEngine.run := fun system_prompt message memory =>
       run self system_prompt message
           (map (fun '(role, content) => (Some role, Some content)) memory)
           None |}.

End Run.

End OpenClawRuntime.

(* ===================================================================== *)
(** ** app/routers/webhooks.py, Twilio channel lookup *)
(* ===================================================================== *)

Module TwilioLookup.

Inductive ChannelType : Type := TELEGRAM | EMAIL | VOIP | SMS | WEB_WIDGET.

(** A row of [channels]. *)
Record Channel : Type := {
  ch_id : Z;
  ch_client_id : Z;
  ch_type : ChannelType;
  identifier : string;
  telegram_bot_token : option string;
  telegram_bot_username : option string;
  email_address : option string;
  twilio_number : option string;
  active : bool;
  ch_created_at : Z
}.

(** [ch.isdigit()] on one ASCII character. *)
Definition is_digit (c : ascii) : bool :=
  ((48 <=? N_of_ascii c)%N && (N_of_ascii c <=? 57)%N)%bool.

(** ["".join(ch for ch in value if ch.isdigit())] *)
Fixpoint digits (value : string) : string :=
  match value with
  | EmptyString => EmptyString
  | String c r => if is_digit c then String c (digits r) else digits r
  end.

(** [value.startswith("+")] *)
Definition startswith_plus (value : string) : bool :=
  match value with
  | String c _ => Ascii.eqb c "+"%char
  | EmptyString => false
  end.

Definition _normalize_phone_number (number : option string) : option string :=
  match number with
  | None => None
  | Some EmptyString => None
  | Some n =>
      let value := PyStr.strip n in
      if String.eqb value "" then None
      else if startswith_plus value then Some ("+" +:+ digits value)
      else Some (digits value)
  end.

(** [a == b] for the normalized number of a channel and the normalized
    recipient. *)
Definition same_number (a : option string) (b : string) : bool :=
  match a with
  | Some x => String.eqb x b
  | None => false
  end.

(** [channels] is the table; the query keeps the active rows that have a
    Twilio number, in table order. *)
Definition _find_twilio_channel_by_number (channels : list Channel)
    (to_number : option string) : option Channel :=
  match _normalize_phone_number to_number with
  | None => None
  | Some EmptyString => None
  | Some normalized =>
      let selected :=
        List.filter
          (fun ch => active ch
                     && match twilio_number ch with Some _ => true | None => false end)
          channels in
      find (fun ch => same_number (_normalize_phone_number (twilio_number ch))
                                  normalized)
           selected
  end.

End TwilioLookup.

(* ===================================================================== *)
(** ** app/routers/webhooks.py, Stripe events *)
(* ===================================================================== *)

Module StripeWebhook.
Import Models Json.

(** The plan variables of the process environment, already read as
    integers; [None] when a variable is not set. *)
Record TierEnv : Type := {
  STARTER_PLAN_CREDITS : option Z;
  GROWTH_PLAN_CREDITS : option Z;
  PAYG_CREDITS_PER_10 : option Z
}.

Definition default_tier_env : TierEnv :=
  {| STARTER_PLAN_CREDITS := None; GROWTH_PLAN_CREDITS := None;
     PAYG_CREDITS_PER_10 := None |}.

(** The dict [_handle_stripe_event] returns. *)
Record StripeResult : Type := {
  res_event_type : option json;
  processed : bool;
  credits_added : Z;
  note : option string;
  res_client_id : option Z
}.

Definition digit_value (c : ascii) : Z := Z.of_N (N_of_ascii c) - 48.

(** The digits of an integer literal, with single underscores between
    digits; [seen] tells that the previous character was a digit. *)
Fixpoint parse_digits (s : string) (acc : Z) (seen : bool) : option Z :=
  match s with
  | EmptyString => if seen then Some acc else None
  | String c r =>
      if TwilioLookup.is_digit c
      then parse_digits r (10 * acc + digit_value c) true
      else if (Ascii.eqb c "_"%char && seen)%bool
      then parse_digits r acc false
      else None
  end.

(** [int(s)] for a string, [None] for [ValueError]: white space around, an
    optional sign, decimal digits. *)
Definition int_of_str (s : string) : option Z :=
  match PyStr.strip s with
  | String "+"%char r => parse_digits r 0 false
  | String "-"%char r =>
      match parse_digits r 0 false with
      | Some n => Some (- n)
      | None => None
      end
  | t => parse_digits t 0 false
  end.

(** [int(value)], [None] for [TypeError] and [ValueError]; a missing value
    is Python's [None]. *)
Definition py_int (value : option json) : option Z :=
  match value with
  | Some (JInt n) => Some n
  | Some (JBool b) => Some (if b then 1 else 0)
  | Some (JStr s) => int_of_str s
  | _ => None
  end.

Definition _coerce_positive_int (value : option json) : option Z :=
  match py_int value with
  | Some parsed => if 0 <? parsed then Some parsed else None
  | None => None
  end.

Definition _tier_credit_map (env : TierEnv) : list (string * Z) :=
  [("starter", AgentEngine.getenv_int (STARTER_PLAN_CREDITS env) 500);
   ("growth", AgentEngine.getenv_int (GROWTH_PLAN_CREDITS env) 2000);
   ("payg", AgentEngine.getenv_int (PAYG_CREDITS_PER_10 env) 300)].

Fixpoint tier_get (m : list (string * Z)) (k : string) : option Z :=
  match m with
  | [] => None
  | (k', v) :: r => if String.eqb k k' then Some v else tier_get r k
  end.

Section Stripe.
(** [str(v)] of a list or a dict is left to the interpreter. *)
Variable py_repr : json -> string.
Variable env : TierEnv.

(** [str(v)] and the text an f-string puts in for [v]. *)
Definition py_str (v : json) : string :=
  match v with
  | JNull => "None"
  | JBool true => "True"
  | JBool false => "False"
  | JInt n => PyStr.str_int n
  | JStr s => s
  | JList _ | JDict _ => py_repr v
  end.

Definition no_get : exn :=
  AttributeError "object has no attribute 'get'".

(** [value or {}], then ready for [.get]: a truthy value that is not a
    dict has no [get]. *)
Definition as_dict (value : option json) : result (list (string * json)) :=
  match or_else value (Some (JDict [])) with
  | Some (JDict d) => Ok d
  | _ => Raise no_get
  end.

Definition _extract_credit_grant (event_type : string) (event_object : json)
  : result (option Z * option Z * option string) :=
  match event_object with
  | JDict obj =>
      match as_dict (get obj "metadata") with
      | Raise e => Raise e
      | Ok metadata =>
          let client_id :=
            _coerce_positive_int
              (or_else (get metadata "client_id") (get obj "client_reference_id")) in
          let credits :=
            _coerce_positive_int
              (or_else (get metadata "credits")
                 (or_else (get metadata "credit_amount")
                    (or_else (get metadata "credits_per_cycle")
                       (get metadata "plan_credits")))) in
          let credits :=
            match credits with
            | Some n => Some n
            | None =>
                let tier :=
                  PyStr.lower
                    (PyStr.strip
                       (match or_else (get metadata "tier")
                                (or_else (get metadata "plan") (Some (JStr ""))) with
                        | Some v => py_str v
                        | None => "None"
                        end)) in
                tier_get (_tier_credit_map env) tier
            end in
          if String.eqb event_type "checkout.session.completed"
          then Ok (client_id, credits, Some "Stripe checkout purchase")
          else if String.eqb event_type "invoice.paid"
          then Ok (client_id, credits, Some "Stripe invoice renewal")
          else Ok (None, None, None)
      end
  | _ => Raise no_get
  end.

Definition is_str (v : option json) (s : string) : bool :=
  match v with
  | Some (JStr t) => String.eqb t s
  | _ => false
  end.

Definition ignored (event_type : option json) (processed : bool) (note : string)
  : StripeResult :=
  {| res_event_type := event_type; processed := processed; credits_added := 0;
     note := Some note; res_client_id := None |}.

Definition _handle_stripe_event (event : list (string * json)) (now : Z) (db : Db)
  : result StripeResult * Db :=
  let event_type := get event "type" in
  let event_id :=
    match get event "id" with Some v => v | None => JStr "unknown" end in
  if is_str event_type "payment_intent.failed" then
    (Ok (ignored event_type true "Payment failure recorded"), db)
  else
    match event_type with
    | Some (JList _) | Some (JDict _) =>
        (Raise (OtherException "TypeError: unhashable type"), db)
    | _ =>
      if negb (is_str event_type "checkout.session.completed"
               || is_str event_type "invoice.paid") then
        (Ok (ignored event_type false "Event ignored"), db)
      else
        let type_text :=
          match event_type with Some (JStr t) => t | _ => "" end in
        match as_dict (get event "data") with
        | Raise e => (Raise e, db)
        | Ok data =>
            let event_object :=
              match or_else (get data "object") (Some (JDict [])) with
              | Some v => v
              | None => JDict []
              end in
            match _extract_credit_grant type_text event_object with
            | Raise e => (Raise e, db)
            | Ok (client_id, credits, source_label) =>
                match client_id with
                | None =>
                    (Ok (ignored event_type false "Missing client_id metadata"), db)
                | Some client_id =>
                    match credits with
                    | None =>
                        (Ok (ignored event_type false "Missing credits metadata"), db)
                    | Some credits =>
                        if credits =? 0 then
                          (Ok (ignored event_type false "Missing credits metadata"), db)
                        else
                          let source :=
                            match source_label with Some l => l | None => "None" end
                            +:+ " (event=" +:+ py_str event_id +:+ ")" in
                          let '(_, db') :=
                            CreditManager.add_credits client_id credits source now db in
                          (Ok {| res_event_type := event_type; processed := true;
                                 credits_added := credits; note := None;
                                 res_client_id := Some client_id |},
                           db')
                    end
                end
            end
        end
    end.

End Stripe.

End StripeWebhook.

(* ===================================================================== *)
(** ** app/routers/billing.py *)
(* ===================================================================== *)

Module Billing.
Import Json.

(** The price variables of the process environment, already read as
    integers; the credit variables are those of [StripeWebhook.TierEnv]. *)
Record PriceEnv : Type := {
  STARTER_PLAN_PRICE : option Z;
  GROWTH_PLAN_PRICE : option Z;
  PAYG_PACK_PRICE : option Z
}.

Definition default_price_env : PriceEnv :=
  {| STARTER_PLAN_PRICE := None; GROWTH_PLAN_PRICE := None;
     PAYG_PACK_PRICE := None |}.

(** The text variables [_create_checkout_session] and [_checkout_urls]
    read. *)
Record CheckoutEnv : Type := {
  STRIPE_SECRET_KEY : option string;
  BASE_URL : option string;
  STRIPE_CHECKOUT_SUCCESS_URL : option string;
  STRIPE_CHECKOUT_CANCEL_URL : option string;
  STRIPE_CURRENCY : option string
}.

(** [os.getenv(name, dflt)] *)
Definition getenv (v : option string) (dflt : string) : string :=
  match v with Some s => s | None => dflt end.

(** One entry of the dict [_purchase_tiers] returns. *)
Record Tier : Type := {
  credits : Z;
  price_cents : Z;
  name : string
}.

Definition _purchase_tiers (env : StripeWebhook.TierEnv) (prices : PriceEnv)
  : list (string * Tier) :=
  [("starter",
    {| credits := AgentEngine.getenv_int (StripeWebhook.STARTER_PLAN_CREDITS env) 500;
       price_cents := AgentEngine.getenv_int (STARTER_PLAN_PRICE prices) 1900;
       name := "Starter Credits Pack" |});
   ("growth",
    {| credits := AgentEngine.getenv_int (StripeWebhook.GROWTH_PLAN_CREDITS env) 2000;
       price_cents := AgentEngine.getenv_int (GROWTH_PLAN_PRICE prices) 4900;
       name := "Growth Credits Pack" |});
   ("payg",
    {| credits := AgentEngine.getenv_int (StripeWebhook.PAYG_CREDITS_PER_10 env) 300;
       price_cents := AgentEngine.getenv_int (PAYG_PACK_PRICE prices) 1000;
       name := "Pay-As-You-Go Credits" |})].

(** [tiers[k]] guarded by [k in tiers]. *)
Fixpoint tiers_get (m : list (string * Tier)) (k : string) : option Tier :=
  match m with
  | [] => None
  | (k', v) :: r => if String.eqb k k' then Some v else tiers_get r k
  end.

(** [s.rstrip(ch)] for a single character [ch]. *)
Fixpoint rstrip_char (ch : ascii) (s : string) : string :=
  match s with
  | EmptyString => EmptyString
  | String c r =>
      match rstrip_char ch r with
      | EmptyString => if Ascii.eqb c ch then EmptyString else String c EmptyString
      | r' => String c r'
      end
  end.

Definition _checkout_urls (cfg : CheckoutEnv) : string * string :=
  let base_url := rstrip_char "/" (getenv (BASE_URL cfg) "http://localhost:8000") in
  let success_url :=
    getenv (STRIPE_CHECKOUT_SUCCESS_URL cfg) (base_url +:+ "/billing/success") in
  let cancel_url :=
    getenv (STRIPE_CHECKOUT_CANCEL_URL cfg) (base_url +:+ "/billing/cancel") in
  (success_url, cancel_url).

(** The keyword arguments of [stripe.checkout.Session.create]; the single
    line item is flattened into its fields. *)
Record CheckoutRequest : Type := {
  mode : string;
  success_url : string;
  cancel_url : string;
  client_reference_id : string;
  metadata : list (string * json);
  payment_intent_metadata : list (string * json);
  quantity : Z;
  currency : string;
  unit_amount : Z;
  product_name : string;
  product_description : string
}.

(** [HTTPException(status_code, detail)] *)
Inductive HTTPException : Type :=
| HTTP (status_code : Z) (detail : string).

(** The [url] and [id] attributes of the created session, [None] for a
    missing attribute. *)
Definition CheckoutSession : Type := (option string * option string)%type.

(** What [purchase_credits] returns. *)
Record PurchaseResponse : Type := {
  checkout_url : string;
  checkout_session_id : option string;
  resp_tier : string;
  resp_credits : Z;
  resp_price_cents : Z
}.

(** The request [_create_checkout_session] sends to Stripe. *)
Definition checkout_request (cfg : CheckoutEnv) (client_id : Z)
    (tier_key : string) (tier : Tier) : CheckoutRequest :=
  let '(success_url, cancel_url) := _checkout_urls cfg in
  let metadata :=
    [("client_id", JStr (PyStr.str_int client_id));
     ("tier", JStr tier_key);
     ("credits", JStr (PyStr.str_int (credits tier)))] in
  {| mode := "payment";
     success_url := success_url;
     cancel_url := cancel_url;
     client_reference_id := PyStr.str_int client_id;
     metadata := metadata;
     payment_intent_metadata := metadata;
     quantity := 1;
     currency := getenv (STRIPE_CURRENCY cfg) "usd";
     unit_amount := price_cents tier;
     product_name := name tier;
     product_description := PyStr.str_int (credits tier) +:+ " AI credits" |}.

Section Purchase.
Variable env : StripeWebhook.TierEnv.
Variable prices : PriceEnv.
Variable cfg : CheckoutEnv.
(** [stripe.checkout.Session.create]: the session, or the text of the
    [StripeError] it raises. *)
Variable create : CheckoutRequest -> string + CheckoutSession.

Definition _create_checkout_session (client_id : Z) (tier_key : string)
    (tier : Tier) : HTTPException + CheckoutSession :=
  let stripe_secret_key := PyStr.strip (getenv (STRIPE_SECRET_KEY cfg) "") in
  if String.eqb stripe_secret_key "" then
    inl (HTTP 503 "Stripe is not configured")
  else
    match create (checkout_request cfg client_id tier_key tier) with
    | inl exc => inl (HTTP 502 ("Stripe error: " +:+ exc))
    | inr checkout_session => inr checkout_session
    end.

Definition purchase_credits (request_tier : string) (client_id : Z)
  : HTTPException + PurchaseResponse :=
  let tier_key := PyStr.lower (PyStr.strip request_tier) in
  match tiers_get (_purchase_tiers env prices) tier_key with
  | None => inl (HTTP 400 "Invalid tier")
  | Some tier =>
      match _create_checkout_session client_id tier_key tier with
      | inl e => inl e
      | inr (url, session_id) =>
          match url with
          | None | Some EmptyString =>
              inl (HTTP 502 "Stripe checkout URL missing")
          | Some u =>
              inr {| checkout_url := u;
                     checkout_session_id := session_id;
                     resp_tier := tier_key;
                     resp_credits := credits tier;
                     resp_price_cents := price_cents tier |}
          end
      end
  end.

End Purchase.

End Billing.

(* ===================================================================== *)
(** * Vocabulary of the properties *)
(* ===================================================================== *)

(** [kw] occurs in [s]: some text before, [kw], some text after. *)
Definition occurs_in (kw s : string) : Prop :=
  exists pre post, s = pre +:+ kw +:+ post.

(** Some keyword of [kws] occurs in the lower-cased message. *)
Definition matches (kws : list string) (message : string) : Prop :=
  exists kw, In kw kws /\ occurs_in kw (PyStr.lower message).

(** ** Letter case *)

(** The ASCII letters, in upper case and in lower case. *)
Definition upper_letters : string := "ABCDEFGHIJKLMNOPQRSTUVWXYZ".
Definition lower_letters : string := "abcdefghijklmnopqrstuvwxyz".

Fixpoint zip_letters (upper lower : string) : list (ascii * ascii) :=
  match upper, lower with
  | String u upper', String l lower' => (u, l) :: zip_letters upper' lower'
  | _, _ => []
  end.

(** Each upper-case letter with its lower-case letter. *)
Definition letter_pairs : list (ascii * ascii) :=
  zip_letters upper_letters lower_letters.

(** [a] and [b] are the same character up to letter case. *)
Definition same_letter (a b : ascii) : Prop :=
  a = b \/ In (a, b) letter_pairs \/ In (b, a) letter_pairs.

(** [s] and [t] are the same text up to letter case. *)
Inductive same_text : string -> string -> Prop :=
| same_text_nil : same_text "" ""
| same_text_cons (a b : ascii) (s t : string) :
    same_letter a b -> same_text s t -> same_text (String a s) (String b t).

(** [kw] occurs in [s] in some letter case: some text before, a spelling
    of [kw], some text after. *)
Definition occurs_any_case (kw s : string) : Prop :=
  exists pre mid post, s = pre +:+ mid +:+ post /\ same_text mid kw.

(** Some keyword of [kws] occurs in the message in some letter case. *)
Definition matches_any_case (kws : list string) (message : string) : Prop :=
  exists kw, In kw kws /\ occurs_any_case kw message.

(** ** The credit ledger *)

Import Models.

(** Sum of the amounts of the transaction rows of one tenant. *)
Definition tx_sum_rows (client_id : Z) (rows : list CreditTransaction) : Z :=
  fold_right Z.add 0
    (map amount (List.filter (fun t => ct_client_id t =? client_id) rows)).

Definition tx_sum (client_id : Z) (session : Db) : Z :=
  tx_sum_rows client_id (credit_transactions session).

(** The two ledger invariants of one tenant. *)
Definition ledger_invariant (client_id : Z) (session : Db) : Prop :=
  match credit_accounts session !! client_id with
  | Some account =>
      balance account = total_purchased account - total_used account
      /\ tx_sum client_id session = balance account
  | None => tx_sum client_id session = 0
  end.

(** One ledger operation: the two entry points of [CreditManager] and the
    deduction and the refund of [AgentEngine]. *)
Inductive LedgerOp : Type :=
| OpAddCredits (client_id amount : Z) (source : string) (now : Z)
| OpDeductCredits (client_id amount : Z) (description : string) (now : Z)
| OpCheckAndDeduct (client_id amount now : Z)
| OpRefund (client_id amount : Z) (reason : string) (now : Z).

Definition apply_op (op : LedgerOp) (session : Db) : Db :=
  match op with
  | OpAddCredits c a src now => snd (CreditManager.add_credits c a src now session)
  | OpDeductCredits c a d now => snd (CreditManager.deduct_credits c a d now session)
  | OpCheckAndDeduct c a now => snd (AgentEngine._check_and_deduct_credits c a now session)
  | OpRefund c a r now => AgentEngine._refund_credits c a r now session
  end.

Definition run_ops (ops : list LedgerOp) (session : Db) : Db :=
  fold_left (fun s op => apply_op op s) ops session.

(** [session'] is [session] after one deduction of [amount] from the
    account [account] of [client_id]: the balance is decremented, the usage
    incremented, one DEDUCT row of [- amount] is appended, in one commit;
    nothing else changes. *)
Definition deducted (client_id amount : Z) (account : CreditAccount)
    (session session' : Db) : Prop :=
  (exists account',
      credit_accounts session' !! client_id = Some account'
      /\ balance account' = balance account - amount
      /\ total_used account' = total_used account + amount
      /\ total_purchased account' = total_purchased account)
  /\ (forall other, other <> client_id ->
        credit_accounts session' !! other = credit_accounts session !! other)
  /\ (exists t,
        credit_transactions session' = (credit_transactions session ++ [t])%list
        /\ ct_client_id t = client_id
        /\ type_ t = DEDUCT
        /\ Models.amount t = - amount)
  /\ commits session' = S (commits session)
  /\ agent_configs session' = agent_configs session
  /\ setup_sessions session' = setup_sessions session
  /\ bot_pool session' = bot_pool session.

(** The number of REFUND rows among [rows]. *)
Definition count_refunds (rows : list CreditTransaction) : nat :=
  length (List.filter
            (fun t => match type_ t with REFUND => true | _ => false end) rows).

(** ** Sample data *)

Definition C3_sample_db : Db :=
  snd (CreditManager.add_credits 7 5 "welcome bonus" 100 empty_db).

Definition C3_sample_account : CreditAccount :=
  {| ca_client_id := 7; balance := 5; total_purchased := 5; total_used := 0;
     ca_updated_at := 100 |}.

(** A runtime whose call always fails, as [OpenClawRuntime.run] does on a
    response without text. *)
Definition failing_runtime : AgentEngine.BaseRuntime :=
  {| AgentEngine.run := fun _ _ _ =>
       Raise (RuntimeError "OpenClaw API response missing assistant text") |}.

(** A runtime whose awaited call is cancelled. *)
Definition cancelled_runtime : AgentEngine.BaseRuntime :=
  {| AgentEngine.run := fun _ _ _ => Raise (CancelledError "") |}.

(** A runtime that answers. *)
Definition echo_runtime : AgentEngine.BaseRuntime :=
  {| AgentEngine.run := fun _ message _ => Ok ("You said: " +:+ message) |}.

Definition sample_config : AgentConfig :=
  {| ac_id := 1; ac_client_id := 7; agent_name := "Alfred";
     personality := "formal"; language := "en";
     custom_instructions := None; compiled_system_prompt := None;
     ac_updated_at := 0 |}.

(** Tenant 7 with a configuration and one credit. *)
Definition one_credit_db : Db :=
  {| agent_configs := {[ 7 := sample_config ]};
     credit_accounts :=
       {[ 7 := {| ca_client_id := 7; balance := 1; total_purchased := 1;
                  total_used := 0; ca_updated_at := 0 |} ]};
     credit_transactions :=
       [ {| ct_client_id := 7; amount := 1; type_ := WELCOME;
            description := Some "welcome"; ct_created_at := 0 |} ];
     setup_sessions := []; bot_pool := []; commits := 1 |}.

Definition sample_ops : list LedgerOp :=
  [ OpAddCredits 7 5 "welcome bonus" 100;
    OpCheckAndDeduct 7 3 101;
    OpRefund 7 3 "Error: timeout" 102;
    OpAddCredits 8 9 "Stripe purchase" 103;
    OpDeductCredits 7 1 "VoIP call usage (1 min)" 104;
    OpDeductCredits 7 50 "VoIP call usage (25 min)" 105 ].

(** ** Dispatch *)

(** The credit state of the database: the accounts and the ledger rows. *)
Definition credit_state (session : Db)
  : gmap Z CreditAccount * list CreditTransaction :=
  (credit_accounts session, credit_transactions session).

(** ** Setup sessions *)

(** Primary keys of the setup sessions are unique. *)
Definition sessions_unique (session : Db) : Prop :=
  NoDup (map ss_id (setup_sessions session)).

(** The tenant has at most one session that is not completed. *)
Definition at_most_one_open (client_id : Z) (session : Db) : Prop :=
  (length (List.filter (SetupOrchestrator.is_active client_id)
                       (setup_sessions session)) <= 1)%nat.

Definition cancel_words : list string := ["cancel"; "stop"; "exit"].

Definition attribute_error : exn :=
  AttributeError "'SetupSession' object has no attribute 'collected_data'".

(** The databases the setup orchestrator produces: from a database
    without setup sessions, by any number of handled messages. *)
Inductive setup_reachable : Db -> Prop :=
| reach_start (session : Db) :
    setup_sessions session = [] -> setup_reachable session
| reach_handle (session : Db) (client_id : Z) (message : string) (now : Z) :
    setup_reachable session ->
    setup_reachable (snd (SetupOrchestrator.handle client_id message now session)).

(** What [handle] answers on an active session when the message is not a
    cancel word. *)
Definition continue_reply (active : SetupSession) (message : string)
  : result string :=
  match SetupOrchestrator.flows_get (flow_name active) with
  | None => Ok "Error: Unknown setup flow."
  | Some flow =>
      match SetupOrchestrator.validate flow (current_step active) message with
      | (false, error) => Ok (default "None" error)
      | (true, _) => Raise attribute_error
      end
  end.

(** Tenant 7 after the personality flow was started, and after it was
    cancelled. *)
Definition personality_started_db : Db :=
  snd (SetupOrchestrator.handle 7 "change my agent's name" 50 empty_db).

Definition personality_session : SetupSession :=
  {| ss_id := 1; ss_client_id := 7; flow_name := "personality";
     current_step := 0%nat; collected_data_json := None;
     started_at := 50; completed_at := None |}.

Definition personality_cancelled_db : Db :=
  snd (SetupOrchestrator.handle 7 "Cancel" 51 personality_started_db).

(** ** The bot pool *)

(** The pool rows are stored in creation order: the primary keys, which
    the database hands out in increasing order, increase along the table. *)
Definition pool_in_creation_order (session : Db) : Prop :=
  StronglySorted Z.lt (map bp_id (bot_pool session)).

(** The engine answers a select with the rows that match, each once, in an
    order of its own. *)
Definition engine_order (row_order : Db -> list BotPool -> list BotPool) : Prop :=
  forall session rows, Permutation (row_order session rows) rows.

(** An engine that scans the table in creation order, as SQLite scans by
    row id. *)
Definition creation_order (session : Db) (rows : list BotPool) : list BotPool :=
  rows.

(** An engine that returns the newest row first. *)
Definition newest_first (session : Db) (rows : list BotPool) : list BotPool :=
  rev rows.

(** The databases the pool manager produces from an empty pool. *)
Inductive pool_reachable (validate_bot_token : string -> option BotPoolManager.BotInfo)
    (encrypt_token : string -> string)
    (row_order : Db -> list BotPool -> list BotPool) : Db -> Prop :=
| pool_start (session : Db) :
    bot_pool session = [] ->
    pool_reachable validate_bot_token encrypt_token row_order session
| pool_add (session : Db) (token : string) (now : Z) :
    pool_reachable validate_bot_token encrypt_token row_order session ->
    pool_reachable validate_bot_token encrypt_token row_order
      (snd (BotPoolManager.add_bot validate_bot_token encrypt_token token now session))
| pool_claim (session : Db) (client_id now : Z) :
    pool_reachable validate_bot_token encrypt_token row_order session ->
    pool_reachable validate_bot_token encrypt_token row_order
      (snd (BotPoolManager.claim_bot row_order client_id now session))
| pool_release (session : Db) (client_id : Z) :
    pool_reachable validate_bot_token encrypt_token row_order session ->
    pool_reachable validate_bot_token encrypt_token row_order
      (snd (BotPoolManager.release_bot client_id session))
| pool_retire (session : Db) (bot_id : Z) :
    pool_reachable validate_bot_token encrypt_token row_order session ->
    pool_reachable validate_bot_token encrypt_token row_order
      (snd (BotPoolManager.retire_bot bot_id session)).

Definition sample_bot (id : Z) (st : BotStatus) (owner : option Z) : BotPool :=
  {| bp_id := id; bot_token := "gAAAA"; bot_username := "alfred_bot";
     bot_name := "Alfred"; status := st; assigned_to_client_id := owner;
     assigned_at := None; bp_created_at := id |}.

(** A pool of four bots: the first assigned, the second retired, the last
    two available. *)
Definition sample_pool_db : Db :=
  {| agent_configs := ∅; credit_accounts := ∅; credit_transactions := [];
     setup_sessions := [];
     bot_pool := [ sample_bot 1 ASSIGNED (Some 3); sample_bot 2 RETIRED None;
                   sample_bot 3 AVAILABLE None; sample_bot 4 AVAILABLE None ];
     commits := 4 |}.

(** A pool without available bots. *)
Definition exhausted_pool_db : Db :=
  {| agent_configs := ∅; credit_accounts := ∅; credit_transactions := [];
     setup_sessions := [];
     bot_pool := [ sample_bot 1 ASSIGNED (Some 3); sample_bot 2 RETIRED None ];
     commits := 2 |}.

(** The same agent as [sample_config], stored for another tenant, with a
    cached prompt and a later update time. *)
Definition sample_config_copy : AgentConfig :=
  {| ac_id := 2; ac_client_id := 8; agent_name := "Alfred";
     personality := "formal"; language := "en";
     custom_instructions := None;
     compiled_system_prompt := Some "You are Alfred.";
     ac_updated_at := 99 |}.

(** ** The bot pool: rows and operations *)

(** The row [claim_bot] writes for [bot]. *)
Definition assigned_bot (client_id now : Z) (bot : BotPool) : BotPool :=
  {| bp_id := bp_id bot; bot_token := bot_token bot;
     bot_username := bot_username bot; bot_name := bot_name bot;
     status := ASSIGNED; assigned_to_client_id := Some client_id;
     assigned_at := Some now; bp_created_at := bp_created_at bot |}.

(** The row [release_bot] writes for [bot]. *)
Definition freed_bot (bot : BotPool) : BotPool :=
  {| bp_id := bp_id bot; bot_token := bot_token bot;
     bot_username := bot_username bot; bot_name := bot_name bot;
     status := AVAILABLE; assigned_to_client_id := None;
     assigned_at := None; bp_created_at := bp_created_at bot |}.

(** The row [retire_bot] writes for [bot]. *)
Definition retired_bot (bot : BotPool) : BotPool :=
  {| bp_id := bp_id bot; bot_token := bot_token bot;
     bot_username := bot_username bot; bot_name := bot_name bot;
     status := RETIRED; assigned_to_client_id := None;
     assigned_at := assigned_at bot; bp_created_at := bp_created_at bot |}.

(** A bot has an owner exactly when it is assigned, and an available bot
    carries no assignment time. *)
Definition bot_consistent (bot : BotPool) : Prop :=
  (status bot = ASSIGNED <-> assigned_to_client_id bot <> None)
  /\ (status bot = AVAILABLE -> assigned_at bot = None).

(** The tenant owns no bot. *)
Definition owns_no_bot (client_id : Z) (session : Db) : Prop :=
  forall b, In b (bot_pool session) ->
            BotPoolManager.is_assigned_to client_id b = false.

(** One operation of the pool manager. *)
Inductive PoolOp : Type :=
| PoolAdd (token : string) (now : Z)
| PoolClaim (client_id now : Z)
| PoolRelease (client_id : Z)
| PoolRetire (bot_id : Z).

Definition apply_pool_op (validate_bot_token : string -> option BotPoolManager.BotInfo)
    (encrypt_token : string -> string)
    (row_order : Db -> list BotPool -> list BotPool)
    (op : PoolOp) (session : Db) : Db :=
  match op with
  | PoolAdd token now =>
      snd (BotPoolManager.add_bot validate_bot_token encrypt_token token now session)
  | PoolClaim c now => snd (BotPoolManager.claim_bot row_order c now session)
  | PoolRelease c => snd (BotPoolManager.release_bot c session)
  | PoolRetire id => snd (BotPoolManager.retire_bot id session)
  end.

Definition run_pool_ops (validate_bot_token : string -> option BotPoolManager.BotInfo)
    (encrypt_token : string -> string)
    (row_order : Db -> list BotPool -> list BotPool)
    (ops : list PoolOp) (session : Db) : Db :=
  fold_left (fun s op => apply_pool_op validate_bot_token encrypt_token row_order op s)
            ops session.

(** A token check that accepts the tokens starting with a digit, and an
    encryption stand-in. *)
Definition sample_validate (token : string) : option BotPoolManager.BotInfo :=
  match token with
  | String c _ =>
      if ((48 <=? N_of_ascii c)%N && (N_of_ascii c <=? 57)%N)%bool
      then Some {| BotPoolManager.username := Some (Some ("bot_" +:+ token));
                   BotPoolManager.first_name := None |}
      else None
  | EmptyString => None
  end.

(** The same token check, except that the result for a token starting
    with "9" has no username. *)
Definition nameless_validate (token : string) : option BotPoolManager.BotInfo :=
  match token with
  | String "9" _ =>
      Some {| BotPoolManager.username := None;
              BotPoolManager.first_name := Some (Some "Nine") |}
  | _ => sample_validate token
  end.

Definition sample_encrypt (token : string) : string := "enc:" +:+ token.

(** A pool built by the manager: two accepted tokens, one claim. *)
Definition built_pool_db : Db :=
  run_pool_ops sample_validate sample_encrypt creation_order
    [PoolAdd "111:aaa" 5; PoolAdd "222:bbb" 6; PoolClaim 9 7] empty_db.

(** A pool of two bots just added, both available. *)
Definition fresh_pool_db : Db :=
  run_pool_ops sample_validate sample_encrypt creation_order
    [PoolAdd "111:aaa" 5; PoolAdd "222:bbb" 6] empty_db.

(** The token, once stripped, is accepted by the token check. *)
Definition token_accepted (validate_bot_token : string -> option BotPoolManager.BotInfo)
    (token : string) : bool :=
  match validate_bot_token (PyStr.strip token) with
  | Some _ => true
  | None => false
  end.

(** The [getMe] result has a username that is a string, and a first name
    that is a string when the key is there. *)
Definition getme_complete (info : BotPoolManager.BotInfo) : bool :=
  match BotPoolManager.username info, BotPoolManager.first_name info with
  | Some (Some _), None | Some (Some _), Some (Some _) => true
  | _, _ => false
  end.

(** The token, once stripped, is accepted by the token check, with a
    result that is not complete. *)
Definition token_incomplete
    (validate_bot_token : string -> option BotPoolManager.BotInfo)
    (token : string) : bool :=
  match validate_bot_token (PyStr.strip token) with
  | Some info => negb (getme_complete info)
  | None => false
  end.

(** ** The ledger: tenants and amounts of the operations *)

(** The integers [add_credits] has the database store for the tenant: the
    amount of the row, the new balance and the new purchase total. *)
Definition add_credits_writes (client_id amount : Z) (session : Db) : list Z :=
  match credit_accounts session !! client_id with
  | None => [amount; amount; amount]
  | Some account =>
      [amount; balance account + amount; total_purchased account + amount]
  end.

(** [n] fits an INTEGER column whose largest value is [column_max]
    (2^63 - 1 on SQLite, 2^31 - 1 on PostgreSQL). *)
Definition fits_column (column_max n : Z) : Prop :=
  - column_max - 1 <= n <= column_max.

Definition op_client (op : LedgerOp) : Z :=
  match op with
  | OpAddCredits c _ _ _ | OpDeductCredits c _ _ _
  | OpCheckAndDeduct c _ _ | OpRefund c _ _ _ => c
  end.

(** An addition or a refund grants a non-negative amount. *)
Definition op_grants_nonneg (op : LedgerOp) : Prop :=
  match op with
  | OpAddCredits _ a _ _ | OpRefund _ a _ _ => 0 <= a
  | OpDeductCredits _ _ _ _ | OpCheckAndDeduct _ _ _ => True
  end.

(** The ledger rows of one tenant, in order. *)
Definition rows_of (client_id : Z) (session : Db) : list CreditTransaction :=
  List.filter (fun t => ct_client_id t =? client_id) (credit_transactions session).

(** ** Setup sessions: message sequences *)

(** The setup orchestrator run over a sequence of messages, each with its
    tenant and its clock reading. *)
Definition run_setup (msgs : list (Z * string * Z)) (session : Db) : Db :=
  fold_left (fun s '(c, m, now) => snd (SetupOrchestrator.handle c m now s))
            msgs session.

(** The setup sessions of one tenant, in order. *)
Definition sessions_of (client_id : Z) (session : Db) : list SetupSession :=
  List.filter (fun r => ss_client_id r =? client_id) (setup_sessions session).

(** Tenant 8 after the voip flow was started. *)
Definition voip_started_db : Db :=
  snd (SetupOrchestrator.handle 8 "I need a phone number" 40 empty_db).

Definition voip_session : SetupSession :=
  {| ss_id := 1; ss_client_id := 8; flow_name := "voip";
     current_step := 0%nat; collected_data_json := None;
     started_at := 40; completed_at := None |}.

Definition sample_setup_msgs : list (Z * string * Z) :=
  [ (7, "change my agent's name", 50); (8, "set up my phone", 51);
    (7, "Alfred", 52); (7, "set up voip too", 53); (7, "STOP", 54);
    (7, "configure the style", 55); (8, "maybe", 56) ].

(** ** The prompt compiler: the template *)

(** The prompt template of [compile] with the fields put in, up to and
    without the final line break. *)
Definition prompt_body (config : AgentConfig) : string :=
  "You are " +:+ agent_name config +:+ "." +:+ SystemPromptCompiler.nl
  +:+ SystemPromptCompiler.nl
  +:+ "Communication style: "
  +:+ SystemPromptCompiler.dict_get SystemPromptCompiler.personality_styles
        (personality config) "helpful and professional"
  +:+ SystemPromptCompiler.nl
  +:+ "Primary language: " +:+ language config +:+ SystemPromptCompiler.nl
  +:+ SystemPromptCompiler.nl
  +:+ "About the business:" +:+ SystemPromptCompiler.nl
  +:+ PyStr.or_default (custom_instructions config)
        "I help businesses automate their operations with AI."
  +:+ SystemPromptCompiler.nl
  +:+ SystemPromptCompiler.nl
  +:+ "Guidelines:" +:+ SystemPromptCompiler.nl
  +:+ "- Always be helpful, concise, and stay in character"
  +:+ SystemPromptCompiler.nl
  +:+ "- If you cannot help with something, say so clearly and suggest alternatives"
  +:+ SystemPromptCompiler.nl
  +:+ "- Remember: users configure everything by talking to you"
  +:+ SystemPromptCompiler.nl
  +:+ "- Guide them through setup naturally" +:+ SystemPromptCompiler.nl
  +:+ "- Be proactive in suggesting next steps".

(** The lines [compile_with_tools] lists the integrations with. *)
Fixpoint tool_lines (integrations : list string) : string :=
  match integrations with
  | [] => ""
  | i :: rest => "- " +:+ i +:+ SystemPromptCompiler.nl +:+ tool_lines rest
  end.

(** ** The OpenClaw runtime *)

(** The memory items [_build_payload] keeps: those whose role and content
    are both present and non-empty. *)
Definition kept_memory (memory : list OpenClawRuntime.RawMemoryItem)
  : list (string * string) :=
  flat_map (fun item =>
              match item with
              | (Some role, Some content) =>
                  if OpenClawRuntime.nonempty role
                     && OpenClawRuntime.nonempty content
                  then [(role, content)] else []
              | _ => []
              end) memory.

Definition sample_settings : OpenClawRuntime.Settings :=
  {| OpenClawRuntime.api_url := "http://openclaw.local";
     OpenClawRuntime.api_key := Some "test-key";
     OpenClawRuntime.model := Some "openai-codex/gpt-5.3-codex";
     OpenClawRuntime.chat_endpoint := "/v1/chat/completions" |}.

(** Response bodies: the chat-completion shape, a content list, the
    simple shape, and a body without text. *)
Definition openai_body : list (string * Json.json) :=
  [("choices",
    Json.JList
      [Json.JDict
         [("message",
           Json.JDict [("content", Json.JStr "Hello from OpenClaw")])]]);
   ("response", Json.JStr "ignored")].

Definition parts_body : list (string * Json.json) :=
  [("choices",
    Json.JList
      [Json.JDict
         [("message",
           Json.JDict
             [("content",
               Json.JList
                 [Json.JDict [("type", Json.JStr "text"); ("text", Json.JStr " Hello")];
                  Json.JInt 3;
                  Json.JDict [("text", Json.JNull)];
                  Json.JDict [("text", Json.JStr ", world ")]])])]])].

Definition simple_body : list (string * Json.json) :=
  [("output", Json.JStr "late"); ("response", Json.JStr "Simple shape")].

Definition empty_choices_body : list (string * Json.json) :=
  [("choices", Json.JList [])].

(** ** Phone numbers *)

(** Every character of [s] is an ASCII digit. *)
Fixpoint only_digits (s : string) : Prop :=
  match s with
  | EmptyString => True
  | String c r => TwilioLookup.is_digit c = true /\ only_digits r
  end.

(** Every character of [s] is an ASCII character. *)
Fixpoint ascii_text (s : string) : Prop :=
  match s with
  | EmptyString => True
  | String c r => (N_of_ascii c < 128)%N /\ ascii_text r
  end.

(** No character of [s] is white space. *)
Fixpoint no_space (s : string) : Prop :=
  match s with
  | EmptyString => True
  | String c r => PyStr.is_space c = false /\ no_space r
  end.

Definition sample_channel (id client : Z) (number : option string) (on : bool)
  : TwilioLookup.Channel :=
  {| TwilioLookup.ch_id := id; TwilioLookup.ch_client_id := client;
     TwilioLookup.ch_type := TwilioLookup.SMS;
     TwilioLookup.identifier := "sms";
     TwilioLookup.telegram_bot_token := None;
     TwilioLookup.telegram_bot_username := None;
     TwilioLookup.email_address := None;
     TwilioLookup.twilio_number := number;
     TwilioLookup.active := on; TwilioLookup.ch_created_at := id |}.

Definition sample_channels : list TwilioLookup.Channel :=
  [ sample_channel 1 7 None true;
    sample_channel 2 8 (Some "+1 (555) 000-1") false;
    sample_channel 3 9 (Some "+1 555 0001") true;
    sample_channel 4 5 (Some "+15550001") true ].

(** ** Stripe events *)

(** Every plan of the tier map grants a non-negative number of credits. *)
Definition tier_credits_nonneg (env : StripeWebhook.TierEnv) : Prop :=
  Forall (fun p => 0 <= snd p) (StripeWebhook._tier_credit_map env).

(** [repr] of a container, for the samples. *)
Definition sample_repr (v : Json.json) : string := "<container>".

(** The event of the repository's test: a completed checkout of tenant 13
    carrying 300 credits. *)
Definition checkout_event : list (string * Json.json) :=
  [("id", Json.JStr "evt_123");
   ("type", Json.JStr "checkout.session.completed");
   ("data",
    Json.JDict
      [("object",
        Json.JDict
          [("client_reference_id", Json.JStr "13");
           ("metadata", Json.JDict [("credits", Json.JStr "300")])])])].

(** A paid invoice of tenant 11 on the starter plan. *)
Definition invoice_event : list (string * Json.json) :=
  [("id", Json.JStr "evt_456");
   ("type", Json.JStr "invoice.paid");
   ("data",
    Json.JDict
      [("object",
        Json.JDict
          [("metadata",
            Json.JDict [("client_id", Json.JStr "11");
                        ("tier", Json.JStr " Starter ")])])])].

(** The character [c] does not occur in [s]. *)
Fixpoint lacks_char (c : ascii) (s : string) : Prop :=
  match s with
  | EmptyString => True
  | String x r => x <> c /\ lacks_char c r
  end.

(** The text [_handle_stripe_event] puts into the source for the event id. *)
Definition event_id_text (py_repr : Json.json -> string)
    (event : list (string * Json.json)) : string :=
  StripeWebhook.py_str py_repr
    match Json.get event "id" with
    | Some v => v
    | None => Json.JStr "unknown"
    end.

(** ** Checkout and its webhook *)

(** The value of a decimal numeral read from the left; [acc] is the value
    of the digits already read. *)
Fixpoint uint_value (d : Decimal.uint) (acc : Z) : Z :=
  match d with
  | Decimal.Nil => acc
  | Decimal.D0 l => uint_value l (10 * acc + 0)
  | Decimal.D1 l => uint_value l (10 * acc + 1)
  | Decimal.D2 l => uint_value l (10 * acc + 2)
  | Decimal.D3 l => uint_value l (10 * acc + 3)
  | Decimal.D4 l => uint_value l (10 * acc + 4)
  | Decimal.D5 l => uint_value l (10 * acc + 5)
  | Decimal.D6 l => uint_value l (10 * acc + 6)
  | Decimal.D7 l => uint_value l (10 * acc + 7)
  | Decimal.D8 l => uint_value l (10 * acc + 8)
  | Decimal.D9 l => uint_value l (10 * acc + 9)
  end.

(** [event] is the [checkout.session.completed] event of a session created
    from [req]: its object carries the metadata of the request. *)
Definition completed_checkout (event : list (string * Json.json))
    (req : Billing.CheckoutRequest) : Prop :=
  Json.get event "type" = Some (Json.JStr "checkout.session.completed")
  /\ exists data obj,
       Json.get event "data" = Some (Json.JDict data)
       /\ Json.get data "object" = Some (Json.JDict obj)
       /\ Json.get obj "metadata" = Some (Json.JDict (Billing.metadata req)).

(** The event Stripe sends back for [req]. *)
Definition checkout_event_of (id : string) (req : Billing.CheckoutRequest)
  : list (string * Json.json) :=
  [("id", Json.JStr id);
   ("type", Json.JStr "checkout.session.completed");
   ("data",
    Json.JDict
      [("object",
        Json.JDict
          [("client_reference_id", Json.JStr (Billing.client_reference_id req));
           ("metadata", Json.JDict (Billing.metadata req))])])].

Definition sample_checkout_env : Billing.CheckoutEnv :=
  {| Billing.STRIPE_SECRET_KEY := Some "sk_test_1";
     Billing.BASE_URL := Some "https://alfred.test/";
     Billing.STRIPE_CHECKOUT_SUCCESS_URL := None;
     Billing.STRIPE_CHECKOUT_CANCEL_URL := None;
     Billing.STRIPE_CURRENCY := None |}.

(** A Stripe that accepts every request. *)
Definition sample_create (req : Billing.CheckoutRequest)
  : string + Billing.CheckoutSession :=
  inr (Some "https://checkout.test/cs_1", Some "cs_1").

(** The tier names [purchase_credits] knows. *)
Definition tier_names : list string := ["starter"; "growth"; "payg"].

(* ===================================================================== *)
(** * Properties *)
(* ===================================================================== *)

(** ** Sample evaluations *)

Example classify_calendar :
  Router.classify_intent "please connect my calendar" = Router.SETUP.
Proof. reflexivity. Qed.

Example str_int_samples :
  PyStr.str_int 0 = "0" /\ PyStr.str_int (-5) = "-5" /\ PyStr.str_int 120 = "120".
Proof. repeat split; reflexivity. Qed.

Example strip_sample : PyStr.strip "  a b
" = "a b".
Proof. reflexivity. Qed.

(** ** Strings *)

Lemma append_cons (c : ascii) (a b : string) :
  String c a +:+ b = String c (a +:+ b).
Proof. reflexivity. Qed.

Lemma append_nil (b : string) : "" +:+ b = b.
Proof. reflexivity. Qed.

Lemma prefix_true_iff (kw s : string) :
  String.prefix kw s = true <-> exists post, s = kw +:+ post.
Proof.
  revert kw. induction s as [|c s IH]; intros [|k kw]; simpl.
  - split; [exists ""; reflexivity | reflexivity].
  - split; [discriminate | intros [post H]; rewrite append_cons in H; discriminate].
  - split; [intros _; eexists; reflexivity | reflexivity].
  - destruct (ascii_dec k c) as [->|Hne].
    + rewrite IH. split; intros [post H]; exists post;
        rewrite append_cons in *; congruence.
    + split; [discriminate | intros [post H]; rewrite append_cons in H; congruence].
Qed.

Lemma contains_unfold (kw s : string) :
  PyStr.contains kw s =
  if String.prefix kw s then true
  else match s with
       | EmptyString => false
       | String _ r => PyStr.contains kw r
       end.
Proof. destruct s; reflexivity. Qed.

Lemma contains_true_iff (kw s : string) :
  PyStr.contains kw s = true <-> occurs_in kw s.
Proof.
  split.
  - induction s as [|c s IH]; rewrite contains_unfold.
    + destruct (String.prefix kw "") eqn:E; [|discriminate].
      intros _. apply prefix_true_iff in E as [post E]. exists "", post. exact E.
    + destruct (String.prefix kw (String c s)) eqn:E.
      * intros _. apply prefix_true_iff in E as [post E]. exists "", post. exact E.
      * intros H. destruct (IH H) as (pre & post & ->).
        exists (String c pre), post. reflexivity.
  - intros (pre & post & ->). induction pre as [|c pre IH].
    + rewrite append_nil, contains_unfold.
      assert (E : String.prefix kw (kw +:+ post) = true)
        by (apply prefix_true_iff; eauto).
      rewrite E. reflexivity.
    + rewrite append_cons, contains_unfold, IH.
      destruct (String.prefix kw _); reflexivity.
Qed.

Lemma lower_ascii_idem (c : ascii) :
  PyStr.lower_ascii (PyStr.lower_ascii c) = PyStr.lower_ascii c.
Proof. destruct c as [[] [] [] [] [] [] [] []]; reflexivity. Qed.

Lemma lower_idem (s : string) : PyStr.lower (PyStr.lower s) = PyStr.lower s.
Proof.
  induction s as [|c s IH]; simpl; [reflexivity|].
  rewrite lower_ascii_idem, IH. reflexivity.
Qed.

Lemma str_in_true_iff (x : string) (xs : list string) :
  PyStr.str_in x xs = true <-> In x xs.
Proof.
  induction xs as [|y r IH]; simpl; [split; [discriminate | tauto]|].
  destruct (String.eqb x y) eqn:E.
  - apply String.eqb_eq in E. split; auto.
  - apply String.eqb_neq in E. rewrite IH. split; [auto | intros [H|H]; congruence].
Qed.

(** ** The intent router *)

Lemma first_match_some (kws : list string) (ml : string) (i : Router.Intent) :
  Router.first_match kws ml i = Some i <->
  exists kw, In kw kws /\ occurs_in kw ml.
Proof.
  induction kws as [|k r IH]; simpl.
  - split; [discriminate | intros (kw & [] & _)].
  - destruct (PyStr.contains k ml) eqn:E.
    + split; [|reflexivity]. intros _. exists k. split; [auto|].
      apply contains_true_iff, E.
    + rewrite IH. split; intros (kw & Hin & Hocc).
      * exists kw; auto.
      * destruct Hin as [->|Hin]; [|exists kw; auto].
        apply contains_true_iff in Hocc. congruence.
Qed.

Lemma first_match_cases (kws : list string) (ml : string) (i : Router.Intent) :
  Router.first_match kws ml i = Some i \/ Router.first_match kws ml i = None.
Proof.
  induction kws as [|k r IH]; simpl; [auto|].
  destruct (PyStr.contains k ml); auto.
Qed.

Lemma first_match_none (kws : list string) (ml : string) (i : Router.Intent) :
  Router.first_match kws ml i = None <->
  ~ exists kw, In kw kws /\ occurs_in kw ml.
Proof.
  rewrite <- first_match_some with (i := i).
  destruct (first_match_cases kws ml i) as [-> | ->]; split; intros H;
    try congruence; try reflexivity.
Qed.

Lemma lower_append (a b : string) :
  PyStr.lower (a +:+ b) = PyStr.lower a +:+ PyStr.lower b.
Proof.
  induction a as [|c a IH]; [reflexivity|].
  rewrite append_cons. simpl. rewrite IH. reflexivity.
Qed.

(** [classify_intent] in terms of the lower-cased message. *)
Lemma classify_by_lowered_message (message : string) :
  (Router.classify_intent message = Router.SETUP <->
   matches Router.SETUP_KEYWORDS message)
  /\ (Router.classify_intent message = Router.ACCOUNT <->
      ~ matches Router.SETUP_KEYWORDS message
      /\ matches Router.ACCOUNT_KEYWORDS message)
  /\ (Router.classify_intent message = Router.HELP <->
      ~ matches Router.SETUP_KEYWORDS message
      /\ ~ matches Router.ACCOUNT_KEYWORDS message
      /\ matches Router.HELP_KEYWORDS message)
  /\ (Router.classify_intent message = Router.TASK <->
      ~ matches Router.SETUP_KEYWORDS message
      /\ ~ matches Router.ACCOUNT_KEYWORDS message
      /\ ~ matches Router.HELP_KEYWORDS message).
Proof.
  unfold matches, Router.classify_intent.
  set (ml := PyStr.lower message).
  pose proof (first_match_some Router.SETUP_KEYWORDS ml Router.SETUP) as Hs1.
  pose proof (first_match_none Router.SETUP_KEYWORDS ml Router.SETUP) as Hs0.
  pose proof (first_match_some Router.ACCOUNT_KEYWORDS ml Router.ACCOUNT) as Ha1.
  pose proof (first_match_none Router.ACCOUNT_KEYWORDS ml Router.ACCOUNT) as Ha0.
  pose proof (first_match_some Router.HELP_KEYWORDS ml Router.HELP) as Hh1.
  pose proof (first_match_none Router.HELP_KEYWORDS ml Router.HELP) as Hh0.
  destruct (first_match_cases Router.SETUP_KEYWORDS ml Router.SETUP) as [Es|Es];
    rewrite Es in *.
  { intuition (try discriminate; auto). }
  destruct (first_match_cases Router.ACCOUNT_KEYWORDS ml Router.ACCOUNT) as [Ea|Ea];
    rewrite Ea in *.
  { intuition (try discriminate; auto). }
  destruct (first_match_cases Router.HELP_KEYWORDS ml Router.HELP) as [Eh|Eh];
    rewrite Eh in *.
  { intuition (try discriminate; auto). }
  intuition (try discriminate; auto).
Qed.

(** Letter case, stated without [lower], against [lower]. *)
Lemma same_letter_lower (a b : ascii) :
  same_letter a b -> PyStr.lower_ascii a = PyStr.lower_ascii b.
Proof.
  intros [-> | [H | H]]; [reflexivity | |];
    unfold letter_pairs, upper_letters, lower_letters in H; simpl in H;
    repeat (destruct H as [H | H]; [injection H as <- <-; reflexivity|]);
    contradiction.
Qed.

Lemma lower_same_letter (a : ascii) : same_letter a (PyStr.lower_ascii a).
Proof.
  destruct a as [[] [] [] [] [] [] [] []];
    first [ left; reflexivity
          | right; left; cbv; repeat first [left; reflexivity | right] ].
Qed.

Lemma same_text_lower (s t : string) :
  same_text s t -> PyStr.lower s = PyStr.lower t.
Proof.
  induction 1 as [|a b s t Hab _ IH]; [reflexivity|].
  simpl. rewrite (same_letter_lower a b Hab), IH. reflexivity.
Qed.

Lemma lower_same_text (s : string) : same_text s (PyStr.lower s).
Proof.
  induction s as [|a s IH]; simpl; constructor; [apply lower_same_letter | exact IH].
Qed.

Lemma lower_split (s a b : string) :
  PyStr.lower s = a +:+ b ->
  exists s1 s2, s = s1 +:+ s2 /\ PyStr.lower s1 = a /\ PyStr.lower s2 = b.
Proof.
  revert s. induction a as [|c a IH]; intros s H.
  - rewrite append_nil in H. exists "", s. rewrite append_nil. auto.
  - rewrite append_cons in H. destruct s as [|x s]; simpl in H; [discriminate|].
    injection H as Hx H. destruct (IH s H) as (s1 & s2 & -> & H1 & H2).
    exists (String x s1), s2. rewrite append_cons. simpl. rewrite Hx, H1. auto.
Qed.

(** For a keyword written in lower case, occurring in some letter case is
    occurring in the lower-cased text. *)
Lemma occurs_any_case_iff (kw s : string) :
  PyStr.lower kw = kw ->
  occurs_any_case kw s <-> occurs_in kw (PyStr.lower s).
Proof.
  intros Hkw. split.
  - intros (pre & mid & post & -> & Hmid).
    exists (PyStr.lower pre), (PyStr.lower post).
    rewrite !lower_append, (same_text_lower _ _ Hmid), Hkw. reflexivity.
  - intros (pre' & post' & H).
    destruct (lower_split _ _ _ H) as (pre & rest & -> & Hpre & Hrest).
    destruct (lower_split _ _ _ Hrest) as (mid & post & -> & Hmid & Hpost).
    exists pre, mid, post. split; [reflexivity|].
    rewrite <- Hmid. apply lower_same_text.
Qed.

Lemma matches_any_case_iff (kws : list string) (message : string) :
  Forall (fun kw => PyStr.lower kw = kw) kws ->
  matches_any_case kws message <-> matches kws message.
Proof.
  intros Hkws. rewrite Forall_forall in Hkws.
  split; intros (kw & Hin & H); exists kw; (split; [exact Hin|]);
    apply (occurs_any_case_iff kw message
             (Hkws kw (proj2 (list_elem_of_In _ _) Hin))); exact H.
Qed.

(** C8: [classify_intent] matches keywords as substrings in any letter
    case, trying the Setup keywords first, then the Account keywords, then
    the Help keywords, and answers Task when none occurs; two messages
    that differ only in letter case are classified alike;
    ["please connect my calendar"] is classified as Setup, and so is
    ["Please CONNECT my Calendar"].  Letter case is stated by the table of
    the 26 ASCII letters, not by [lower]. *)
Theorem C8_classify_priority :
  (forall message,
      (Router.classify_intent message = Router.SETUP <->
       matches_any_case Router.SETUP_KEYWORDS message)
      /\ (Router.classify_intent message = Router.ACCOUNT <->
          ~ matches_any_case Router.SETUP_KEYWORDS message
          /\ matches_any_case Router.ACCOUNT_KEYWORDS message)
      /\ (Router.classify_intent message = Router.HELP <->
          ~ matches_any_case Router.SETUP_KEYWORDS message
          /\ ~ matches_any_case Router.ACCOUNT_KEYWORDS message
          /\ matches_any_case Router.HELP_KEYWORDS message)
      /\ (Router.classify_intent message = Router.TASK <->
          ~ matches_any_case Router.SETUP_KEYWORDS message
          /\ ~ matches_any_case Router.ACCOUNT_KEYWORDS message
          /\ ~ matches_any_case Router.HELP_KEYWORDS message))
  /\ (forall m1 m2,
        same_text m1 m2 ->
        Router.classify_intent m1 = Router.classify_intent m2)
  /\ Router.classify_intent "please connect my calendar" = Router.SETUP
  /\ Router.classify_intent "Please CONNECT my Calendar" = Router.SETUP
  /\ Router.classify_intent "What is my BALANCE" = Router.ACCOUNT.
Proof.
  split; [|split; [|repeat split; reflexivity]].
  - intros message.
    assert (Hs : Forall (fun kw => PyStr.lower kw = kw) Router.SETUP_KEYWORDS)
      by (repeat constructor).
    assert (Ha : Forall (fun kw => PyStr.lower kw = kw) Router.ACCOUNT_KEYWORDS)
      by (repeat constructor).
    assert (Hh : Forall (fun kw => PyStr.lower kw = kw) Router.HELP_KEYWORDS)
      by (repeat constructor).
    rewrite !(matches_any_case_iff _ message Hs),
            !(matches_any_case_iff _ message Ha),
            !(matches_any_case_iff _ message Hh).
    apply classify_by_lowered_message.
  - intros m1 m2 H. unfold Router.classify_intent.
    rewrite (same_text_lower _ _ H). reflexivity.
Qed.

Ltac spell :=
  repeat first
    [ apply same_text_nil
    | apply same_text_cons;
      [ first [ left; reflexivity
              | right; left; cbv; repeat first [left; reflexivity | right]
              | right; right; cbv; repeat first [left; reflexivity | right] ] | ] ].

Lemma C8_classify_witness :
  same_text "Please CONNECT my Calendar" "please connect my calendar"
  /\ matches_any_case Router.SETUP_KEYWORDS "Please CONNECT my Calendar"
  /\ Router.classify_intent "Please CONNECT my Calendar"
     = Router.classify_intent "please connect my calendar"
  /\ Router.classify_intent "Please CONNECT my Calendar" = Router.SETUP.
Proof.
  destruct C8_classify_priority as (Hall & Hcase & _).
  assert (Hsame : same_text "Please CONNECT my Calendar"
                            "please connect my calendar") by spell.
  assert (Hm : matches_any_case Router.SETUP_KEYWORDS "Please CONNECT my Calendar").
  { exists "connect". split; [left; reflexivity|].
    exists "Please ", "CONNECT", " my Calendar". split; [reflexivity | spell]. }
  split; [exact Hsame|]. split; [exact Hm|].
  split; [apply Hcase, Hsame|].
  apply (proj1 (Hall "Please CONNECT my Calendar")), Hm.
Defined.

(** ** The credit ledger *)

Lemma tx_sum_rows_app (c : Z) (xs ys : list CreditTransaction) :
  tx_sum_rows c (xs ++ ys) = tx_sum_rows c xs + tx_sum_rows c ys.
Proof.
  unfold tx_sum_rows. rewrite List.filter_app, map_app.
  induction (map amount (List.filter _ xs)) as [|x r IH]; simpl; lia.
Qed.

Lemma tx_sum_commit (c k : Z) (a : CreditAccount) (t : CreditTransaction) (s : Db) :
  tx_sum c (commit_credit k a t s) =
  tx_sum c s + (if ct_client_id t =? c then amount t else 0).
Proof.
  unfold tx_sum. simpl. rewrite tx_sum_rows_app. f_equal.
  unfold tx_sum_rows. simpl. destruct (ct_client_id t =? c); simpl; lia.
Qed.

Lemma deduct_credits_fails (c a : Z) (d : string) (now : Z) (s : Db) :
  credit_accounts s !! c = None
  \/ (exists acc, credit_accounts s !! c = Some acc /\ balance acc < a) ->
  CreditManager.deduct_credits c a d now s = (false, s)
  /\ AgentEngine._check_and_deduct_credits c a now s = (false, s).
Proof.
  unfold CreditManager.deduct_credits, AgentEngine._check_and_deduct_credits.
  intros [-> | (acc & -> & Hlt)]; [auto|].
  apply Z.ltb_lt in Hlt. rewrite Hlt. auto.
Qed.

Lemma commit_credit_deducted (c a : Z) (acc acc' : CreditAccount)
    (t : CreditTransaction) (s : Db) :
  balance acc' = balance acc - a ->
  total_used acc' = total_used acc + a ->
  total_purchased acc' = total_purchased acc ->
  ct_client_id t = c -> type_ t = DEDUCT -> amount t = - a ->
  deducted c a acc s (commit_credit c acc' t s).
Proof.
  intros Hb Hu Hp Hc Ht Ha. unfold deducted. simpl.
  repeat split.
  - exists acc'. rewrite lookup_insert_eq. auto.
  - intros other Hne. rewrite lookup_insert_ne; auto.
  - exists t. auto.
Qed.

(** C3: a deduction fails closed, returning false with the database
    unchanged, when the tenant has no account or its balance is below the
    amount; otherwise it returns true and, in one commit, decrements the
    balance, increments the usage and appends one DEDUCT row.  This holds
    for [CreditManager.deduct_credits] and for
    [AgentEngine._check_and_deduct_credits]. *)
Theorem C3_deduct_fails_closed_or_applies_atomically
    (client_id amount : Z) (description : string) (now : Z) (session : Db) :
  0 < amount ->
  (credit_accounts session !! client_id = None
   \/ (exists account, credit_accounts session !! client_id = Some account
                       /\ balance account < amount) ->
   CreditManager.deduct_credits client_id amount description now session
     = (false, session)
   /\ AgentEngine._check_and_deduct_credits client_id amount now session
     = (false, session))
  /\ (forall account,
        credit_accounts session !! client_id = Some account ->
        amount <= balance account ->
        exists s1 s2,
          CreditManager.deduct_credits client_id amount description now session
            = (true, s1)
          /\ AgentEngine._check_and_deduct_credits client_id amount now session
            = (true, s2)
          /\ deducted client_id amount account session s1
          /\ deducted client_id amount account session s2).
Proof.
  intros _. split; [apply deduct_credits_fails|].
  intros account Hacc Hle.
  unfold CreditManager.deduct_credits, AgentEngine._check_and_deduct_credits.
  rewrite Hacc.
  assert (E : (balance account <? amount) = false) by (apply Z.ltb_ge; lia).
  rewrite E. do 2 eexists. split; [reflexivity|]. split; [reflexivity|].
  split; apply commit_credit_deducted; reflexivity.
Qed.

Lemma C3_deduct_witness :
  (CreditManager.deduct_credits 7 6 "call" 101 C3_sample_db = (false, C3_sample_db)
   /\ AgentEngine._check_and_deduct_credits 7 6 101 C3_sample_db
      = (false, C3_sample_db))
  /\ exists s1 s2,
      CreditManager.deduct_credits 7 3 "call" 101 C3_sample_db = (true, s1)
      /\ AgentEngine._check_and_deduct_credits 7 3 101 C3_sample_db = (true, s2)
      /\ deducted 7 3 C3_sample_account C3_sample_db s1
      /\ deducted 7 3 C3_sample_account C3_sample_db s2.
Proof.
  split.
  - apply (C3_deduct_fails_closed_or_applies_atomically 7 6 "call" 101 C3_sample_db);
      [lia|].
    right. exists C3_sample_account. split; [vm_compute; reflexivity | simpl; lia].
  - apply (C3_deduct_fails_closed_or_applies_atomically 7 3 "call" 101 C3_sample_db);
      [lia | vm_compute; reflexivity | simpl; lia].
Defined.

Lemma ledger_invariant_commit (tenant c : Z) (acc' : CreditAccount)
    (t : CreditTransaction) (s : Db) :
  ct_client_id t = c ->
  ledger_invariant tenant s ->
  match credit_accounts s !! c with
  | Some acc =>
      balance acc' = balance acc + amount t
      /\ total_purchased acc' - total_used acc'
         = total_purchased acc - total_used acc + amount t
  | None =>
      balance acc' = amount t
      /\ total_purchased acc' - total_used acc' = amount t
  end ->
  ledger_invariant tenant (commit_credit c acc' t s).
Proof.
  intros Hc Hinv Hacc. unfold ledger_invariant in *.
  rewrite tx_sum_commit, Hc. simpl.
  destruct (decide (c = tenant)) as [->|Hne].
  - rewrite lookup_insert_eq, Z.eqb_refl.
    destruct (credit_accounts s !! tenant) as [acc|]; lia.
  - rewrite lookup_insert_ne by exact Hne.
    assert (E : (c =? tenant) = false) by (apply Z.eqb_neq; exact Hne).
    rewrite E, Z.add_0_r. exact Hinv.
Qed.

Lemma apply_op_invariant (tenant : Z) (op : LedgerOp) (s : Db) :
  ledger_invariant tenant s -> ledger_invariant tenant (apply_op op s).
Proof.
  intros Hinv.
  destruct op as [c a src now | c a d now | c a now | c a r now]; simpl;
    unfold CreditManager.add_credits, CreditManager.deduct_credits,
           AgentEngine._check_and_deduct_credits, AgentEngine._refund_credits;
    simpl.
  - apply ledger_invariant_commit; [reflexivity | exact Hinv |].
    destruct (credit_accounts s !! c); simpl; lia.
  - destruct (credit_accounts s !! c) as [acc|] eqn:E; [|exact Hinv].
    destruct (balance acc <? a); [exact Hinv|]. simpl.
    apply ledger_invariant_commit; [reflexivity | exact Hinv |].
    rewrite E. simpl. lia.
  - destruct (credit_accounts s !! c) as [acc|] eqn:E; [|exact Hinv].
    destruct (balance acc <? a); [exact Hinv|]. simpl.
    apply ledger_invariant_commit; [reflexivity | exact Hinv |].
    rewrite E. simpl. lia.
  - destruct (credit_accounts s !! c) as [acc|] eqn:E; [|exact Hinv].
    apply ledger_invariant_commit; [reflexivity | exact Hinv |].
    rewrite E. simpl. lia.
Qed.

Lemma run_ops_invariant (tenant : Z) (ops : list LedgerOp) (s : Db) :
  ledger_invariant tenant s -> ledger_invariant tenant (run_ops ops s).
Proof.
  revert s. induction ops as [|op ops IH]; intros s Hinv; [exact Hinv|].
  apply IH, apply_op_invariant, Hinv.
Qed.

Lemma tx_sum_rows_foreign (tenant : Z) (rows : list CreditTransaction) :
  Forall (fun t => ct_client_id t <> tenant) rows -> tx_sum_rows tenant rows = 0.
Proof.
  unfold tx_sum_rows. induction 1 as [|t rows Ht _ IH]; [reflexivity|].
  simpl. apply Z.eqb_neq in Ht. rewrite Ht. exact IH.
Qed.

(** C2: for a tenant that starts with no credit account and no transaction
    rows, after every sequence of additions, deductions (of the manager and
    of the engine) and refunds, for this or any other tenant, the tenant's
    account, once it exists, has balance = total_purchased - total_used
    and the amounts of the tenant's transaction rows sum to the balance. *)
Theorem C2_ledger_invariant (tenant : Z) (start : Db) (ops : list LedgerOp)
    (account : CreditAccount) :
  credit_accounts start !! tenant = None ->
  Forall (fun t => ct_client_id t <> tenant) (credit_transactions start) ->
  credit_accounts (run_ops ops start) !! tenant = Some account ->
  balance account = total_purchased account - total_used account
  /\ tx_sum tenant (run_ops ops start) = balance account.
Proof.
  intros Hnone Hrows Hacc.
  assert (Hinv : ledger_invariant tenant (run_ops ops start)).
  { apply run_ops_invariant. unfold ledger_invariant. rewrite Hnone.
    apply tx_sum_rows_foreign, Hrows. }
  unfold ledger_invariant in Hinv. rewrite Hacc in Hinv. exact Hinv.
Qed.

Lemma C2_ledger_invariant_witness :
  let account :=
    {| ca_client_id := 7; balance := 4; total_purchased := 5; total_used := 1;
       ca_updated_at := 104 |} in
  balance account = total_purchased account - total_used account
  /\ tx_sum 7 (run_ops sample_ops empty_db) = balance account.
Proof.
  intros account.
  apply (C2_ledger_invariant 7 empty_db sample_ops account).
  - reflexivity.
  - constructor.
  - vm_compute. reflexivity.
Defined.

(** ** The agent engine *)

Lemma check_and_deduct_true (c a now : Z) (s s1 : Db) :
  AgentEngine._check_and_deduct_credits c a now s = (true, s1) ->
  exists acc acc' d,
    credit_accounts s !! c = Some acc
    /\ s1 = commit_credit c acc' d s
    /\ balance acc' = balance acc - a
    /\ type_ d = DEDUCT /\ amount d = - a /\ ct_client_id d = c.
Proof.
  unfold AgentEngine._check_and_deduct_credits.
  destruct (credit_accounts s !! c) as [acc|]; [|discriminate].
  destruct (balance acc <? a); [discriminate|].
  intros H. injection H as <-. do 3 eexists. repeat split.
Qed.

Lemma check_and_deduct_false (c a now : Z) (s s1 : Db) :
  AgentEngine._check_and_deduct_credits c a now s = (false, s1) -> s1 = s.
Proof.
  unfold AgentEngine._check_and_deduct_credits.
  destruct (credit_accounts s !! c) as [acc|]; [|congruence].
  destruct (balance acc <? a); [congruence|discriminate].
Qed.

Lemma try_body_session (runtime : AgentEngine.BaseRuntime) (config : AgentConfig)
    (c : Z) (message : string) (s s2 : Db) (r : result string) :
  AgentEngine.try_body runtime config c message s = (r, s2) -> s2 = s.
Proof.
  unfold AgentEngine.try_body, AgentEngine._save_memory.
  destruct (AgentEngine.run _ _ _); congruence.
Qed.

Lemma refund_after_deduct (client_id cost : Z) (reason : string) (now : Z)
    (acc' : CreditAccount) (d : CreditTransaction) (session : Db) :
  AgentEngine._refund_credits client_id cost reason now
    (commit_credit client_id acc' d session) =
  commit_credit client_id
    {| ca_client_id := ca_client_id acc';
       balance := balance acc' + cost;
       total_purchased := total_purchased acc';
       total_used := total_used acc' - cost;
       ca_updated_at := now |}
    {| ct_client_id := client_id; amount := cost; type_ := REFUND;
       description := Some ("Refund: " +:+ reason);
       ct_created_at := now |}
    (commit_credit client_id acc' d session).
Proof.
  unfold AgentEngine._refund_credits. simpl.
  rewrite lookup_insert_eq. reflexivity.
Qed.

(** C1 (the defect): the handler of [execute] is [except Exception].  On
    the costed path, when the deduction succeeds and the runtime raises an
    exception that is not an [Exception] (the awaited call is cancelled,
    the process is interrupted), [execute] ends with that exception: there
    is no reply, the DEDUCT row is the only row appended, no REFUND row is
    recorded and the balance stays lowered by the cost. *)
Theorem C1_non_exception_failure_keeps_the_credit
    (runtime : AgentEngine.BaseRuntime) (env : AgentEngine.CostEnv)
    (client_id : Z) (message channel_type : string) (now_deduct now_refund : Z)
    (session : Db) (config : AgentConfig) (e : exn) :
  AgentEngine._load_config client_id session = Some config ->
  let cost := AgentEngine._get_credit_cost env channel_type in
  fst (AgentEngine._check_and_deduct_credits client_id cost now_deduct session)
  = true ->
  AgentEngine.run
    (PyStr.or_default (compiled_system_prompt config)
                      "You are a helpful AI assistant.")
    message []
  = Raise e ->
  is_Exception e = false ->
  let out :=
    AgentEngine.execute runtime env client_id message channel_type
                        now_deduct now_refund session in
  fst out = Raise e
  /\ CreditManager.get_balance client_id (snd out)
     = CreditManager.get_balance client_id session - cost
  /\ exists d,
      credit_transactions (snd out) = (credit_transactions session ++ [d])%list
      /\ type_ d = DEDUCT /\ amount d = - cost /\ ct_client_id d = client_id
      /\ count_refunds [d] = 0%nat.
Proof.
  intros Hcfg cost Hded Hrun He out.
  unfold out, AgentEngine.execute. rewrite Hcfg. fold cost.
  destruct (AgentEngine._check_and_deduct_credits client_id cost now_deduct session)
    as [ok s1] eqn:Hd.
  simpl in Hded. subst ok.
  destruct (check_and_deduct_true _ _ _ _ _ Hd)
    as (acc & acc' & d & Hacc & -> & Hbal & Htd & Had & Hcd).
  unfold AgentEngine.try_body, AgentEngine._load_memory. rewrite Hrun, He.
  cbn [fst snd]. split; [reflexivity|]. split.
  - unfold CreditManager.get_balance. simpl.
    rewrite lookup_insert_eq, Hacc. exact Hbal.
  - exists d. simpl. repeat split; auto.
    unfold count_refunds. simpl. rewrite Htd. reflexivity.
Qed.

Lemma C1_cancelled_run_witness :
  let out :=
    AgentEngine.execute cancelled_runtime AgentEngine.default_env 7 "hello" "sms"
                        10 11 one_credit_db in
  fst out = Raise (CancelledError "")
  /\ CreditManager.get_balance 7 (snd out) = 0
  /\ exists d,
      credit_transactions (snd out)
        = (credit_transactions one_credit_db ++ [d])%list
      /\ type_ d = DEDUCT /\ amount d = - 1 /\ ct_client_id d = 7
      /\ count_refunds [d] = 0%nat.
Proof.
  intros out.
  exact (C1_non_exception_failure_keeps_the_credit
           cancelled_runtime AgentEngine.default_env 7 "hello" "sms" 10 11
           one_credit_db sample_config (CancelledError "")
           eq_refl eq_refl eq_refl eq_refl).
Defined.

(** ** The setup orchestrator leaves the credit state alone *)

Lemma continue_flow_credit_state (c : Z) (obj : SetupOrchestrator.SetupSessionObj)
    (m : string) (now : Z) (s : Db) :
  credit_state (snd (SetupOrchestrator._continue_flow c obj m now s))
  = credit_state s.
Proof.
  unfold SetupOrchestrator._continue_flow.
  destruct (PyStr.str_in _ _); [reflexivity|].
  destruct (SetupOrchestrator.flows_get _) as [flow|]; [|reflexivity].
  destruct (SetupOrchestrator.validate flow _ m) as [[] err]; [|reflexivity].
  destruct (SetupOrchestrator.collected_data obj); [|reflexivity].
  destruct (_ <=? _)%nat; reflexivity.
Qed.

Lemma handle_credit_state (c : Z) (m : string) (now : Z) (s : Db) :
  credit_state (snd (SetupOrchestrator.handle c m now s)) = credit_state s.
Proof.
  unfold SetupOrchestrator.handle.
  destruct (SetupOrchestrator._get_active_session c s) as [active|].
  - pose proof (continue_flow_credit_state c (SetupOrchestrator.loaded active) m now s) as H.
    destruct (SetupOrchestrator._continue_flow _ _ _ _ _) as [[reply obj] s'].
    exact H.
  - destruct (SetupOrchestrator._detect_flow m) as [f|]; [|reflexivity].
    unfold SetupOrchestrator._start_flow.
    destruct (SetupOrchestrator.flows_get f); reflexivity.
Qed.

(** ** Dispatch *)

(** The dispatcher branches on the classified intent. *)
Lemma dispatch_by_intent (runtime : AgentEngine.BaseRuntime)
    (env : AgentEngine.CostEnv) (c : Z) (text : string) (now now' : Z)
    (db : Db) (ch : string) :
  Webhooks._dispatch_incoming_message runtime env c text now now' db ch =
  match Router.classify_intent text with
  | Router.SETUP => SetupOrchestrator.handle c text now db
  | Router.ACCOUNT =>
      (Ok (Webhooks.balance_msg (CreditManager.get_balance c db)), db)
  | Router.HELP => (Ok Webhooks.help_msg, db)
  | Router.TASK => AgentEngine.execute runtime env c text ch now now' db
  end.
Proof.
  unfold Webhooks._dispatch_incoming_message, Router.route. simpl.
  destruct (Router.classify_intent text); reflexivity.
Qed.

(** C10: a tenant without a credit account has balance 0, and an
    Account-intent message of such a tenant is answered with "You
    currently have 0 credits.", the database unchanged. *)
Theorem C10_balance_of_absent_account_is_zero
    (runtime : AgentEngine.BaseRuntime) (env : AgentEngine.CostEnv)
    (client_id : Z) (text : string) (now now' : Z) (db : Db)
    (channel_type : string) :
  credit_accounts db !! client_id = None ->
  Router.classify_intent text = Router.ACCOUNT ->
  CreditManager.get_balance client_id db = 0
  /\ Webhooks._dispatch_incoming_message runtime env client_id text now now' db
       channel_type
     = (Ok "You currently have 0 credits.", db).
Proof.
  intros Hnone Hacc.
  assert (Hb : CreditManager.get_balance client_id db = 0)
    by (unfold CreditManager.get_balance; rewrite Hnone; reflexivity).
  split; [exact Hb|].
  rewrite dispatch_by_intent, Hacc, Hb. reflexivity.
Qed.

Lemma C10_balance_witness :
  CreditManager.get_balance 7 empty_db = 0
  /\ Webhooks._dispatch_incoming_message failing_runtime AgentEngine.default_env
       7 "What is my balance" 0 0 empty_db "telegram"
     = (Ok "You currently have 0 credits.", empty_db).
Proof.
  apply (C10_balance_of_absent_account_is_zero failing_runtime
           AgentEngine.default_env 7 "What is my balance" 0 0 empty_db "telegram");
    reflexivity.
Defined.

(** C5, as the claim states it, fails: with no configuration for the
    tenant, an Account-intent message is answered with the balance, not
    with the configuration error. *)
Lemma C5_config_error_counterexample :
  AgentEngine._load_config 7 empty_db = None
  /\ fst (Webhooks._dispatch_incoming_message failing_runtime
            AgentEngine.default_env 7 "balance" 0 0 empty_db "telegram")
     = Ok "You currently have 0 credits."
  /\ fst (Webhooks._dispatch_incoming_message failing_runtime
            AgentEngine.default_env 7 "balance" 0 0 empty_db "telegram")
     <> Ok AgentEngine.config_error.
Proof.
  split; [reflexivity|]. split; [reflexivity|]. vm_compute. discriminate.
Qed.

(** C5, amended: the dispatcher classifies the intent first; the
    configuration is resolved only on the Task path, as its first step.
    When the tenant has no configuration, no dispatch touches the credit
    state, whatever the intent; a Task message is answered with the fixed
    configuration error and leaves the whole database unchanged; an Account
    message is answered with the balance and a Help message with the help
    text, both on an unchanged database; a Setup message is handed to the
    setup orchestrator. *)
Theorem C5_missing_config_touches_no_credit
    (runtime : AgentEngine.BaseRuntime) (env : AgentEngine.CostEnv)
    (client_id : Z) (text : string) (now now' : Z) (db : Db)
    (channel_type : string) :
  AgentEngine._load_config client_id db = None ->
  let out :=
    Webhooks._dispatch_incoming_message runtime env client_id text now now' db
      channel_type in
  credit_state (snd out) = credit_state db
  /\ (Router.classify_intent text = Router.TASK ->
      out = (Ok AgentEngine.config_error, db))
  /\ (Router.classify_intent text = Router.ACCOUNT ->
      out = (Ok (Webhooks.balance_msg (CreditManager.get_balance client_id db)), db))
  /\ (Router.classify_intent text = Router.HELP ->
      out = (Ok Webhooks.help_msg, db))
  /\ (Router.classify_intent text = Router.SETUP ->
      out = SetupOrchestrator.handle client_id text now db).
Proof.
  intros Hcfg out. unfold out. rewrite dispatch_by_intent.
  assert (He : AgentEngine.execute runtime env client_id text channel_type
                 now now' db = (Ok AgentEngine.config_error, db))
    by (unfold AgentEngine.execute; rewrite Hcfg; reflexivity).
  rewrite He. simpl.
  destruct (Router.classify_intent text); simpl;
    (split; [try reflexivity; apply handle_credit_state|]);
    repeat split; intros H; try discriminate H; reflexivity.
Qed.

Lemma C5_missing_config_witness :
  let out :=
    Webhooks._dispatch_incoming_message failing_runtime AgentEngine.default_env
      7 "write a poem" 0 0 C3_sample_db "telegram" in
  credit_state (snd out) = credit_state C3_sample_db
  /\ out = (Ok AgentEngine.config_error, C3_sample_db).
Proof.
  intros out.
  destruct (C5_missing_config_touches_no_credit failing_runtime
              AgentEngine.default_env 7 "write a poem" 0 0 C3_sample_db "telegram")
    as (Hcredit & Htask & _).
  - reflexivity.
  - split; [exact Hcredit | apply Htask; reflexivity].
Defined.

(** ** The setup orchestrator *)

Lemma find_none_intro {A : Type} (f : A -> bool) (l : list A) :
  (forall x, In x l -> f x = false) -> find f l = None.
Proof.
  induction l as [|a l IH]; intros H; simpl; [reflexivity|].
  rewrite (H a) by (left; reflexivity). apply IH. intros x Hx. apply H. right. exact Hx.
Qed.

Lemma short_list_eq {A : Type} (l : list A) (a b : A) :
  (length l <= 1)%nat -> In a l -> In b l -> a = b.
Proof.
  destruct l as [|x [|y l]]; simpl; intros Hlen Ha Hb; try lia;
    intuition congruence.
Qed.

Lemma at_most_one_open_eq (c : Z) (s : Db) (a b : SetupSession) :
  at_most_one_open c s ->
  In a (setup_sessions s) -> SetupOrchestrator.is_active c a = true ->
  In b (setup_sessions s) -> SetupOrchestrator.is_active c b = true ->
  a = b.
Proof.
  intros Hone Ha Hfa Hb Hfb.
  apply (short_list_eq _ a b Hone); apply List.filter_In; auto.
Qed.

Lemma filter_map_le {A : Type} (f : A -> bool) (g : A -> A) (l : list A) :
  (forall x, In x l -> f (g x) = true -> f x = true) ->
  (length (List.filter f (map g l)) <= length (List.filter f l))%nat.
Proof.
  induction l as [|a l IH]; intros H; simpl; [lia|].
  assert (IH' := IH (fun x Hx => H x (or_intror Hx))).
  destruct (f (g a)) eqn:E.
  - rewrite (H a (or_introl eq_refl) E). simpl. lia.
  - destruct (f a); simpl; lia.
Qed.

Lemma Forall2_map_self {A : Type} (P : A -> A -> Prop) (g : A -> A) (l : list A) :
  (forall x, In x l -> P x (g x)) -> Forall2 P l (map g l).
Proof.
  induction l as [|a l IH]; intros H; simpl; constructor.
  - apply H. left. reflexivity.
  - apply IH. intros x Hx. apply H. right. exact Hx.
Qed.

Lemma unique_id_eq (rows : list SetupSession) (a b : SetupSession) :
  NoDup (map ss_id rows) -> In a rows -> In b rows -> ss_id a = ss_id b -> a = b.
Proof.
  induction rows as [|x rows IH]; simpl; intros Hnd Ha Hb Hid; [contradiction|].
  apply NoDup_cons in Hnd as [Hx Hnd].
  assert (Hin : forall r, In r rows -> ss_id r <> ss_id x).
  { intros r Hr E. apply Hx. rewrite <- E. apply list_elem_of_In, in_map, Hr. }
  destruct Ha as [<-|Ha], Hb as [<-|Hb]; auto.
  - exfalso. apply (Hin b Hb). symmetry. exact Hid.
  - exfalso. apply (Hin a Ha). exact Hid.
Qed.

Lemma next_id_above (rows : list SetupSession) (r : SetupSession) :
  In r rows -> ss_id r < SetupOrchestrator.next_id rows.
Proof.
  unfold SetupOrchestrator.next_id.
  induction rows as [|x rows IH]; simpl; intros H; [contradiction|].
  destruct H as [<-|H]; [lia|]. specialize (IH H). lia.
Qed.

Lemma is_cancel_word_iff (message : string) :
  PyStr.str_in (PyStr.lower message) ["cancel"; "stop"; "exit"] = true
  <-> In (PyStr.lower message) cancel_words.
Proof. apply str_in_true_iff. Qed.

(** What [handle] does on an active session: a cancel word completes the
    session; any other message leaves the database as it is. *)
Lemma handle_active (c : Z) (m : string) (now : Z) (s : Db) (active : SetupSession) :
  SetupOrchestrator._get_active_session c s = Some active ->
  SetupOrchestrator.handle c m now s =
  if PyStr.str_in (PyStr.lower m) ["cancel"; "stop"; "exit"]
  then (Ok SetupOrchestrator.cancelled_msg,
        SetupOrchestrator.update_session
          (SetupOrchestrator.set_completed_at (Some now) active) s)
  else (continue_reply active m, s).
Proof.
  intros Hact. unfold SetupOrchestrator.handle. rewrite Hact.
  unfold SetupOrchestrator._continue_flow, continue_reply, SetupOrchestrator.loaded.
  cbn [SetupOrchestrator.row SetupOrchestrator.collected_data].
  destruct (PyStr.str_in _ _); [reflexivity|].
  destruct (SetupOrchestrator.flows_get _) as [flow|]; [|reflexivity].
  destruct (SetupOrchestrator.validate flow _ m) as [[] err]; reflexivity.
Qed.

Lemma detect_flow_implemented (m f : string) :
  SetupOrchestrator._detect_flow m = Some f ->
  exists flow, SetupOrchestrator.flows_get f = Some flow.
Proof.
  unfold SetupOrchestrator._detect_flow.
  destruct (PyStr.any_in _ _); [intros [= <-]; eexists; reflexivity|].
  destruct (PyStr.any_in _ _); [intros [= <-]; eexists; reflexivity|discriminate].
Qed.

(** What [handle] does without an active session. *)
Lemma handle_no_active (c : Z) (m : string) (now : Z) (s : Db) :
  SetupOrchestrator._get_active_session c s = None ->
  SetupOrchestrator.handle c m now s =
  match SetupOrchestrator._detect_flow m with
  | Some f => SetupOrchestrator._start_flow c f now s
  | None => (Ok SetupOrchestrator.menu_msg, s)
  end.
Proof. intros H. unfold SetupOrchestrator.handle. rewrite H. reflexivity. Qed.

Lemma cancelled_not_active (c : Z) (now : Z) (r : SetupSession) :
  SetupOrchestrator.is_active c
    (SetupOrchestrator.set_completed_at (Some now) r) = false.
Proof. unfold SetupOrchestrator.is_active. simpl. apply andb_false_r. Qed.

Lemma filter_nil_of_find_none {A : Type} (f : A -> bool) (l : list A) :
  find f l = None -> List.filter f l = [].
Proof.
  induction l as [|a l IH]; simpl; [reflexivity|].
  destruct (f a); [discriminate|exact IH].
Qed.

Lemma update_session_ids (r : SetupSession) (s : Db) :
  map ss_id (setup_sessions (SetupOrchestrator.update_session r s))
  = map ss_id (setup_sessions s).
Proof.
  simpl. rewrite map_map. apply map_ext. intros r'.
  destruct (ss_id r' =? ss_id r) eqn:E; [|reflexivity].
  apply Z.eqb_eq in E. congruence.
Qed.

Lemma cancel_keeps_at_most_one (c' now : Z) (active : SetupSession) (s : Db) :
  at_most_one_open c' s ->
  at_most_one_open c'
    (SetupOrchestrator.update_session
       (SetupOrchestrator.set_completed_at (Some now) active) s).
Proof.
  unfold at_most_one_open. simpl. intros H.
  etransitivity; [apply filter_map_le|exact H].
  intros x _. destruct (ss_id x =? _); [|auto].
  rewrite cancelled_not_active. discriminate.
Qed.

Lemma start_flow_sessions (c : Z) (f : string) (now : Z) (s : Db)
    (flow : SetupOrchestrator.SetupFlow) :
  SetupOrchestrator.flows_get f = Some flow ->
  SetupOrchestrator._start_flow c f now s =
  (Ok (SetupOrchestrator.get_step_message flow 0),
   SetupOrchestrator.insert_session
     {| ss_id := SetupOrchestrator.next_id (setup_sessions s);
        ss_client_id := c; flow_name := f; current_step := 0%nat;
        collected_data_json := None; started_at := now;
        completed_at := None |} s).
Proof. intros H. unfold SetupOrchestrator._start_flow. rewrite H. reflexivity. Qed.

Lemma handle_cases (c : Z) (m : string) (now : Z) (s : Db) :
  (exists active,
      SetupOrchestrator._get_active_session c s = Some active
      /\ snd (SetupOrchestrator.handle c m now s)
         = SetupOrchestrator.update_session
             (SetupOrchestrator.set_completed_at (Some now) active) s)
  \/ snd (SetupOrchestrator.handle c m now s) = s
  \/ (exists f,
        SetupOrchestrator._get_active_session c s = None
        /\ snd (SetupOrchestrator.handle c m now s)
           = SetupOrchestrator.insert_session
               {| ss_id := SetupOrchestrator.next_id (setup_sessions s);
                  ss_client_id := c; flow_name := f; current_step := 0%nat;
                  collected_data_json := None; started_at := now;
                  completed_at := None |} s).
Proof.
  destruct (SetupOrchestrator._get_active_session c s) as [active|] eqn:Hact.
  - rewrite (handle_active c m now s active Hact).
    destruct (PyStr.str_in _ _); [left; eauto | right; left; reflexivity].
  - rewrite (handle_no_active c m now s Hact).
    destruct (SetupOrchestrator._detect_flow m) as [f|] eqn:Hf;
      [|right; left; reflexivity].
    destruct (detect_flow_implemented m f Hf) as [flow Hflow].
    rewrite (start_flow_sessions c f now s flow Hflow).
    right; right. exists f. auto.
Qed.

Lemma handle_sessions_unique (c : Z) (m : string) (now : Z) (s : Db) :
  sessions_unique s -> sessions_unique (snd (SetupOrchestrator.handle c m now s)).
Proof.
  unfold sessions_unique. intros H.
  destruct (handle_cases c m now s) as [(active & _ & ->) | [-> | (f & _ & ->)]].
  - rewrite update_session_ids. exact H.
  - exact H.
  - simpl. rewrite map_app. simpl. apply NoDup_app. split; [exact H|].
    split; [|apply NoDup_singleton].
    intros x Hx Hx'. apply list_elem_of_singleton in Hx'. subst x.
    apply list_elem_of_In, in_map_iff in Hx as (r & Hid & Hr).
    pose proof (next_id_above _ _ Hr). lia.
Qed.

Lemma handle_at_most_one_open (c c' : Z) (m : string) (now : Z) (s : Db) :
  at_most_one_open c' s ->
  at_most_one_open c' (snd (SetupOrchestrator.handle c m now s)).
Proof.
  intros H.
  destruct (handle_cases c m now s) as [(active & _ & ->) | [-> | (f & Hnone & ->)]].
  - apply cancel_keeps_at_most_one, H.
  - exact H.
  - unfold at_most_one_open in *. simpl. rewrite List.filter_app, length_app.
    simpl. unfold SetupOrchestrator.is_active at 2. simpl.
    destruct (c =? c') eqn:E; simpl; [|lia].
    apply Z.eqb_eq in E. subst c'.
    unfold SetupOrchestrator._get_active_session in Hnone.
    rewrite (filter_nil_of_find_none _ _ Hnone). simpl. lia.
Qed.

(** Every database the orchestrator produces has unique session keys and
    at most one open session per tenant. *)
Lemma reachable_well_formed (s : Db) :
  setup_reachable s -> sessions_unique s /\ forall c, at_most_one_open c s.
Proof.
  induction 1 as [s Hnil | s c m now _ [IHu IHo]].
  - unfold sessions_unique, at_most_one_open. rewrite Hnil. simpl.
    split; [apply NoDup_nil_2 | intros; lia].
  - split; [apply handle_sessions_unique, IHu|].
    intros c'. apply handle_at_most_one_open, IHo.
Qed.

(** In every database the orchestrator produces, every session is still at
    step 0 and its answers column is still empty. *)
Lemma reachable_answers_never_stored (s : Db) :
  setup_reachable s ->
  Forall (fun r => current_step r = 0%nat /\ collected_data_json r = None)
         (setup_sessions s).
Proof.
  induction 1 as [s Hnil | s c m now _ IH].
  - rewrite Hnil. constructor.
  - destruct (handle_cases c m now s) as [(active & Hact & ->) | [-> | (f & _ & ->)]].
    + simpl. apply Forall_forall. intros x Hx.
      apply list_elem_of_In, in_map_iff in Hx as (r & <- & Hr).
      rewrite Forall_forall in IH.
      destruct (ss_id r =? _); [|apply IH, list_elem_of_In, Hr].
      simpl. apply IH, list_elem_of_In.
      apply find_some in Hact. apply Hact.
    + exact IH.
    + simpl. apply Forall_app. split; [exact IH|]. repeat constructor.
Qed.

(** The persisted answers column of the object is never assigned by
    [_continue_flow], whatever attributes the object carries. *)
Lemma continue_flow_answers_column (c : Z) (obj : SetupOrchestrator.SetupSessionObj)
    (m : string) (now : Z) (s : Db) :
  collected_data_json
    (SetupOrchestrator.row
       (snd (fst (SetupOrchestrator._continue_flow c obj m now s))))
  = collected_data_json (SetupOrchestrator.row obj).
Proof.
  unfold SetupOrchestrator._continue_flow.
  destruct (PyStr.str_in _ _); [reflexivity|].
  destruct (SetupOrchestrator.flows_get _) as [flow|]; [|reflexivity].
  destruct (SetupOrchestrator.validate flow _ m) as [[] err]; [|reflexivity].
  destruct (SetupOrchestrator.collected_data obj); [|reflexivity].
  destruct (_ <=? _)%nat; reflexivity.
Qed.

(** C4 (what the code does): on an active session, a message that is not a
    cancel word and that passes the validator of the current step makes
    [handle] raise AttributeError when it reads [collected_data]; the
    database is unchanged: no answer is stored and the step index is not
    advanced. *)
Theorem C4_valid_answer_raises_and_nothing_is_stored
    (client_id : Z) (message : string) (now : Z) (session : Db)
    (active : SetupSession) (flow : SetupOrchestrator.SetupFlow) :
  SetupOrchestrator._get_active_session client_id session = Some active ->
  ~ In (PyStr.lower message) cancel_words ->
  SetupOrchestrator.flows_get (flow_name active) = Some flow ->
  fst (SetupOrchestrator.validate flow (current_step active) message) = true ->
  SetupOrchestrator.handle client_id message now session
  = (Raise attribute_error, session).
Proof.
  intros Hact Hword Hflow Hvalid.
  rewrite (handle_active _ _ _ _ _ Hact).
  destruct (PyStr.str_in _ _) eqn:E.
  - exfalso. apply Hword, is_cancel_word_iff, E.
  - unfold continue_reply. rewrite Hflow.
    destruct (SetupOrchestrator.validate flow _ message) as [[] err];
      [reflexivity|discriminate].
Qed.

Lemma C4_valid_answer_witness :
  SetupOrchestrator.handle 7 "Alfred" 51 personality_started_db
  = (Raise attribute_error, personality_started_db).
Proof.
  apply (C4_valid_answer_raises_and_nothing_is_stored 7 "Alfred" 51
           personality_started_db personality_session
           SetupOrchestrator.PersonalitySetupFlow).
  - vm_compute. reflexivity.
  - vm_compute. intros [H|[H|[H|[]]]]; discriminate H.
  - reflexivity.
  - reflexivity.
Defined.

Lemma find_app_none {A : Type} (f : A -> bool) (l l' : list A) :
  find f l = None -> find f (l ++ l') = find f l'.
Proof.
  induction l as [|a l IH]; simpl; [reflexivity|].
  destruct (f a); [discriminate|exact IH].
Qed.

Lemma cancel_closes_the_only_open_session (c now : Z) (active : SetupSession) (s : Db) :
  at_most_one_open c s ->
  SetupOrchestrator._get_active_session c s = Some active ->
  SetupOrchestrator._get_active_session c
    (SetupOrchestrator.update_session
       (SetupOrchestrator.set_completed_at (Some now) active) s) = None.
Proof.
  intros Hone Hact. apply find_some in Hact as [Hin Hactive].
  unfold SetupOrchestrator._get_active_session. simpl.
  apply find_none_intro. intros x Hx.
  apply in_map_iff in Hx as (r & <- & Hr).
  destruct (ss_id r =? ss_id _) eqn:E; [apply cancelled_not_active|].
  destruct (SetupOrchestrator.is_active c r) eqn:Hr'; [|reflexivity].
  rewrite (at_most_one_open_eq c s r active Hone Hr Hr' Hin Hactive) in E.
  simpl in E. rewrite Z.eqb_refl in E. discriminate.
Qed.

(** C7, as the claim states it, fails: after a cancel, the setup message
    ["setup"] (the one the cancellation reply suggests) starts no session;
    it is answered with the menu and the database is unchanged. *)
Lemma C7_next_message_counterexample :
  SetupOrchestrator._get_active_session 7 personality_started_db
  = Some personality_session
  /\ SetupOrchestrator.handle 7 "Cancel" 51 personality_started_db
     = (Ok SetupOrchestrator.cancelled_msg, personality_cancelled_db)
  /\ Router.classify_intent "setup" = Router.SETUP
  /\ SetupOrchestrator.handle 7 "setup" 52 personality_cancelled_db
     = (Ok SetupOrchestrator.menu_msg, personality_cancelled_db)
  /\ SetupOrchestrator._get_active_session 7 personality_cancelled_db = None.
Proof. repeat split; vm_compute; reflexivity. Qed.

(** C7, amended: on an active session, at any step, a message that is
    "cancel", "stop" or "exit" up to letter case completes the session and
    is answered with the cancellation message; only the completion time of
    that session changes (its step and its answers column are kept, no
    other session is touched), and the tenant has no open session left.  A
    following message of the tenant is never a continuation of the
    cancelled session: when it names a flow it opens a fresh session at
    step 0, which becomes the tenant's open session, and otherwise it is
    answered with the setup menu and no session is created. *)
Theorem C7_cancel_completes_and_next_message_starts_over
    (client_id : Z) (message : string) (now : Z) (session : Db)
    (active : SetupSession) :
  sessions_unique session ->
  at_most_one_open client_id session ->
  SetupOrchestrator._get_active_session client_id session = Some active ->
  In (PyStr.lower message) cancel_words ->
  let out := SetupOrchestrator.handle client_id message now session in
  let cancelled := SetupOrchestrator.set_completed_at (Some now) active in
  fst out = Ok SetupOrchestrator.cancelled_msg
  /\ Forall2 (fun old new => (old = active /\ new = cancelled)
                             \/ (old <> active /\ new = old))
             (setup_sessions session) (setup_sessions (snd out))
  /\ In cancelled (setup_sessions (snd out))
  /\ current_step cancelled = current_step active
  /\ collected_data_json cancelled = collected_data_json active
  /\ completed_at cancelled = Some now
  /\ SetupOrchestrator._get_active_session client_id (snd out) = None
  /\ forall message' now',
      let out' := SetupOrchestrator.handle client_id message' now' (snd out) in
      (forall f, SetupOrchestrator._detect_flow message' = Some f ->
         exists flow fresh,
           SetupOrchestrator.flows_get f = Some flow
           /\ fst out' = Ok (SetupOrchestrator.get_step_message flow 0)
           /\ setup_sessions (snd out')
              = (setup_sessions (snd out) ++ [fresh])%list
           /\ ss_client_id fresh = client_id
           /\ flow_name fresh = f
           /\ current_step fresh = 0%nat
           /\ collected_data_json fresh = None
           /\ completed_at fresh = None
           /\ ss_id fresh <> ss_id active
           /\ SetupOrchestrator._get_active_session client_id (snd out')
              = Some fresh)
      /\ (SetupOrchestrator._detect_flow message' = None ->
          out' = (Ok SetupOrchestrator.menu_msg, snd out)).
Proof.
  intros Huniq Hone Hact Hword out cancelled.
  pose proof (find_some _ _ Hact) as [Hin Hactive].
  assert (Hout : out = (Ok SetupOrchestrator.cancelled_msg,
                        SetupOrchestrator.update_session cancelled session)).
  { unfold out. rewrite (handle_active _ _ _ _ _ Hact).
    apply is_cancel_word_iff in Hword. rewrite Hword. reflexivity. }
  assert (Hcancelled : In cancelled
            (setup_sessions (SetupOrchestrator.update_session cancelled session))).
  { simpl. apply in_map_iff. exists active. split; [|exact Hin].
    unfold cancelled at 1. simpl. rewrite Z.eqb_refl. reflexivity. }
  pose proof (cancel_closes_the_only_open_session client_id now active session
                Hone Hact) as Hclosed.
  fold cancelled in Hclosed.
  rewrite Hout. simpl fst. simpl snd.
  split; [reflexivity|]. split.
  { simpl. apply Forall2_map_self. intros x Hx.
    destruct (ss_id x =? ss_id active) eqn:E.
    - left. split; [|reflexivity]. apply Z.eqb_eq in E.
      apply (unique_id_eq _ x active Huniq Hx Hin). exact E.
    - right. split; [|reflexivity]. intros ->.
      rewrite Z.eqb_refl in E. discriminate. }
  split; [exact Hcancelled|].
  split; [reflexivity|]. split; [reflexivity|]. split; [reflexivity|].
  split; [exact Hclosed|].
  intros message' now' out'. unfold out'.
  rewrite (handle_no_active _ _ _ _ Hclosed).
  split.
  - intros f Hf. rewrite Hf.
    destruct (detect_flow_implemented _ _ Hf) as [flow Hflow].
    rewrite (start_flow_sessions _ _ _ _ flow Hflow).
    exists flow. eexists. split; [exact Hflow|]. split; [reflexivity|].
    split; [reflexivity|]. simpl ss_client_id. simpl flow_name.
    simpl current_step. simpl collected_data_json. simpl completed_at.
    simpl ss_id.
    repeat (split; [reflexivity|]). split.
    + pose proof (next_id_above _ _ Hcancelled) as Hlt.
      intros Heq. apply (Z.lt_irrefl (ss_id active)).
      rewrite <- Heq at 2. exact Hlt.
    + unfold SetupOrchestrator._get_active_session in *.
      unfold SetupOrchestrator.insert_session, with_setup_sessions.
      cbn [snd setup_sessions].
      rewrite (find_app_none _ _ _ Hclosed). simpl.
      unfold SetupOrchestrator.is_active. simpl. rewrite Z.eqb_refl. reflexivity.
  - intros Hf. rewrite Hf. reflexivity.
Qed.

Lemma C7_cancel_witness :
  fst (SetupOrchestrator.handle 7 "Cancel" 51 personality_started_db)
  = Ok SetupOrchestrator.cancelled_msg
  /\ SetupOrchestrator._get_active_session 7
       (snd (SetupOrchestrator.handle 7 "Cancel" 51 personality_started_db))
     = None.
Proof.
  destruct (C7_cancel_completes_and_next_message_starts_over
              7 "Cancel" 51 personality_started_db personality_session)
    as (Hreply & _ & _ & _ & _ & _ & Hclosed & _).
  - unfold sessions_unique. vm_compute.
    apply NoDup_cons_2; [apply not_elem_of_nil | apply NoDup_nil_2].
  - unfold at_most_one_open. vm_compute. lia.
  - vm_compute. reflexivity.
  - vm_compute. left. reflexivity.
  - split; [exact Hreply | exact Hclosed].
Defined.

(** ** The bot pool *)

Lemma is_available_iff (b : BotPool) :
  BotPoolManager.is_available b = true <-> status b = AVAILABLE.
Proof. unfold BotPoolManager.is_available. destruct (status b); simpl; split; congruence. Qed.

Lemma filter_first_split {A : Type} (f : A -> bool) (l : list A) (x : A) (r : list A) :
  List.filter f l = x :: r ->
  exists pre post,
    l = (pre ++ x :: post)%list
    /\ Forall (fun y => f y = false) pre
    /\ f x = true.
Proof.
  induction l as [|a l IH]; simpl; [discriminate|].
  destruct (f a) eqn:E.
  - intros [= -> _]. exists [], l. repeat split; [constructor | exact E].
  - intros H. destruct (IH H) as (pre & post & -> & Hpre & Hx).
    exists (a :: pre), post. repeat split; [constructor; assumption | exact Hx].
Qed.

Lemma filter_nil_intro {A : Type} (f : A -> bool) (l : list A) :
  (forall x, In x l -> f x = false) -> List.filter f l = [].
Proof.
  induction l as [|a l IH]; intros H; simpl; [reflexivity|].
  rewrite (H a) by (left; reflexivity). apply IH. intros x Hx. apply H. right. exact Hx.
Qed.

Lemma sorted_split (l1 l2 : list Z) (x : Z) :
  StronglySorted Z.lt (l1 ++ x :: l2) ->
  Forall (fun y => y < x) l1 /\ Forall (fun y => x < y) l2.
Proof.
  induction l1 as [|a l1 IH]; simpl; intros H.
  - apply StronglySorted_inv in H as [_ H]. split; [constructor | exact H].
  - apply StronglySorted_inv in H as [Hs Ha].
    destruct (IH Hs) as [H1 H2]. split; [|exact H2].
    constructor; [|exact H1].
    apply Forall_app in Ha as [_ Ha]. apply Forall_cons in Ha as [Ha _]. exact Ha.
Qed.

Lemma sorted_snoc (l : list Z) (n : Z) :
  StronglySorted Z.lt l -> Forall (fun y => y < n) l ->
  StronglySorted Z.lt (l ++ [n]).
Proof.
  induction 1 as [|a l Hs IH Ha]; intros Hn; simpl.
  - repeat constructor.
  - apply Forall_cons in Hn as [Han Hn]. constructor; [apply IH, Hn|].
    apply Forall_app. split; [exact Ha | repeat constructor; exact Han].
Qed.

Lemma map_update_unchanged (g : BotPool -> BotPool) (l : list BotPool) :
  (forall x, In x l -> g x = x) -> map g l = l.
Proof.
  induction l as [|a l IH]; intros H; simpl; [reflexivity|].
  rewrite (H a) by (left; reflexivity). f_equal. apply IH.
  intros x Hx. apply H. right. exact Hx.
Qed.

(** Rewriting the row of one key in a table stored in creation order
    replaces exactly that row. *)
Lemma update_bot_split (bot bot' : BotPool) (pre post : list BotPool) :
  bp_id bot' = bp_id bot ->
  StronglySorted Z.lt (map bp_id (pre ++ bot :: post)) ->
  map (fun b => if bp_id b =? bp_id bot' then bot' else b) (pre ++ bot :: post)
  = (pre ++ bot' :: post)%list.
Proof.
  intros Hid Hs. rewrite map_app in Hs. simpl in Hs.
  apply sorted_split in Hs as [Hpre Hpost].
  rewrite map_app. simpl. rewrite Hid, Z.eqb_refl. f_equal; [|f_equal].
  - apply map_update_unchanged. intros x Hx.
    rewrite Forall_forall in Hpre.
    specialize (Hpre (bp_id x) (proj2 (list_elem_of_In _ _) (in_map bp_id _ _ Hx))).
    destruct (bp_id x =? bp_id bot) eqn:E; [apply Z.eqb_eq in E; lia | reflexivity].
  - apply map_update_unchanged. intros x Hx.
    rewrite Forall_forall in Hpost.
    specialize (Hpost (bp_id x) (proj2 (list_elem_of_In _ _) (in_map bp_id _ _ Hx))).
    destruct (bp_id x =? bp_id bot) eqn:E; [apply Z.eqb_eq in E; lia | reflexivity].
Qed.

Lemma bot_next_id_above (rows : list BotPool) :
  Forall (fun y => y < BotPoolManager.next_id rows) (map bp_id rows).
Proof.
  unfold BotPoolManager.next_id.
  induction rows as [|x rows IH]; simpl; constructor; [lia|].
  eapply List.Forall_impl; [|exact IH]. simpl. intros y Hy. lia.
Qed.

Lemma update_bot_ids (bot : BotPool) (s : Db) :
  map bp_id (bot_pool (BotPoolManager.update_bot bot s)) = map bp_id (bot_pool s).
Proof.
  simpl. rewrite map_map. apply map_ext. intros b.
  destruct (bp_id b =? bp_id bot) eqn:E; [|reflexivity].
  apply Z.eqb_eq in E. congruence.
Qed.

(** What [add_bot] returns: a fresh available row appended to the pool, or
    an exception and the database as it was. *)
Lemma add_bot_cases
    (v : string -> option BotPoolManager.BotInfo) (e : string -> string)
    (token : string) (now : Z) (s : Db) :
  (exists bot_record,
      BotPoolManager.add_bot v e token now s
      = (Ok bot_record, with_bot_pool (bot_pool s ++ [bot_record]) s)
      /\ bp_id bot_record = BotPoolManager.next_id (bot_pool s)
      /\ bot_token bot_record = e token
      /\ status bot_record = AVAILABLE
      /\ assigned_to_client_id bot_record = None
      /\ assigned_at bot_record = None)
  \/ (exists err, BotPoolManager.add_bot v e token now s = (Raise err, s)).
Proof.
  unfold BotPoolManager.add_bot.
  destruct (v token) as [[[[u|]|] [[n|]|]]|];
    try (right; eexists; reflexivity);
    left; eexists; repeat split.
Qed.

Lemma engine_order_head (row_order : Db -> list BotPool -> list BotPool)
    (s : Db) (rows : list BotPool) (chosen : BotPool) (rest : list BotPool) :
  engine_order row_order ->
  row_order s rows = chosen :: rest -> In chosen rows.
Proof.
  intros Horder E. apply (Permutation_in chosen (Horder s rows)).
  rewrite E. left. reflexivity.
Qed.

Lemma engine_order_nil (row_order : Db -> list BotPool -> list BotPool) (s : Db) :
  engine_order row_order -> row_order s [] = [].
Proof.
  intros Horder. apply Permutation_nil, Permutation_sym, Horder.
Qed.

(** Every database the pool manager produces keeps the pool in creation
    order. *)
Lemma pool_reachable_in_creation_order
    (validate_bot_token : string -> option BotPoolManager.BotInfo)
    (encrypt_token : string -> string)
    (row_order : Db -> list BotPool -> list BotPool) (s : Db) :
  pool_reachable validate_bot_token encrypt_token row_order s ->
  pool_in_creation_order s.
Proof.
  unfold pool_in_creation_order.
  induction 1 as [s Hnil | s token now _ IH | s c now _ IH | s c _ IH | s id _ IH].
  - rewrite Hnil. constructor.
  - destruct (add_bot_cases validate_bot_token encrypt_token token now s)
      as [(r & -> & Hid & _) | (err & ->)]; [|exact IH].
    simpl. rewrite map_app. simpl. apply sorted_snoc; [exact IH|].
    rewrite Hid. apply bot_next_id_above.
  - unfold BotPoolManager.claim_bot.
    destruct (row_order _ _); [exact IH|].
    cbn [snd]. rewrite update_bot_ids. exact IH.
  - unfold BotPoolManager.release_bot.
    destruct (find _ _); [|exact IH].
    cbn [snd]. rewrite update_bot_ids. exact IH.
  - unfold BotPoolManager.retire_bot.
    destruct (find _ _); [|exact IH].
    cbn [snd]. rewrite update_bot_ids. exact IH.
Qed.

(** C6 (the defect): the select of [claim_bot] has no ORDER BY, and
    [claim_bot] takes the first row of whatever order the engine returns.
    That row is an available bot and exactly that row is rewritten as
    assigned to the claiming tenant, in one commit; it is the available
    bot created first exactly when no available bot is stored before it,
    which the code does nothing to ensure.  When the pool has no available
    bot, [claim_bot] raises [BotPoolExhaustedException] and the database is
    unchanged. *)
Theorem C6_claim_takes_the_first_row_of_an_unordered_select
    (row_order : Db -> list BotPool -> list BotPool)
    (client_id now : Z) (session : Db) :
  engine_order row_order ->
  pool_in_creation_order session ->
  let out := BotPoolManager.claim_bot row_order client_id now session in
  (forall chosen rest,
      row_order session
        (List.filter BotPoolManager.is_available (bot_pool session))
      = chosen :: rest ->
      exists pre post,
        bot_pool session = (pre ++ chosen :: post)%list
        /\ status chosen = AVAILABLE
        /\ fst out = Ok (assigned_bot client_id now chosen)
        /\ bot_pool (snd out)
           = (pre ++ assigned_bot client_id now chosen :: post)%list
        /\ commits (snd out) = S (commits session)
        /\ ((forall x, In x (bot_pool session) -> status x = AVAILABLE ->
               bp_id chosen <= bp_id x)
            <-> Forall (fun x => status x <> AVAILABLE) pre))
  /\ ((forall b, In b (bot_pool session) -> status b <> AVAILABLE) ->
      out = (Raise (BotPoolExhaustedException "No bots available in pool"),
             session)).
Proof.
  intros Horder Hsorted out. unfold out, BotPoolManager.claim_bot. split.
  - intros chosen rest E. rewrite E. cbv zeta. cbn [fst snd].
    pose proof (engine_order_head _ _ _ _ _ Horder E) as Hin.
    apply List.filter_In in Hin as [Hin Hav]. apply is_available_iff in Hav.
    destruct (in_split _ _ Hin) as (pre & post & Hpool).
    unfold pool_in_creation_order in Hsorted. rewrite Hpool in Hsorted.
    exists pre, post. split; [exact Hpool|]. split; [exact Hav|].
    split; [reflexivity|]. split.
    { unfold BotPoolManager.update_bot, with_bot_pool. cbn [bot_pool].
      rewrite Hpool.
      apply (update_bot_split chosen (assigned_bot client_id now chosen));
        [reflexivity | exact Hsorted]. }
    split; [reflexivity|].
    rewrite map_app in Hsorted. simpl in Hsorted.
    apply sorted_split in Hsorted as [Hpre Hpost].
    rewrite Forall_forall in Hpre, Hpost. split.
    + intros Hmin. apply Forall_forall. intros x Hx Hxav.
      apply list_elem_of_In in Hx.
      assert (Hle : bp_id chosen <= bp_id x).
      { apply Hmin; [|exact Hxav]. rewrite Hpool. apply in_or_app. left. exact Hx. }
      specialize (Hpre (bp_id x) (proj2 (list_elem_of_In _ _) (in_map bp_id _ _ Hx))).
      lia.
    + intros Hnone x Hx Hxav. rewrite Hpool in Hx.
      apply in_app_or in Hx as [Hx | [<- | Hx]].
      * rewrite Forall_forall in Hnone.
        exfalso. exact (Hnone x (proj2 (list_elem_of_In _ _) Hx) Hxav).
      * lia.
      * specialize (Hpost (bp_id x)
                      (proj2 (list_elem_of_In _ _) (in_map bp_id _ _ Hx))).
        lia.
  - intros Hnone.
    assert (F : List.filter BotPoolManager.is_available (bot_pool session) = []).
    { apply filter_nil_intro. intros x Hx.
      destruct (BotPoolManager.is_available x) eqn:E; [|reflexivity].
      apply is_available_iff in E. exfalso. exact (Hnone x Hx E). }
    rewrite F, (engine_order_nil _ _ Horder). reflexivity.
Qed.

Lemma C6_newest_first_witness :
  (exists claimed older,
      fst (BotPoolManager.claim_bot newest_first 9 7 fresh_pool_db) = Ok claimed
      /\ bp_id claimed = 2
      /\ assigned_to_client_id claimed = Some 9
      /\ bot_pool (snd (BotPoolManager.claim_bot newest_first 9 7 fresh_pool_db))
         = [older; claimed]
      /\ status older = AVAILABLE
      /\ bp_id older = 1)
  /\ BotPoolManager.claim_bot newest_first 9 77 exhausted_pool_db
     = (Raise (BotPoolExhaustedException "No bots available in pool"),
        exhausted_pool_db).
Proof.
  assert (Horder : engine_order newest_first)
    by (intros s rows; apply Permutation_sym, Permutation_rev).
  split.
  - assert (Hs : pool_in_creation_order fresh_pool_db)
      by (unfold pool_in_creation_order; vm_compute;
          repeat (constructor; [|repeat constructor; lia]); constructor).
    destruct (C6_claim_takes_the_first_row_of_an_unordered_select
                newest_first 9 7 fresh_pool_db Horder Hs) as [H _].
    destruct (H _ _ eq_refl) as (pre & post & _ & _ & Hok & _).
    eexists _, _. split; [exact Hok|]. repeat split; reflexivity.
  - apply (C6_claim_takes_the_first_row_of_an_unordered_select
             newest_first 9 77 exhausted_pool_db Horder).
    + unfold pool_in_creation_order. simpl.
      repeat (constructor; [|repeat constructor; lia]); constructor.
    + simpl. intros b [<- | [<- | []]]; simpl; discriminate.
Defined.

(** ** The prompt compiler *)

Example compile_sample :
  SystemPromptCompiler.compile sample_config =
"You are Alfred.

Communication style: professional, formal, and business-like
Primary language: en

About the business:
I help businesses automate their operations with AI.

Guidelines:
- Always be helpful, concise, and stay in character
- If you cannot help with something, say so clearly and suggest alternatives
- Remember: users configure everything by talking to you
- Guide them through setup naturally
- Be proactive in suggesting next steps".
Proof. vm_compute. reflexivity. Qed.

(** C9: [compile] is a function of the configuration alone (it takes no
    session and returns only text), and its text is determined by the
    agent name, the personality, the language and the custom instructions:
    two configurations that agree on these fields compile to the same
    text, byte for byte. *)
Theorem C9_compile_is_deterministic (config1 config2 : AgentConfig) :
  agent_name config1 = agent_name config2 ->
  personality config1 = personality config2 ->
  language config1 = language config2 ->
  custom_instructions config1 = custom_instructions config2 ->
  SystemPromptCompiler.compile config1 = SystemPromptCompiler.compile config2.
Proof.
  intros Hn Hp Hl Hc. unfold SystemPromptCompiler.compile.
  rewrite Hn, Hp, Hl, Hc. reflexivity.
Qed.

Lemma C9_compile_witness :
  SystemPromptCompiler.compile sample_config
  = SystemPromptCompiler.compile sample_config_copy.
Proof.
  apply (C9_compile_is_deterministic sample_config sample_config_copy);
    reflexivity.
Defined.

(* ===================================================================== *)
(** * Further properties *)
(* ===================================================================== *)

(** ** The bot pool: release, retire, status *)

Lemma find_first_split {A : Type} (f : A -> bool) (l : list A) (x : A) :
  find f l = Some x ->
  exists pre post,
    l = (pre ++ x :: post)%list
    /\ Forall (fun y => f y = false) pre
    /\ f x = true.
Proof.
  induction l as [|a l IH]; simpl; [discriminate|].
  destruct (f a) eqn:E.
  - intros [= ->]. exists [], l. repeat split; [constructor | exact E].
  - intros H. destruct (IH H) as (pre & post & -> & Hpre & Hx).
    exists (a :: pre), post. repeat split; [constructor; assumption | exact Hx].
Qed.

Lemma find_skip_prefix {A : Type} (f : A -> bool) (pre post : list A) (x : A) :
  Forall (fun y => f y = false) pre -> f x = true ->
  find f (pre ++ x :: post) = Some x.
Proof.
  induction 1 as [|a pre Ha _ IH]; intros Hx; simpl.
  - rewrite Hx. reflexivity.
  - rewrite Ha. apply IH, Hx.
Qed.

Lemma filter_skip_prefix {A : Type} (f : A -> bool) (pre post : list A) :
  Forall (fun y => f y = false) pre ->
  List.filter f (pre ++ post) = List.filter f post.
Proof.
  induction 1 as [|a pre Ha _ IH]; simpl; [reflexivity|].
  rewrite Ha. exact IH.
Qed.

Lemma sorted_unique_bot (rows : list BotPool) (a b : BotPool) :
  StronglySorted Z.lt (map bp_id rows) ->
  In a rows -> In b rows -> bp_id a = bp_id b -> a = b.
Proof.
  induction rows as [|x rows IH]; simpl; intros Hs Ha Hb Hid; [contradiction|].
  apply StronglySorted_inv in Hs as [Hs Hx].
  rewrite Forall_forall in Hx.
  assert (Hlt : forall r, In r rows -> bp_id x < bp_id r).
  { intros r Hr. apply Hx, list_elem_of_In, in_map, Hr. }
  destruct Ha as [<-|Ha], Hb as [<-|Hb]; auto.
  - specialize (Hlt b Hb). lia.
  - specialize (Hlt a Ha). lia.
Qed.

(** What a successful [claim_bot] does to a pool in creation order,
    whichever available row the engine returns first. *)
Lemma claim_bot_ok_inv (row_order : Db -> list BotPool -> list BotPool)
    (c now : Z) (s s1 : Db) (b : BotPool) :
  engine_order row_order ->
  pool_in_creation_order s ->
  BotPoolManager.claim_bot row_order c now s = (Ok b, s1) ->
  exists chosen pre post,
    bot_pool s = (pre ++ chosen :: post)%list
    /\ status chosen = AVAILABLE
    /\ b = assigned_bot c now chosen
    /\ s1 = BotPoolManager.update_bot (assigned_bot c now chosen) s
    /\ bot_pool s1 = (pre ++ assigned_bot c now chosen :: post)%list.
Proof.
  intros Horder Hsorted. unfold BotPoolManager.claim_bot.
  destruct (row_order s _) as [|chosen rest] eqn:E; [discriminate|].
  intros [= <- <-].
  pose proof (engine_order_head _ _ _ _ _ Horder E) as Hin.
  apply List.filter_In in Hin as [Hin Hav]. apply is_available_iff in Hav.
  destruct (in_split _ _ Hin) as (pre & post & Hpool).
  exists chosen, pre, post. split; [exact Hpool|]. split; [exact Hav|].
  split; [reflexivity|]. split; [reflexivity|].
  unfold BotPoolManager.update_bot, with_bot_pool. cbn [bot_pool].
  rewrite Hpool.
  apply (update_bot_split chosen (assigned_bot c now chosen)); [reflexivity|].
  unfold pool_in_creation_order in Hsorted. rewrite Hpool in Hsorted.
  exact Hsorted.
Qed.

Lemma update_bot_Forall (P : BotPool -> Prop) (bot : BotPool) (s : Db) :
  P bot -> Forall P (bot_pool s) ->
  Forall P (bot_pool (BotPoolManager.update_bot bot s)).
Proof.
  intros Hb H. simpl. apply Forall_forall. intros x Hx.
  apply list_elem_of_In, in_map_iff in Hx as (r & <- & Hr).
  destruct (bp_id r =? bp_id bot); [exact Hb|].
  rewrite Forall_forall in H. apply H, list_elem_of_In, Hr.
Qed.

Lemma is_assigned_to_status (c : Z) (b : BotPool) :
  BotPoolManager.is_assigned_to c b = true ->
  status b = ASSIGNED /\ assigned_to_client_id b = Some c.
Proof.
  unfold BotPoolManager.is_assigned_to.
  destruct (assigned_to_client_id b) as [o|]; [|discriminate].
  intros H. apply andb_true_iff in H as [Ho Hs]. apply Z.eqb_eq in Ho. subst o.
  split; [|reflexivity]. destruct (status b); simpl in Hs; congruence.
Qed.

Lemma assigned_bot_consistent (c now : Z) (b : BotPool) :
  bot_consistent (assigned_bot c now b).
Proof. unfold bot_consistent. simpl. repeat split; congruence. Qed.

Lemma freed_bot_consistent (b : BotPool) : bot_consistent (freed_bot b).
Proof. unfold bot_consistent. simpl. repeat split; congruence. Qed.

Lemma retired_bot_consistent (b : BotPool) : bot_consistent (retired_bot b).
Proof. unfold bot_consistent. simpl. repeat split; congruence. Qed.

Lemma apply_pool_op_consistent
    (v : string -> option BotPoolManager.BotInfo) (e : string -> string)
    (o : Db -> list BotPool -> list BotPool) (op : PoolOp) (s : Db) :
  Forall bot_consistent (bot_pool s) ->
  Forall bot_consistent (bot_pool (apply_pool_op v e o op s)).
Proof.
  intros H. destruct op as [token now | c now | c | id]; simpl.
  - destruct (add_bot_cases v e token now s)
      as [(r & -> & _ & _ & Hst & Hown & Hat) | (err & ->)]; [|exact H].
    simpl. apply Forall_app. split; [exact H|].
    repeat constructor; simpl; congruence.
  - unfold BotPoolManager.claim_bot. destruct (o s _) as [|b r]; [exact H|].
    apply (update_bot_Forall _ (assigned_bot c now b)); [apply assigned_bot_consistent|exact H].
  - unfold BotPoolManager.release_bot. destruct (find _ _) as [b|]; [|exact H].
    apply (update_bot_Forall _ (freed_bot b)); [apply freed_bot_consistent|exact H].
  - unfold BotPoolManager.retire_bot. destruct (find _ _) as [b|]; [|exact H].
    apply (update_bot_Forall _ (retired_bot b)); [apply retired_bot_consistent|exact H].
Qed.

Lemma apply_pool_op_sorted
    (v : string -> option BotPoolManager.BotInfo) (e : string -> string)
    (o : Db -> list BotPool -> list BotPool) (op : PoolOp) (s : Db) :
  pool_in_creation_order s -> pool_in_creation_order (apply_pool_op v e o op s).
Proof.
  unfold pool_in_creation_order. intros H.
  destruct op as [token now | c now | c | id]; simpl.
  - destruct (add_bot_cases v e token now s)
      as [(r & -> & Hid & _) | (err & ->)]; [|exact H].
    simpl. rewrite map_app. simpl. apply sorted_snoc; [exact H|].
    rewrite Hid. apply bot_next_id_above.
  - unfold BotPoolManager.claim_bot. destruct (o s _); [exact H|].
    cbn [snd]. rewrite update_bot_ids. exact H.
  - unfold BotPoolManager.release_bot. destruct (find _ _); [|exact H].
    cbn [snd]. rewrite update_bot_ids. exact H.
  - unfold BotPoolManager.retire_bot. destruct (find _ _); [|exact H].
    cbn [snd]. rewrite update_bot_ids. exact H.
Qed.

(** X1: in every pool built from a pool without rows by adding, claiming,
    releasing and retiring, each bot has an owner exactly when its status
    is assigned, and an available bot carries no assignment time; the rows
    stay in creation order.  This holds whatever order the engine returns
    the rows of a select in. *)
Theorem X1_pool_owner_iff_assigned
    (validate_bot_token : string -> option BotPoolManager.BotInfo)
    (encrypt_token : string -> string)
    (row_order : Db -> list BotPool -> list BotPool)
    (ops : list PoolOp) (start : Db) :
  bot_pool start = [] ->
  Forall bot_consistent
         (bot_pool (run_pool_ops validate_bot_token encrypt_token row_order
                      ops start))
  /\ pool_in_creation_order
       (run_pool_ops validate_bot_token encrypt_token row_order ops start).
Proof.
  intros Hnil.
  assert (H0 : Forall bot_consistent (bot_pool start)
               /\ pool_in_creation_order start).
  { unfold pool_in_creation_order. rewrite Hnil. split; constructor. }
  revert H0. generalize start. clear Hnil start.
  induction ops as [|op ops IH]; intros s [Hc Hs]; [split; assumption|].
  apply IH. split.
  - apply apply_pool_op_consistent, Hc.
  - apply apply_pool_op_sorted, Hs.
Qed.

Lemma X1_pool_owner_witness :
  Forall bot_consistent (bot_pool built_pool_db)
  /\ pool_in_creation_order built_pool_db.
Proof.
  apply (X1_pool_owner_iff_assigned sample_validate sample_encrypt creation_order
           [PoolAdd "111:aaa" 5; PoolAdd "222:bbb" 6; PoolClaim 9 7] empty_db).
  reflexivity.
Defined.



Lemma freed_assigned_available (c now : Z) (b : BotPool) :
  bot_consistent b -> status b = AVAILABLE ->
  freed_bot (assigned_bot c now b) = b.
Proof.
  intros [Hown Htime] Hst. destruct b as [id tok un nm st owner at_ cr].
  unfold freed_bot, assigned_bot. simpl in *. subst st.
  rewrite (Htime eq_refl). f_equal.
  destruct owner as [o|]; [|reflexivity].
  assert (H : AVAILABLE = ASSIGNED) by (apply Hown; discriminate). discriminate H.
Qed.

Lemma available_not_assigned_to (c : Z) (b : BotPool) :
  BotPoolManager.is_available b = true ->
  BotPoolManager.is_assigned_to c b = false.
Proof.
  intros Hav. destruct (BotPoolManager.is_assigned_to c b) eqn:E; [|reflexivity].
  apply is_assigned_to_status in E as [E _]. apply is_available_iff in Hav. congruence.
Qed.

(** X3: after a successful claim by a tenant that owned no bot,
    [get_bot_for_client] returns the claimed bot, and releasing it puts
    every row of the pool back as it was before the claim, whichever
    available bot the engine handed to the claim. *)
Theorem X3_claim_then_release_restores_pool
    (row_order : Db -> list BotPool -> list BotPool)
    (client_id now : Z) (session session1 : Db) (claimed : BotPool) :
  engine_order row_order ->
  pool_in_creation_order session ->
  Forall bot_consistent (bot_pool session) ->
  owns_no_bot client_id session ->
  BotPoolManager.claim_bot row_order client_id now session
  = (Ok claimed, session1) ->
  BotPoolManager.get_bot_for_client client_id session1 = Some claimed
  /\ exists session2,
      BotPoolManager.release_bot client_id session1 = (true, session2)
      /\ bot_pool session2 = bot_pool session.
Proof.
  intros Horder Hsorted Hcons Hnone Hclaim.
  destruct (claim_bot_ok_inv _ _ _ _ _ _ Horder Hsorted Hclaim)
    as (first & pre & post & Hpool & Hfirst & -> & -> & Hpool1).
  assert (Hpre' : Forall (fun y => BotPoolManager.is_assigned_to client_id y = false) pre).
  { apply Forall_forall. intros x Hx. apply Hnone. rewrite Hpool.
    apply in_or_app. left. apply list_elem_of_In, Hx. }
  assert (Hmine : BotPoolManager.is_assigned_to client_id
                    (assigned_bot client_id now first) = true).
  { unfold BotPoolManager.is_assigned_to. simpl. rewrite Z.eqb_refl. reflexivity. }
  assert (Hfind : find (BotPoolManager.is_assigned_to client_id)
                    (bot_pool (BotPoolManager.update_bot
                                 (assigned_bot client_id now first) session))
                  = Some (assigned_bot client_id now first)).
  { rewrite Hpool1. apply find_skip_prefix; assumption. }
  split; [exact Hfind|].
  unfold BotPoolManager.release_bot. rewrite Hfind. eexists. split; [reflexivity|].
  unfold BotPoolManager.update_bot at 1, with_bot_pool. cbn [bot_pool].
  rewrite Hpool1.
  assert (Hfirst_in : In first (bot_pool session))
    by (rewrite Hpool; apply in_or_app; right; left; reflexivity).
  rewrite Forall_forall in Hcons.
  pose proof (Hcons first (proj2 (list_elem_of_In _ _) Hfirst_in)) as Hcf.
  transitivity (pre ++ freed_bot (assigned_bot client_id now first) :: post)%list.
  - apply (update_bot_split (assigned_bot client_id now first)
             (freed_bot (assigned_bot client_id now first)) pre post);
      [reflexivity|].
    unfold pool_in_creation_order in Hsorted. rewrite Hpool in Hsorted.
    rewrite map_app in *. simpl in *. exact Hsorted.
  - rewrite (freed_assigned_available _ _ _ Hcf Hfirst). symmetry. exact Hpool.
Qed.

Ltac pool_rows_sorted :=
  unfold pool_in_creation_order; vm_compute;
  repeat (constructor; [|repeat constructor; lia]); constructor.

Ltac pool_rows_consistent :=
  vm_compute; repeat (apply List.Forall_cons || apply List.Forall_nil);
  (split; [split; intros H; try discriminate H; try congruence
          | intros H; try reflexivity; try discriminate H]).

Lemma X3_claim_release_witness :
  exists claimed session1,
    BotPoolManager.claim_bot newest_first 9 7 fresh_pool_db = (Ok claimed, session1)
    /\ BotPoolManager.get_bot_for_client 9 session1 = Some claimed
    /\ exists session2,
        BotPoolManager.release_bot 9 session1 = (true, session2)
        /\ bot_pool session2 = bot_pool fresh_pool_db.
Proof.
  do 2 eexists. split; [vm_compute; reflexivity|].
  apply (X3_claim_then_release_restores_pool newest_first 9 7 fresh_pool_db).
  - intros s rows. apply Permutation_sym, Permutation_rev.
  - pool_rows_sorted.
  - pool_rows_consistent.
  - intros b Hb. vm_compute in Hb. destruct Hb as [<- | [<- | []]]; reflexivity.
  - vm_compute. reflexivity.
Defined.

Lemma update_bot_keeps_other (bot b : BotPool) (s : Db) :
  In b (bot_pool s) -> bp_id b <> bp_id bot ->
  In b (bot_pool (BotPoolManager.update_bot bot s)).
Proof.
  intros Hb Hne. simpl. apply in_map_iff. exists b. split; [|exact Hb].
  destruct (bp_id b =? bp_id bot) eqn:E; [apply Z.eqb_eq in E; contradiction|reflexivity].
Qed.

Lemma update_bot_has_new (bot bot' : BotPool) (s : Db) :
  In bot (bot_pool s) -> bp_id bot' = bp_id bot ->
  In bot' (bot_pool (BotPoolManager.update_bot bot' s)).
Proof.
  intros Hb Hid. simpl. apply in_map_iff. exists bot. split; [|exact Hb].
  rewrite Hid, Z.eqb_refl. reflexivity.
Qed.

Lemma retired_survives_op
    (v : string -> option BotPoolManager.BotInfo) (e : string -> string)
    (o : Db -> list BotPool -> list BotPool)
    (op : PoolOp) (s : Db) (b : BotPool) :
  engine_order o ->
  pool_in_creation_order s -> In b (bot_pool s) -> status b = RETIRED ->
  exists b', In b' (bot_pool (apply_pool_op v e o op s))
             /\ bp_id b' = bp_id b /\ bot_token b' = bot_token b
             /\ status b' = RETIRED.
Proof.
  intros Horder Hsorted Hb Hst.
  destruct op as [token now | c now | c | id]; simpl.
  - exists b.
    destruct (add_bot_cases v e token now s) as [(r & -> & _) | (err & ->)];
      simpl; [|auto].
    split; [apply in_or_app; left; exact Hb | auto].
  - unfold BotPoolManager.claim_bot.
    destruct (o s _) as [|first rest] eqn:F; [exists b; auto|].
    pose proof (engine_order_head _ _ _ _ _ Horder F) as Hf.
    apply List.filter_In in Hf as [Hfin Hfav]. apply is_available_iff in Hfav.
    exists b. split; [|auto].
    apply update_bot_keeps_other; [exact Hb|]. simpl. intros Hid.
    rewrite (sorted_unique_bot _ b first Hsorted Hb Hfin Hid) in Hst. congruence.
  - unfold BotPoolManager.release_bot.
    destruct (find _ _) as [owned|] eqn:F; [|exists b; auto].
    apply find_some in F as [Hoin Hown]. apply is_assigned_to_status in Hown as [Hown _].
    exists b. split; [|auto].
    apply update_bot_keeps_other; [exact Hb|]. simpl. intros Hid.
    rewrite (sorted_unique_bot _ b owned Hsorted Hb Hoin Hid) in Hst. congruence.
  - unfold BotPoolManager.retire_bot.
    destruct (find _ _) as [target|] eqn:F; [|exists b; auto].
    apply find_some in F as [Htin _].
    destruct (Z.eq_dec (bp_id b) (bp_id target)) as [Hid|Hne].
    + pose proof (sorted_unique_bot _ b target Hsorted Hb Htin Hid) as ->.
      exists (retired_bot target).
      split; [apply (update_bot_has_new target); [exact Htin|reflexivity]|].
      simpl. auto.
    + exists b. split; [|auto].
      apply update_bot_keeps_other; [exact Hb|exact Hne].
Qed.

(** X4: retirement is final.  In a pool in creation order, a retired bot
    is still in the pool, with the same key and token, and still retired,
    after any sequence of add, claim, release and retire operations,
    whatever order the engine returns the rows of a select in. *)
Theorem X4_retired_bot_stays_retired
    (validate_bot_token : string -> option BotPoolManager.BotInfo)
    (encrypt_token : string -> string)
    (row_order : Db -> list BotPool -> list BotPool)
    (ops : list PoolOp) (session : Db) (bot : BotPool) :
  engine_order row_order ->
  pool_in_creation_order session ->
  In bot (bot_pool session) ->
  status bot = RETIRED ->
  exists bot',
    In bot' (bot_pool (run_pool_ops validate_bot_token encrypt_token row_order
                         ops session))
    /\ bp_id bot' = bp_id bot
    /\ bot_token bot' = bot_token bot
    /\ status bot' = RETIRED.
Proof.
  intros Horder.
  revert session bot. induction ops as [|op ops IH]; intros s b Hsorted Hb Hst.
  - exists b. auto.
  - destruct (retired_survives_op validate_bot_token encrypt_token row_order
                op s b Horder Hsorted Hb Hst) as (b1 & Hin & Hid & Htok & Hst1).
    destruct (IH _ b1 (apply_pool_op_sorted _ _ _ op s Hsorted) Hin Hst1)
      as (b' & Hin' & Hid' & Htok' & Hst').
    exists b'. repeat split; try assumption; congruence.
Qed.

Lemma X4_retired_witness :
  exists bot',
    In bot' (bot_pool (run_pool_ops sample_validate sample_encrypt newest_first
                         [PoolClaim 5 10; PoolRelease 3; PoolRetire 2;
                          PoolAdd "333:ccc" 11; PoolClaim 6 12]
                         sample_pool_db))
    /\ bp_id bot' = 2
    /\ bot_token bot' = "gAAAA"
    /\ status bot' = RETIRED.
Proof.
  apply (X4_retired_bot_stays_retired sample_validate sample_encrypt newest_first
           [PoolClaim 5 10; PoolRelease 3; PoolRetire 2;
            PoolAdd "333:ccc" 11; PoolClaim 6 12]
           sample_pool_db (sample_bot 2 RETIRED None)).
  - intros s rows. apply Permutation_sym, Permutation_rev.
  - pool_rows_sorted.
  - simpl. auto.
  - reflexivity.
Defined.

Lemma count_status_app (st : BotStatus) (l1 l2 : list BotPool) :
  BotPoolManager.count_status st (l1 ++ l2)
  = (BotPoolManager.count_status st l1 + BotPoolManager.count_status st l2)%nat.
Proof.
  unfold BotPoolManager.count_status. rewrite List.filter_app, length_app. reflexivity.
Qed.

Lemma count_status_cons (st : BotStatus) (b : BotPool) (l : list BotPool) :
  BotPoolManager.count_status st (b :: l)
  = ((if BotPoolManager.status_eqb (status b) st then 1 else 0)
     + BotPoolManager.count_status st l)%nat.
Proof.
  unfold BotPoolManager.count_status. simpl.
  destruct (BotPoolManager.status_eqb _ _); reflexivity.
Qed.

(** X5: the three counts of [get_pool_status] add up to the total, for
    every pool, and the low alert is raised exactly when the available
    count is below the threshold. *)
Theorem X5_pool_status_counts_partition (threshold : Z) (session : Db) :
  let st := BotPoolManager.get_pool_status threshold session in
  (BotPoolManager.ps_available st + BotPoolManager.ps_assigned st
   + BotPoolManager.ps_retired st)%nat = BotPoolManager.ps_total st
  /\ (BotPoolManager.ps_low_alert st = true
      <-> Z.of_nat (BotPoolManager.ps_available st) < threshold).
Proof.
  unfold BotPoolManager.get_pool_status. cbn [BotPoolManager.ps_available
    BotPoolManager.ps_assigned BotPoolManager.ps_retired BotPoolManager.ps_total
    BotPoolManager.ps_low_alert].
  split; [|apply Z.ltb_lt].
  induction (bot_pool session) as [|b l IH]; [reflexivity|].
  rewrite !count_status_cons. simpl length.
  destruct (status b); simpl; lia.
Qed.

(** X6: a successful claim on a pool in creation order moves exactly one
    bot from available to assigned: the available count drops by one, the
    assigned count grows by one, the retired count and the total stay,
    whichever available bot the engine handed to the claim. *)
Theorem X6_claim_moves_one_bot_to_assigned
    (row_order : Db -> list BotPool -> list BotPool)
    (threshold client_id now : Z) (session session1 : Db) (claimed : BotPool) :
  engine_order row_order ->
  pool_in_creation_order session ->
  BotPoolManager.claim_bot row_order client_id now session
  = (Ok claimed, session1) ->
  let before := BotPoolManager.get_pool_status threshold session in
  let after := BotPoolManager.get_pool_status threshold session1 in
  BotPoolManager.ps_available before = S (BotPoolManager.ps_available after)
  /\ BotPoolManager.ps_assigned after = S (BotPoolManager.ps_assigned before)
  /\ BotPoolManager.ps_retired after = BotPoolManager.ps_retired before
  /\ BotPoolManager.ps_total after = BotPoolManager.ps_total before.
Proof.
  intros Horder Hsorted Hclaim.
  destruct (claim_bot_ok_inv _ _ _ _ _ _ Horder Hsorted Hclaim)
    as (first & pre & post & Hpool & Hfirst & -> & -> & Hpool1).
  unfold BotPoolManager.get_pool_status. cbn [BotPoolManager.ps_available
    BotPoolManager.ps_assigned BotPoolManager.ps_retired BotPoolManager.ps_total].
  rewrite Hpool1, Hpool, !count_status_app, !count_status_cons, !length_app.
  simpl. rewrite Hfirst. simpl. lia.
Qed.

Lemma X6_claim_counts_witness :
  let before := BotPoolManager.get_pool_status 10 sample_pool_db in
  let after :=
    BotPoolManager.get_pool_status 10
      (snd (BotPoolManager.claim_bot newest_first 9 77 sample_pool_db)) in
  BotPoolManager.ps_available before = S (BotPoolManager.ps_available after)
  /\ BotPoolManager.ps_assigned after = S (BotPoolManager.ps_assigned before)
  /\ BotPoolManager.ps_retired after = BotPoolManager.ps_retired before
  /\ BotPoolManager.ps_total after = BotPoolManager.ps_total before.
Proof.
  apply (X6_claim_moves_one_bot_to_assigned newest_first 10 9 77 sample_pool_db _
           (assigned_bot 9 77 (sample_bot 4 AVAILABLE None))).
  - intros s rows. apply Permutation_sym, Permutation_rev.
  - pool_rows_sorted.
  - vm_compute. reflexivity.
Defined.

(** X7: two successful claims in a row never hand out the same bot,
    whatever order the engine returns the available rows in: the two
    claimed bots have different keys, and after the second claim both are
    in the pool, each assigned to its own tenant. *)
Theorem X7_successive_claims_take_different_bots
    (row_order : Db -> list BotPool -> list BotPool)
    (c1 now1 c2 now2 : Z) (session s1 s2 : Db) (b1 b2 : BotPool) :
  engine_order row_order ->
  pool_in_creation_order session ->
  BotPoolManager.claim_bot row_order c1 now1 session = (Ok b1, s1) ->
  BotPoolManager.claim_bot row_order c2 now2 s1 = (Ok b2, s2) ->
  bp_id b1 <> bp_id b2
  /\ In b1 (bot_pool s2) /\ In b2 (bot_pool s2)
  /\ status b1 = ASSIGNED /\ assigned_to_client_id b1 = Some c1
  /\ status b2 = ASSIGNED /\ assigned_to_client_id b2 = Some c2.
Proof.
  intros Horder Hsorted Hclaim1 Hclaim2.
  destruct (claim_bot_ok_inv _ _ _ _ _ _ Horder Hsorted Hclaim1)
    as (f1 & pre & post & Hpool & Hf1 & -> & -> & Hpool1).
  set (a1 := assigned_bot c1 now1 f1) in *.
  set (s1 := BotPoolManager.update_bot a1 session) in *.
  assert (Hsorted1 : pool_in_creation_order s1).
  { unfold pool_in_creation_order, s1. rewrite update_bot_ids. exact Hsorted. }
  destruct (claim_bot_ok_inv _ _ _ _ _ _ Horder Hsorted1 Hclaim2)
    as (f2 & pre2 & post2 & Hpool2 & Hf2 & -> & -> & _).
  assert (Ha1 : In a1 (bot_pool s1))
    by (rewrite Hpool1; apply in_or_app; right; left; reflexivity).
  assert (Hf2in : In f2 (bot_pool s1))
    by (rewrite Hpool2; apply in_or_app; right; left; reflexivity).
  assert (Hne : bp_id a1 <> bp_id f2).
  { intros Hid.
    pose proof (sorted_unique_bot _ a1 f2 Hsorted1 Ha1 Hf2in Hid) as E.
    rewrite <- E in Hf2. discriminate Hf2. }
  split; [exact Hne|]. split.
  - apply update_bot_keeps_other; [exact Ha1 | exact Hne].
  - split.
    + apply (update_bot_has_new f2); [exact Hf2in | reflexivity].
    + simpl. auto.
Qed.

Lemma X7_successive_claims_witness :
  exists b1 b2,
    bp_id b1 <> bp_id b2
    /\ In b1 (bot_pool (snd (BotPoolManager.claim_bot newest_first 6 8
                               (snd (BotPoolManager.claim_bot newest_first 5 7
                                       fresh_pool_db)))))
    /\ assigned_to_client_id b1 = Some 5
    /\ assigned_to_client_id b2 = Some 6.
Proof.
  do 2 eexists.
  destruct (X7_successive_claims_take_different_bots newest_first 5 7 6 8
              fresh_pool_db _ _ _ _
              ltac:(intros s rows; apply Permutation_sym, Permutation_rev)
              ltac:(pool_rows_sorted) eq_refl eq_refl)
    as (Hne & Hin1 & _ & _ & Ho1 & _ & Ho2).
  repeat split; [exact Hne | exact Hin1 | exact Ho1 | exact Ho2].
Defined.

Lemma add_bot_complete
    (v : string -> option BotPoolManager.BotInfo) (e : string -> string)
    (token : string) (now : Z) (s : Db) (info : BotPoolManager.BotInfo) :
  v token = Some info -> getme_complete info = true ->
  exists r,
    BotPoolManager.add_bot v e token now s
    = (Ok r, with_bot_pool (bot_pool s ++ [r]) s)
    /\ status r = AVAILABLE /\ assigned_to_client_id r = None.
Proof.
  intros Hv Hc. unfold BotPoolManager.add_bot. rewrite Hv.
  destruct info as [[[u|]|] [[n|]|]]; try discriminate Hc;
    eexists; repeat split.
Qed.

Lemma add_bot_incomplete
    (v : string -> option BotPoolManager.BotInfo) (e : string -> string)
    (token : string) (now : Z) (s : Db) (info : BotPoolManager.BotInfo) :
  v token = Some info -> getme_complete info = false ->
  exists m,
    BotPoolManager.add_bot v e token now s = (Raise (KeyError m), s)
    \/ BotPoolManager.add_bot v e token now s = (Raise (IntegrityError m), s).
Proof.
  intros Hv Hc. unfold BotPoolManager.add_bot. rewrite Hv.
  destruct info as [[[u|]|] [[n|]|]]; try discriminate Hc;
    eexists; simpl; auto.
Qed.

Lemma bulk_loop_counts
    (v : string -> option BotPoolManager.BotInfo) (e : string -> string)
    (clock : nat -> Z) (tokens : list string) (i added invalid : nat) (s : Db) :
  Forall (fun t => token_incomplete v t = false) tokens ->
  exists n new s',
    BotPoolAdmin.bulk_loop v e clock tokens i added invalid s
    = (Ok ((added + n)%nat, (invalid + (length tokens - n))%nat), s')
    /\ n = length (List.filter (token_accepted v) tokens)
    /\ bot_pool s' = (bot_pool s ++ new)%list
    /\ length new = n
    /\ Forall (fun b => status b = AVAILABLE /\ assigned_to_client_id b = None) new.
Proof.
  intros Hall. revert i added invalid s.
  induction Hall as [|t tokens Ht _ IH]; intros i added invalid s.
  - exists 0%nat, [], s. simpl. rewrite !Nat.add_0_r, app_nil_r.
    repeat split. constructor.
  - cbn [BotPoolAdmin.bulk_loop List.filter length].
    unfold token_incomplete in Ht. unfold token_accepted at 1.
    destruct (v (PyStr.strip t)) as [info|] eqn:Hv.
    + apply negb_false_iff in Ht.
      destruct (add_bot_complete v e _ (clock i) s info Hv Ht)
        as (r & -> & Hst & Hown).
      destruct (IH (S i) (S added) invalid (with_bot_pool (bot_pool s ++ [r]) s))
        as (n & new & s' & Hloop & Hn & Hpool & Hlen & Hnew).
      exists (S n), (r :: new), s'. rewrite Hloop. cbn [length].
      assert (Hle : (n <= length tokens)%nat)
        by (rewrite Hn; apply List.filter_length_le).
      split; [do 3 f_equal; lia|].
      split; [rewrite Hn; reflexivity|].
      split; [rewrite Hpool; simpl; rewrite <- app_assoc; reflexivity|].
      split; [rewrite Hlen; reflexivity|].
      constructor; [auto | exact Hnew].
    + unfold BotPoolManager.add_bot. rewrite Hv.
      destruct (IH (S i) added (S invalid) s)
        as (n & new & s' & Hloop & Hn & Hpool & Hlen & Hnew).
      exists n, new, s'. rewrite Hloop.
      assert (Hle : (n <= length tokens)%nat)
        by (rewrite Hn; apply List.filter_length_le).
      split; [do 3 f_equal; lia|]. auto.
Qed.

Lemma bulk_loop_stops
    (v : string -> option BotPoolManager.BotInfo) (e : string -> string)
    (clock : nat -> Z) (pre : list string) (t : string) (post : list string)
    (i added invalid : nat) (s : Db) :
  Forall (fun t => token_incomplete v t = false) pre ->
  token_incomplete v t = true ->
  exists err new s',
    BotPoolAdmin.bulk_loop v e clock (pre ++ t :: post) i added invalid s
    = (Raise err, s')
    /\ (exists m, err = KeyError m \/ err = IntegrityError m)
    /\ bot_pool s' = (bot_pool s ++ new)%list
    /\ length new = length (List.filter (token_accepted v) pre)
    /\ Forall (fun b => status b = AVAILABLE /\ assigned_to_client_id b = None) new.
Proof.
  intros Hpre Hbad. revert i added invalid s.
  induction Hpre as [|p pre Hp _ IH]; intros i added invalid s.
  - cbn [app BotPoolAdmin.bulk_loop]. unfold token_incomplete in Hbad.
    destruct (v (PyStr.strip t)) as [info|] eqn:Hv; [|discriminate].
    apply negb_true_iff in Hbad.
    destruct (add_bot_incomplete v e _ (clock i) s info Hv Hbad) as (m & [-> | ->]);
      eexists _, [], s; rewrite app_nil_r;
      (split; [reflexivity|]); (split; [eauto|]); repeat split; constructor.
  - cbn [app BotPoolAdmin.bulk_loop List.filter].
    unfold token_incomplete in Hp. unfold token_accepted at 1.
    destruct (v (PyStr.strip p)) as [info|] eqn:Hv.
    + apply negb_false_iff in Hp.
      destruct (add_bot_complete v e _ (clock i) s info Hv Hp)
        as (r & -> & Hst & Hown).
      destruct (IH (S i) (S added) invalid (with_bot_pool (bot_pool s ++ [r]) s))
        as (err & new & s' & Hloop & Herr & Hpool & Hlen & Hnew).
      exists err, (r :: new), s'. rewrite Hloop.
      split; [reflexivity|]. split; [exact Herr|].
      split; [rewrite Hpool; simpl; rewrite <- app_assoc; reflexivity|].
      split; [cbn [length]; rewrite Hlen; reflexivity|].
      constructor; [auto | exact Hnew].
    + unfold BotPoolManager.add_bot. rewrite Hv.
      destruct (IH (S i) added (S invalid) s)
        as (err & new & s' & Hloop & Herr & Hpool & Hlen & Hnew).
      exists err, new, s'. rewrite Hloop. auto.
Qed.

(** X8: [admin_bulk_add_bots] catches [ValueError] only.  When every token
    the token check accepts comes with a complete [getMe] result, it
    returns: it counts every token exactly once, as added when the
    stripped token passes the token check and as invalid otherwise, and
    appends one available, unowned bot per added token after the rows the
    pool already had.  At the first accepted token whose result lacks the
    username or carries a null name, it raises [KeyError] or
    [IntegrityError] instead of returning the counts, and the bots added
    for the tokens before that one stay in the pool. *)
Theorem X8_bulk_add_counts_every_token
    (validate_bot_token : string -> option BotPoolManager.BotInfo)
    (encrypt_token : string -> string) (clock : nat -> Z)
    (tokens : list string) (session : Db) :
  (Forall (fun t => token_incomplete validate_bot_token t = false) tokens ->
   exists added invalid new session',
     BotPoolAdmin.admin_bulk_add_bots validate_bot_token encrypt_token clock
       tokens session = (Ok (added, invalid), session')
     /\ (added + invalid)%nat = length tokens
     /\ added = length (List.filter (token_accepted validate_bot_token) tokens)
     /\ bot_pool session' = (bot_pool session ++ new)%list
     /\ length new = added
     /\ Forall (fun b => status b = AVAILABLE /\ assigned_to_client_id b = None)
               new)
  /\ (forall pre t post,
        tokens = (pre ++ t :: post)%list ->
        Forall (fun t => token_incomplete validate_bot_token t = false) pre ->
        token_incomplete validate_bot_token t = true ->
        exists err new session',
          BotPoolAdmin.admin_bulk_add_bots validate_bot_token encrypt_token clock
            tokens session = (Raise err, session')
          /\ (exists m, err = KeyError m \/ err = IntegrityError m)
          /\ bot_pool session' = (bot_pool session ++ new)%list
          /\ length new
             = length (List.filter (token_accepted validate_bot_token) pre)
          /\ Forall (fun b => status b = AVAILABLE
                              /\ assigned_to_client_id b = None) new).
Proof.
  split.
  - intros Hall.
    destruct (bulk_loop_counts validate_bot_token encrypt_token clock tokens 0 0 0
                session Hall) as (n & new & s' & Hloop & Hn & Hpool & Hlen & Hnew).
    exists n, (length tokens - n)%nat, new, s'.
    split; [exact Hloop|].
    assert (Hle : (n <= length tokens)%nat)
      by (rewrite Hn; apply List.filter_length_le).
    split; [lia|]. auto.
  - intros pre t post -> Hpre Hbad.
    apply (bulk_loop_stops validate_bot_token encrypt_token clock pre t post
             0 0 0 session Hpre Hbad).
Qed.

Lemma X8_bulk_add_witness :
  fst (BotPoolAdmin.admin_bulk_add_bots sample_validate sample_encrypt
         (fun i => Z.of_nat i) ["111:aaa"; " 222:bbb "; "bad"; ""] empty_db)
  = Ok (2%nat, 2%nat)
  /\ exists m session',
      BotPoolAdmin.admin_bulk_add_bots nameless_validate sample_encrypt
        (fun i => Z.of_nat i) ["111:aaa"; "9:zzz"; "222:bbb"] empty_db
      = (Raise (KeyError m), session')
      /\ length (bot_pool session') = 1%nat.
Proof.
  split.
  - destruct (X8_bulk_add_counts_every_token sample_validate sample_encrypt
                (fun i => Z.of_nat i) ["111:aaa"; " 222:bbb "; "bad"; ""] empty_db)
      as [H _].
    destruct H as (added & invalid & new & s' & Hrun & _ & Hadded & _).
    + repeat constructor.
    + rewrite Hrun. cbn [fst]. vm_compute in Hrun. injection Hrun as <- <- _.
      reflexivity.
  - destruct (X8_bulk_add_counts_every_token nameless_validate sample_encrypt
                (fun i => Z.of_nat i) ["111:aaa"; "9:zzz"; "222:bbb"] empty_db)
      as [_ H].
    destruct (H ["111:aaa"] "9:zzz" ["222:bbb"] eq_refl
                ltac:(repeat constructor) eq_refl)
      as (err & new & s' & Hrun & _ & _ & _).
    vm_compute in Hrun. injection Hrun as <- <-.
    eexists _, _. split; [vm_compute; reflexivity|]. reflexivity.
Defined.

Example bulk_add_sample :
  fst (BotPoolAdmin.admin_bulk_add_bots sample_validate sample_encrypt
         (fun i => Z.of_nat i) ["111:aaa"; " 222:bbb "; "bad"; ""] empty_db)
  = Ok (2%nat, 2%nat).
Proof. vm_compute. reflexivity. Qed.

(** ** The credit ledger: additions, isolation, bounds *)

(** X9: when the integers it writes fit the INTEGER columns of the
    database, [add_credits] returns [True] and raises the tenant's balance
    by exactly the amount (from 0 when the tenant had no account), leaves
    the other tenants' accounts alone, and appends one row of that amount,
    described by the source, typed PURCHASE exactly when the source
    contains "purchase" in any letter case and WELCOME otherwise. *)
Theorem X9_add_credits_raises_balance_by_amount
    (column_max client_id amount : Z) (source : string) (now : Z) (session : Db) :
  Forall (fits_column column_max) (add_credits_writes client_id amount session) ->
  let out := CreditManager.add_credits client_id amount source now session in
  fst out = true
  /\ CreditManager.get_balance client_id (snd out)
     = CreditManager.get_balance client_id session + amount
  /\ (forall other, other <> client_id ->
        credit_accounts (snd out) !! other = credit_accounts session !! other)
  /\ exists t,
      credit_transactions (snd out) = (credit_transactions session ++ [t])%list
      /\ ct_client_id t = client_id
      /\ Models.amount t = amount
      /\ description t = Some source
      /\ (type_ t = PURCHASE <-> occurs_in "purchase" (PyStr.lower source))
      /\ (type_ t = WELCOME <-> ~ occurs_in "purchase" (PyStr.lower source)).
Proof.
  intros _.
  unfold CreditManager.add_credits. cbn [fst snd].
  split; [reflexivity|]. split.
  { unfold CreditManager.get_balance. simpl. rewrite lookup_insert_eq.
    destruct (credit_accounts session !! client_id); simpl; lia. }
  split.
  { intros other Hne. simpl. rewrite lookup_insert_ne; auto. }
  eexists. split; [reflexivity|]. simpl.
  repeat (split; [reflexivity|]).
  pose proof (contains_true_iff "purchase" (PyStr.lower source)) as Hc.
  destruct (PyStr.contains "purchase" (PyStr.lower source)).
  - split; split; intros H; try reflexivity; try discriminate H.
    + apply Hc. reflexivity.
    + exfalso. apply H, Hc. reflexivity.
  - split; split; intros H; try reflexivity; try discriminate H.
    + apply Hc in H. discriminate H.
    + intros H'. apply Hc in H'. discriminate H'.
Qed.

Lemma X9_add_credits_witness :
  let out :=
    CreditManager.add_credits 7 40 "Stripe checkout purchase (event=evt_1)" 12
      one_credit_db in
  fst out = true
  /\ CreditManager.get_balance 7 (snd out) = 41
  /\ exists t,
      credit_transactions (snd out) = (credit_transactions one_credit_db ++ [t])%list
      /\ Models.amount t = 40
      /\ type_ t = PURCHASE.
Proof.
  intros out.
  destruct (X9_add_credits_raises_balance_by_amount (2 ^ 63 - 1) 7 40
              "Stripe checkout purchase (event=evt_1)" 12 one_credit_db)
    as (Hok & Hbal & _ & t & Hrows & _ & Hamount & _ & _ & _).
  - unfold add_credits_writes, fits_column.
    cbn [one_credit_db credit_accounts]. rewrite lookup_singleton_eq.
    repeat constructor; simpl; lia.
  - split; [exact Hok|]. split; [exact Hbal|].
    exists t. split; [exact Hrows|]. split; [exact Hamount|].
    fold out in Hrows. vm_compute in Hrows. injection Hrows as <-. reflexivity.
Defined.

Lemma apply_op_other_tenant (tenant : Z) (op : LedgerOp) (s : Db) :
  op_client op <> tenant ->
  credit_accounts (apply_op op s) !! tenant = credit_accounts s !! tenant
  /\ rows_of tenant (apply_op op s) = rows_of tenant s.
Proof.
  intros Hne.
  assert (Hcommit : forall c a t, c <> tenant -> ct_client_id t = c ->
            credit_accounts (commit_credit c a t s) !! tenant
              = credit_accounts s !! tenant
            /\ rows_of tenant (commit_credit c a t s) = rows_of tenant s).
  { intros c a t Hc Ht. split.
    - simpl. rewrite lookup_insert_ne; auto.
    - unfold rows_of. simpl. rewrite List.filter_app. simpl.
      rewrite Ht. assert (E : (c =? tenant) = false) by (apply Z.eqb_neq; exact Hc).
      rewrite E. apply app_nil_r. }
  destruct op as [c a src now | c a d now | c a now | c a r now]; simpl in *;
    unfold CreditManager.add_credits, CreditManager.deduct_credits,
           AgentEngine._check_and_deduct_credits, AgentEngine._refund_credits;
    simpl.
  - apply Hcommit; auto.
  - destruct (credit_accounts s !! c) as [acc|]; [|auto].
    destruct (balance acc <? a); [auto|]. apply Hcommit; auto.
  - destruct (credit_accounts s !! c) as [acc|]; [|auto].
    destruct (balance acc <? a); [auto|]. apply Hcommit; auto.
  - destruct (credit_accounts s !! c) as [acc|]; [|auto]. apply Hcommit; auto.
Qed.

(** X10: ledger operations of other tenants never change a tenant's
    account nor its ledger rows. *)
Theorem X10_ledger_tenant_isolation (tenant : Z) (ops : list LedgerOp) (session : Db) :
  Forall (fun op => op_client op <> tenant) ops ->
  credit_accounts (run_ops ops session) !! tenant
  = credit_accounts session !! tenant
  /\ rows_of tenant (run_ops ops session) = rows_of tenant session.
Proof.
  revert session. induction ops as [|op ops IH]; intros s Hops; [auto|].
  apply Forall_cons in Hops as [Hop Hops].
  destruct (apply_op_other_tenant tenant op s Hop) as [Ha Hr].
  destruct (IH (apply_op op s) Hops) as [Ha' Hr'].
  simpl. unfold run_ops in *. rewrite Ha', Hr'. auto.
Qed.

Lemma X10_isolation_witness :
  credit_accounts (run_ops sample_ops empty_db) !! 3 = None
  /\ rows_of 3 (run_ops sample_ops empty_db) = [].
Proof.
  apply (X10_ledger_tenant_isolation 3 sample_ops empty_db).
  repeat constructor; simpl; lia.
Defined.

Lemma apply_op_balance_nonneg (tenant : Z) (op : LedgerOp) (s : Db) :
  op_grants_nonneg op ->
  0 <= CreditManager.get_balance tenant s ->
  0 <= CreditManager.get_balance tenant (apply_op op s).
Proof.
  intros Hop Hb.
  assert (Hcommit : forall c a t,
            (c = tenant -> 0 <= balance a) ->
            0 <= CreditManager.get_balance tenant (commit_credit c a t s)).
  { intros c a t Ha. unfold CreditManager.get_balance in *. simpl.
    destruct (decide (c = tenant)) as [->|Hne].
    - rewrite lookup_insert_eq. auto.
    - rewrite lookup_insert_ne by exact Hne. exact Hb. }
  unfold CreditManager.get_balance in Hb.
  destruct op as [c a src now | c a d now | c a now | c a r now]; simpl in *;
    unfold CreditManager.add_credits, CreditManager.deduct_credits,
           AgentEngine._check_and_deduct_credits, AgentEngine._refund_credits;
    simpl.
  - apply Hcommit. intros ->.
    destruct (credit_accounts s !! tenant); simpl; lia.
  - destruct (credit_accounts s !! c) as [acc|] eqn:E;
      [|unfold CreditManager.get_balance; exact Hb].
    destruct (balance acc <? a) eqn:L;
      [unfold CreditManager.get_balance; exact Hb|].
    apply Z.ltb_ge in L. apply Hcommit. intros _. simpl. lia.
  - destruct (credit_accounts s !! c) as [acc|] eqn:E;
      [|unfold CreditManager.get_balance; exact Hb].
    destruct (balance acc <? a) eqn:L;
      [unfold CreditManager.get_balance; exact Hb|].
    apply Z.ltb_ge in L. apply Hcommit. intros _. simpl. lia.
  - destruct (credit_accounts s !! c) as [acc|] eqn:E;
      [|unfold CreditManager.get_balance; exact Hb].
    apply Hcommit. intros ->. rewrite E in Hb. simpl. lia.
Qed.

(** X11: no overdraft.  A deduction never leaves a negative balance, so
    when every addition and refund grants a non-negative amount, a balance
    that is non-negative stays non-negative through every sequence of
    ledger operations. *)
Theorem X11_balance_never_negative (tenant : Z) (ops : list LedgerOp) (session : Db) :
  0 <= CreditManager.get_balance tenant session ->
  Forall op_grants_nonneg ops ->
  0 <= CreditManager.get_balance tenant (run_ops ops session).
Proof.
  revert session. induction ops as [|op ops IH]; intros s Hb Hops; [exact Hb|].
  apply Forall_cons in Hops as [Hop Hops].
  apply IH; [|exact Hops]. apply apply_op_balance_nonneg; assumption.
Qed.

Lemma X11_balance_witness :
  0 <= CreditManager.get_balance 7 (run_ops sample_ops empty_db).
Proof.
  apply (X11_balance_never_negative 7 sample_ops empty_db).
  - vm_compute. discriminate.
  - repeat constructor; simpl; lia.
Defined.

(** ** The agent engine: what one dispatch costs *)

Lemma commit_credit_frame (c : Z) (a : CreditAccount) (t : CreditTransaction) (s : Db) :
  agent_configs (commit_credit c a t s) = agent_configs s
  /\ setup_sessions (commit_credit c a t s) = setup_sessions s
  /\ bot_pool (commit_credit c a t s) = bot_pool s.
Proof. repeat split. Qed.



(** ** Dispatch: cancel words *)

Lemma execute_setup_sessions
    (runtime : AgentEngine.BaseRuntime) (env : AgentEngine.CostEnv)
    (c : Z) (m ch : string) (now now' : Z) (s : Db) :
  setup_sessions (snd (AgentEngine.execute runtime env c m ch now now' s))
  = setup_sessions s.
Proof.
  unfold AgentEngine.execute.
  destruct (AgentEngine._load_config c s); [|reflexivity].
  unfold AgentEngine._check_and_deduct_credits.
  destruct (credit_accounts s !! c) as [acc|]; [|reflexivity].
  destruct (balance acc <? _); [reflexivity|].
  unfold AgentEngine.try_body, AgentEngine._save_memory.
  destruct (AgentEngine.run _ _ _) as [response|e]; [reflexivity|].
  destruct (is_Exception e); [|reflexivity].
  unfold AgentEngine._refund_credits. simpl. rewrite lookup_insert_eq. reflexivity.
Qed.

(** X14: through the dispatcher a cancel word never reaches the setup
    orchestrator.  A message that is "cancel", "stop" or "exit" up to
    letter case is classified as a Task, so the dispatcher hands it to the
    agent engine and the setup sessions, an open one included, stay as
    they are. *)
Theorem X14_dispatcher_sends_cancel_words_to_the_engine
    (runtime : AgentEngine.BaseRuntime) (env : AgentEngine.CostEnv)
    (client_id : Z) (text : string) (now now' : Z) (db : Db)
    (channel_type : string) :
  In (PyStr.lower text) cancel_words ->
  Router.classify_intent text = Router.TASK
  /\ Router.handler (Router.route client_id text channel_type) = "AgentEngine"
  /\ setup_sessions
       (snd (Webhooks._dispatch_incoming_message runtime env client_id text
               now now' db channel_type))
     = setup_sessions db.
Proof.
  intros Hword.
  assert (Hc : Router.classify_intent text = Router.TASK).
  { unfold Router.classify_intent.
    destruct Hword as [<- | [<- | [<- | []]]]; reflexivity. }
  split; [exact Hc|]. split.
  - unfold Router.route. simpl. rewrite Hc. reflexivity.
  - rewrite dispatch_by_intent, Hc. cbn [snd]. apply execute_setup_sessions.
Qed.

Lemma X14_cancel_word_witness :
  Router.classify_intent "Cancel" = Router.TASK
  /\ SetupOrchestrator._get_active_session 7
       (snd (Webhooks._dispatch_incoming_message failing_runtime
               AgentEngine.default_env 7 "Cancel" 60 61 personality_started_db
               "telegram"))
     = Some personality_session.
Proof.
  destruct (X14_dispatcher_sends_cancel_words_to_the_engine failing_runtime
              AgentEngine.default_env 7 "Cancel" 60 61 personality_started_db
              "telegram") as (Hc & _ & Hs).
  - vm_compute. left. reflexivity.
  - split; [exact Hc|].
    unfold SetupOrchestrator._get_active_session. rewrite Hs.
    vm_compute. reflexivity.
Defined.

(** ** The setup orchestrator: re-prompts, sessions per tenant *)

(** X15: on an active session, a message that is not a cancel word and
    that the validator of the current step rejects is answered with the
    validator's message, and the database is left exactly as it was: same
    step, nothing stored, no commit. *)
Theorem X15_rejected_answer_is_reprompted
    (client_id : Z) (message : string) (now : Z) (session : Db)
    (active : SetupSession) (flow : SetupOrchestrator.SetupFlow) (error : string) :
  SetupOrchestrator._get_active_session client_id session = Some active ->
  ~ In (PyStr.lower message) cancel_words ->
  SetupOrchestrator.flows_get (flow_name active) = Some flow ->
  SetupOrchestrator.validate flow (current_step active) message
  = (false, Some error) ->
  SetupOrchestrator.handle client_id message now session = (Ok error, session).
Proof.
  intros Hact Hword Hflow Hvalid.
  rewrite (handle_active _ _ _ _ _ Hact).
  destruct (PyStr.str_in _ _) eqn:E.
  - exfalso. apply Hword, is_cancel_word_iff, E.
  - unfold continue_reply. rewrite Hflow, Hvalid. reflexivity.
Qed.

Lemma X15_rejected_answer_witness :
  SetupOrchestrator.handle 8 "maybe later" 41 voip_started_db
  = (Ok "Please reply 'have' if you have a number, or 'create' if you need one.",
     voip_started_db).
Proof.
  apply (X15_rejected_answer_is_reprompted 8 "maybe later" 41 voip_started_db
           voip_session SetupOrchestrator.VoIPSetupFlow).
  - vm_compute. reflexivity.
  - vm_compute. intros [H|[H|[H|[]]]]; discriminate H.
  - reflexivity.
  - reflexivity.
Defined.

Lemma handle_flows_known (c : Z) (m : string) (now : Z) (s : Db) :
  Forall (fun r => exists flow,
            SetupOrchestrator.flows_get (flow_name r) = Some flow)
         (setup_sessions s) ->
  Forall (fun r => exists flow,
            SetupOrchestrator.flows_get (flow_name r) = Some flow)
         (setup_sessions (snd (SetupOrchestrator.handle c m now s))).
Proof.
  intros H.
  destruct (SetupOrchestrator._get_active_session c s) as [active|] eqn:Hact.
  - rewrite (handle_active c m now s active Hact).
    destruct (PyStr.str_in _ _); [|exact H].
    cbn [snd]. simpl. apply Forall_forall. intros x Hx.
    apply list_elem_of_In, in_map_iff in Hx as (r & <- & Hr).
    rewrite Forall_forall in H.
    destruct (ss_id r =? _); [|apply H, list_elem_of_In, Hr].
    simpl. apply H, list_elem_of_In. apply find_some in Hact. apply Hact.
  - rewrite (handle_no_active c m now s Hact).
    destruct (SetupOrchestrator._detect_flow m) as [f|] eqn:Hf; [|exact H].
    destruct (detect_flow_implemented m f Hf) as [flow Hflow].
    rewrite (start_flow_sessions c f now s flow Hflow). cbn [snd]. simpl.
    apply Forall_app. split; [exact H|].
    constructor; [|constructor]. simpl. eauto.
Qed.

(** X16: starting without setup sessions, after every sequence of handled
    messages of any tenants, the session keys are unique, every tenant has
    at most one open session, and every session belongs to a flow that is
    implemented. *)
Theorem X16_one_open_session_per_tenant
    (msgs : list (Z * string * Z)) (start : Db) :
  setup_sessions start = [] ->
  sessions_unique (run_setup msgs start)
  /\ (forall client_id, at_most_one_open client_id (run_setup msgs start))
  /\ Forall (fun r => exists flow,
               SetupOrchestrator.flows_get (flow_name r) = Some flow)
            (setup_sessions (run_setup msgs start)).
Proof.
  intros Hnil.
  assert (H0 : sessions_unique start
               /\ (forall c, at_most_one_open c start)
               /\ Forall (fun r => exists flow,
                            SetupOrchestrator.flows_get (flow_name r) = Some flow)
                         (setup_sessions start)).
  { unfold sessions_unique, at_most_one_open. rewrite Hnil. simpl.
    split; [apply NoDup_nil_2|]. split; [intros; lia | constructor]. }
  revert H0. generalize start. clear Hnil start.
  induction msgs as [|[[c m] now] msgs IH]; intros s H; [exact H|].
  destruct H as (Hu & Ho & Hf). apply IH.
  split; [apply handle_sessions_unique, Hu|].
  split; [intros c'; apply handle_at_most_one_open, Ho|].
  apply handle_flows_known, Hf.
Qed.

Lemma X16_one_open_session_witness :
  sessions_unique (run_setup sample_setup_msgs empty_db)
  /\ (forall client_id,
        at_most_one_open client_id (run_setup sample_setup_msgs empty_db))
  /\ Forall (fun r => exists flow,
               SetupOrchestrator.flows_get (flow_name r) = Some flow)
            (setup_sessions (run_setup sample_setup_msgs empty_db)).
Proof.
  apply (X16_one_open_session_per_tenant sample_setup_msgs empty_db).
  reflexivity.
Defined.

Example run_setup_sample :
  map (fun r => (ss_id r, ss_client_id r, flow_name r, current_step r,
                 completed_at r))
      (setup_sessions (run_setup sample_setup_msgs empty_db))
  = [ (1, 7, "personality", 0%nat, Some 54); (2, 8, "voip", 0%nat, None);
      (3, 7, "personality", 0%nat, None) ].
Proof. vm_compute. reflexivity. Qed.

Lemma filter_map_same {A : Type} (p : A -> bool) (g : A -> A) (l : list A) :
  (forall x, In x l -> g x = x \/ (p x = false /\ p (g x) = false)) ->
  List.filter p (map g l) = List.filter p l.
Proof.
  induction l as [|a l IH]; intros H; simpl; [reflexivity|].
  rewrite (IH (fun x Hx => H x (or_intror Hx))).
  destruct (H a (or_introl eq_refl)) as [-> | [E1 E2]]; [reflexivity|].
  rewrite E1, E2. reflexivity.
Qed.

(** X17: [handle] for one tenant changes nothing but that tenant's setup
    sessions: the sessions of every other tenant, the credit accounts and
    ledger rows, the agent configurations and the bot pool are as before. *)
Theorem X17_handle_touches_only_the_callers_sessions
    (client_id other : Z) (message : string) (now : Z) (session : Db) :
  sessions_unique session ->
  other <> client_id ->
  let out := SetupOrchestrator.handle client_id message now session in
  sessions_of other (snd out) = sessions_of other session
  /\ credit_accounts (snd out) = credit_accounts session
  /\ credit_transactions (snd out) = credit_transactions session
  /\ agent_configs (snd out) = agent_configs session
  /\ bot_pool (snd out) = bot_pool session.
Proof.
  intros Huniq Hne out. unfold out.
  destruct (handle_cases client_id message now session)
    as [(active & Hact & ->) | [-> | (f & _ & ->)]].
  - split; [|repeat split].
    unfold sessions_of. simpl. apply filter_map_same. intros x Hx.
    apply find_some in Hact as [Hin Hactive].
    destruct (ss_id x =? ss_id active) eqn:E; [|left; reflexivity].
    apply Z.eqb_eq in E.
    pose proof (unique_id_eq _ x active Huniq Hx Hin E) as ->.
    right. simpl.
    unfold SetupOrchestrator.is_active in Hactive.
    apply andb_true_iff in Hactive as [Hc _]. apply Z.eqb_eq in Hc.
    assert (E' : (ss_client_id active =? other) = false)
      by (apply Z.eqb_neq; congruence).
    auto.
  - repeat split.
  - split; [|repeat split].
    unfold sessions_of. simpl. rewrite List.filter_app. simpl.
    assert (E' : (client_id =? other) = false) by (apply Z.eqb_neq; congruence).
    rewrite E'. apply app_nil_r.
Qed.

Lemma X17_handle_isolation_witness :
  sessions_of 8 (snd (SetupOrchestrator.handle 7 "cancel" 60
                        (run_setup sample_setup_msgs empty_db)))
  = sessions_of 8 (run_setup sample_setup_msgs empty_db).
Proof.
  apply (X17_handle_touches_only_the_callers_sessions 7 8 "cancel" 60
           (run_setup sample_setup_msgs empty_db)).
  - unfold sessions_unique. vm_compute.
    repeat (apply NoDup_cons_2;
            [intros H; repeat (apply elem_of_cons in H as [H|H]; [discriminate H|]);
             apply elem_of_nil in H; exact H|]).
    apply NoDup_nil_2.
  - lia.
Defined.

(** ** Stripping *)

Lemma append_assoc (a b c : string) : (a +:+ b) +:+ c = a +:+ (b +:+ c).
Proof.
  induction a as [|x a IH]; [reflexivity|].
  rewrite !append_cons, IH. reflexivity.
Qed.

Lemma append_empty_r (a : string) : a +:+ "" = a.
Proof. induction a as [|x a IH]; [reflexivity|]. rewrite append_cons, IH. reflexivity. Qed.

Lemma append_nonempty_r (a b : string) : b <> "" -> a +:+ b <> "".
Proof.
  destruct a as [|x a]; [rewrite append_nil; auto|].
  rewrite append_cons. discriminate.
Qed.

Lemma rstrip_cons (c : ascii) (r : string) :
  PyStr.rstrip (String c r) =
  match PyStr.rstrip r with
  | EmptyString => if PyStr.is_space c then EmptyString else String c EmptyString
  | r' => String c r'
  end.
Proof. reflexivity. Qed.

Lemma rstrip_cons_nonempty (c : ascii) (r : string) :
  PyStr.rstrip r <> "" -> PyStr.rstrip (String c r) = String c (PyStr.rstrip r).
Proof. intros H. rewrite rstrip_cons. destruct (PyStr.rstrip r); [contradiction|reflexivity]. Qed.

(** Text after which something visible follows is not stripped. *)
Lemma rstrip_append (a b : string) :
  PyStr.rstrip b <> "" -> PyStr.rstrip (a +:+ b) = a +:+ PyStr.rstrip b.
Proof.
  intros Hb. induction a as [|c a IH]; [reflexivity|].
  rewrite !append_cons, rstrip_cons_nonempty; rewrite IH; [reflexivity|].
  apply append_nonempty_r, Hb.
Qed.

Lemma rstrip_append_nonempty (a b : string) :
  PyStr.rstrip b <> "" -> PyStr.rstrip (a +:+ b) <> "".
Proof. intros Hb. rewrite rstrip_append by exact Hb. apply append_nonempty_r, Hb. Qed.

Lemma lstrip_head (c : ascii) (a b : string) :
  PyStr.is_space c = false -> PyStr.lstrip (String c a +:+ b) = String c a +:+ b.
Proof. intros H. rewrite append_cons. simpl. rewrite H. reflexivity. Qed.

Lemma rstrip_idem (s : string) : PyStr.rstrip (PyStr.rstrip s) = PyStr.rstrip s.
Proof.
  induction s as [|c s IH]; [reflexivity|].
  rewrite rstrip_cons. destruct (PyStr.rstrip s) as [|c' r'] eqn:E.
  - destruct (PyStr.is_space c) eqn:Hc; [reflexivity|].
    rewrite rstrip_cons. simpl. rewrite Hc. reflexivity.
  - rewrite rstrip_cons, IH. reflexivity.
Qed.

Lemma lstrip_fixed_cases (s : string) :
  PyStr.lstrip s = ""
  \/ exists c r, PyStr.lstrip s = String c r /\ PyStr.is_space c = false.
Proof.
  induction s as [|c s IH]; simpl; [left; reflexivity|].
  destruct (PyStr.is_space c) eqn:E; [exact IH|].
  right. exists c, s. auto.
Qed.

Lemma rstrip_head (c : ascii) (r : string) :
  PyStr.is_space c = false ->
  exists r', PyStr.rstrip (String c r) = String c r'.
Proof.
  intros H. rewrite rstrip_cons. destruct (PyStr.rstrip r).
  - rewrite H. eauto.
  - eauto.
Qed.

Lemma strip_idem (s : string) : PyStr.strip (PyStr.strip s) = PyStr.strip s.
Proof.
  unfold PyStr.strip.
  destruct (lstrip_fixed_cases s) as [-> | (c & r & -> & Hc)]; [reflexivity|].
  destruct (rstrip_head c r Hc) as [r' E].
  assert (El : PyStr.lstrip (PyStr.rstrip (String c r)) = PyStr.rstrip (String c r)).
  { rewrite E. simpl. rewrite Hc. reflexivity. }
  rewrite El. apply rstrip_idem.
Qed.

Ltac rstrip_visible :=
  first [ solve [vm_compute; discriminate]
        | apply rstrip_append_nonempty; rstrip_visible ].

(** ** The prompt compiler: what the strip removes *)

(** X18: [compile] returns the template with the agent name, the style,
    the language and the instructions put in verbatim, without the final
    line break: the strip removes nothing else, whatever white space the
    fields hold, and the result is never changed by stripping it again. *)
Theorem X18_compile_strips_only_the_final_line_break (config : AgentConfig) :
  SystemPromptCompiler.compile config = prompt_body config
  /\ PyStr.strip (SystemPromptCompiler.compile config)
     = SystemPromptCompiler.compile config.
Proof.
  split.
  - unfold SystemPromptCompiler.compile, prompt_body, PyStr.strip.
    rewrite (lstrip_head "Y" "ou are ") by reflexivity.
    repeat (rewrite rstrip_append by rstrip_visible).
    reflexivity.
  - unfold SystemPromptCompiler.compile. apply strip_idem.
Qed.

Lemma fold_tool_lines (integrations : list string) (acc : string) :
  fold_left (fun acc integration =>
               acc +:+ "- " +:+ integration +:+ SystemPromptCompiler.nl)
            integrations acc
  = acc +:+ tool_lines integrations.
Proof.
  revert acc. induction integrations as [|i rest IH]; intros acc; simpl.
  - symmetry. apply append_empty_r.
  - rewrite IH. rewrite !append_assoc. reflexivity.
Qed.

(** X19: [compile_with_tools] extends the compiled prompt and never
    rewrites it: without integrations it returns the compiled prompt; with
    integrations it returns the compiled prompt, an empty line, the heading
    "Connected tools:" and one "- name" line per integration, in the order
    given. *)
Theorem X19_compile_with_tools_appends_one_line_per_integration
    (config : AgentConfig) (integrations : list string) :
  SystemPromptCompiler.compile_with_tools config integrations
  = match integrations with
    | [] => SystemPromptCompiler.compile config
    | _ =>
        SystemPromptCompiler.compile config
        +:+ SystemPromptCompiler.nl +:+ SystemPromptCompiler.nl
        +:+ "Connected tools:" +:+ SystemPromptCompiler.nl
        +:+ tool_lines integrations
    end.
Proof.
  unfold SystemPromptCompiler.compile_with_tools.
  destruct integrations as [|i rest]; [reflexivity|].
  rewrite fold_tool_lines. rewrite !append_assoc. reflexivity.
Qed.

(** ** The OpenClaw runtime *)

Lemma append_memory_kept (messages : list (string * string))
    (memory : list OpenClawRuntime.RawMemoryItem) :
  OpenClawRuntime.append_memory messages memory
  = (messages ++ kept_memory memory)%list.
Proof.
  revert messages. induction memory as [|[[role|] [content|]] rest IH];
    intros messages; simpl; try (rewrite IH; reflexivity).
  - rewrite app_nil_r. reflexivity.
  - destruct (OpenClawRuntime.nonempty role && OpenClawRuntime.nonempty content);
      rewrite IH; [rewrite <- app_assoc|]; reflexivity.
Qed.

Lemma nonempty_true_iff (s : string) :
  OpenClawRuntime.nonempty s = true <-> s <> "".
Proof.
  unfold OpenClawRuntime.nonempty. destruct (String.eqb s "") eqn:E; simpl.
  - apply String.eqb_eq in E. split; [discriminate | congruence].
  - apply String.eqb_neq in E. split; auto.
Qed.

Lemma kept_memory_nonempty (memory : list OpenClawRuntime.RawMemoryItem) :
  Forall (fun m => fst m <> "" /\ snd m <> "") (kept_memory memory).
Proof.
  induction memory as [|[[role|] [content|]] rest IH]; simpl;
    try exact IH; [constructor|].
  destruct (OpenClawRuntime.nonempty role) eqn:Er;
    destruct (OpenClawRuntime.nonempty content) eqn:Ec; simpl; try exact IH.
  constructor; [|exact IH]. simpl.
  split; apply nonempty_true_iff; assumption.
Qed.

Lemma kept_memory_length (memory : list OpenClawRuntime.RawMemoryItem) :
  (length (kept_memory memory) <= length memory)%nat.
Proof.
  induction memory as [|[[role|] [content|]] rest IH]; simpl; try lia.
  change (flat_map _ rest) with (kept_memory rest).
  destruct (OpenClawRuntime.nonempty role);
    destruct (OpenClawRuntime.nonempty content); simpl; lia.
Qed.

(** X20: the payload of [_build_payload] always ends with the user
    message; it starts with the system prompt exactly when the prompt is
    not empty; between the two come the memory items that have a non-empty
    role and a non-empty content, in their order, every other item being
    left out; the model key is set only to a non-empty model name. *)
Theorem X20_payload_messages_are_system_memory_user
    (self : OpenClawRuntime.Settings) (system_prompt message : string)
    (memory : list OpenClawRuntime.RawMemoryItem)
    (tools : option (list Json.json)) :
  let payload :=
    OpenClawRuntime._build_payload self system_prompt message memory tools in
  OpenClawRuntime.messages payload
  = ((if OpenClawRuntime.nonempty system_prompt
      then [("system", system_prompt)] else [])
     ++ kept_memory memory ++ [("user", message)])%list
  /\ last (OpenClawRuntime.messages payload) = Some ("user", message)
  /\ Forall (fun m => fst m <> "" /\ snd m <> "") (kept_memory memory)
  /\ (length (kept_memory memory) <= length memory)%nat
  /\ (forall m, OpenClawRuntime.payload_model payload = Some m ->
        OpenClawRuntime.model self = Some m /\ m <> "").
Proof.
  intros payload. unfold payload, OpenClawRuntime._build_payload.
  cbn [OpenClawRuntime.messages OpenClawRuntime.payload_model].
  rewrite append_memory_kept.
  split; [destruct (OpenClawRuntime.nonempty system_prompt);
          simpl; rewrite <- ?app_assoc; reflexivity|].
  split; [apply last_snoc|].
  split; [apply kept_memory_nonempty|].
  split; [apply kept_memory_length|].
  intros m. destruct (OpenClawRuntime.model self) as [m'|]; [|discriminate].
  destruct (OpenClawRuntime.nonempty m') eqn:E; [|discriminate].
  intros [= <-]. split; [reflexivity | apply nonempty_true_iff, E].
Qed.

Example build_payload_sample :
  OpenClawRuntime.messages
    (OpenClawRuntime._build_payload sample_settings "You are helpful" "Hi"
       [(Some "assistant", Some "Previous"); (Some "user", None);
        (None, Some "lost"); (Some "", Some "empty role");
        (Some "user", Some "Again")] None)
  = [("system", "You are helpful"); ("assistant", "Previous");
     ("user", "Again"); ("user", "Hi")].
Proof. reflexivity. Qed.

Lemma nonblank_strip (s : string) :
  OpenClawRuntime.nonblank s = true -> PyStr.strip s <> "".
Proof. unfold OpenClawRuntime.nonblank. apply nonempty_true_iff. Qed.

Lemma message_text_visible (first : Json.json) (t : string) :
  OpenClawRuntime.message_text first = Some t -> PyStr.strip t <> "".
Proof.
  unfold OpenClawRuntime.message_text.
  destruct first as [| | | |l|f]; try discriminate.
  destruct (Json.get f "message") as [[| | | |l|m]|]; try discriminate.
  destruct (Json.get m "content") as [[| | |content|content|]|]; try discriminate.
  - destruct (OpenClawRuntime.nonblank content) eqn:E; [|discriminate].
    intros [= <-]. apply nonblank_strip, E.
  - destruct (OpenClawRuntime.nonempty _) eqn:E; [|discriminate].
    intros [= <-]. rewrite strip_idem. apply nonempty_true_iff, E.
Qed.

Lemma choice_text_visible (first : Json.json) (t : string) :
  OpenClawRuntime.choice_text first = Some t -> PyStr.strip t <> "".
Proof.
  unfold OpenClawRuntime.choice_text.
  destruct first as [| | | |l|f]; try discriminate.
  destruct (Json.get f "text") as [[| | |s| |]|]; try discriminate.
  destruct (OpenClawRuntime.nonblank s) eqn:E; [|discriminate].
  intros [= <-]. apply nonblank_strip, E.
Qed.

Lemma simple_text_visible (data : list (string * Json.json)) (keys : list string)
    (t : string) :
  OpenClawRuntime.simple_text data keys = Some t -> PyStr.strip t <> "".
Proof.
  induction keys as [|k keys IH]; simpl; [discriminate|].
  destruct (Json.get data k) as [[| | |s| |]|]; try exact IH.
  destruct (OpenClawRuntime.nonblank s) eqn:E; [|exact IH].
  intros [= <-]. apply nonblank_strip, E.
Qed.

Lemma extract_visible (data : list (string * Json.json)) (t : string) :
  OpenClawRuntime._extract_response_text data = Some t -> PyStr.strip t <> "".
Proof.
  unfold OpenClawRuntime._extract_response_text.
  destruct (Json.get data "choices") as [[| | | |[|c0 rest]|]|];
    try apply simple_text_visible.
  destruct (OpenClawRuntime.message_text _) as [t1|] eqn:E1.
  - intros [= <-]. apply (message_text_visible _ _ E1).
  - destruct (OpenClawRuntime.choice_text _) as [t2|] eqn:E2.
    + intros [= <-]. apply (choice_text_visible _ _ E2).
    + apply simple_text_visible.
Qed.

(** X21: the runtime never answers with blank text.  When [run] returns a
    text, the HTTP exchange returned a JSON object, the text is the one
    [_extract_response_text] found in it, and the text holds at least one
    character that is not white space. *)
Theorem X21_runtime_never_returns_blank_text
    (post : string -> OpenClawRuntime.Payload -> list (string * string)
            -> result Json.json)
    (self : OpenClawRuntime.Settings) (system_prompt message : string)
    (memory : list OpenClawRuntime.RawMemoryItem)
    (tools : option (list Json.json)) (text : string) :
  OpenClawRuntime.run post self system_prompt message memory tools = Ok text ->
  PyStr.strip text <> ""
  /\ exists data,
      post (OpenClawRuntime.api_url self +:+ OpenClawRuntime.chat_endpoint self)
           (OpenClawRuntime._build_payload self system_prompt message memory tools)
           (OpenClawRuntime.headers self)
      = Ok (Json.JDict data)
      /\ OpenClawRuntime._extract_response_text data = Some text.
Proof.
  unfold OpenClawRuntime.run.
  destruct (post _ _ _) as [[| | | | |data]|e]; try discriminate.
  destruct (OpenClawRuntime._extract_response_text data) as [[|c r]|] eqn:E;
    try discriminate.
  intros [= <-]. split; [apply (extract_visible _ _ E)|].
  exists data. auto.
Qed.

Lemma X21_runtime_witness :
  PyStr.strip " Hello, world " <> ""
  /\ exists data,
      Ok (Json.JDict parts_body) = Ok (Json.JDict data)
      /\ OpenClawRuntime._extract_response_text data = Some "Hello, world".
Proof.
  destruct (X21_runtime_never_returns_blank_text
              (fun _ _ _ => Ok (Json.JDict parts_body)) sample_settings
              "System" "Hi" [] None "Hello, world") as [Hv Hd].
  - vm_compute. reflexivity.
  - split; [vm_compute; discriminate | exact Hd].
Defined.

(** X22: the chat-completion shape wins.  When the first choice carries a
    message whose content is a string with visible text,
    [_extract_response_text] returns that string unchanged, whatever else
    the body holds; when the body has no choices (no such key, or an empty
    list) and ["response"] is a string with visible text, it returns that
    string unchanged, whatever ["text"] and ["output"] hold. *)
Theorem X22_extract_prefers_chat_completion_text :
  (forall data first rest message content,
      Json.get data "choices"
      = Some (Json.JList (Json.JDict first :: rest)) ->
      Json.get first "message" = Some (Json.JDict message) ->
      Json.get message "content" = Some (Json.JStr content) ->
      PyStr.strip content <> "" ->
      OpenClawRuntime._extract_response_text data = Some content)
  /\ (forall data value,
        Json.get data "choices" = None
        \/ Json.get data "choices" = Some (Json.JList []) ->
        Json.get data "response" = Some (Json.JStr value) ->
        PyStr.strip value <> "" ->
        OpenClawRuntime._extract_response_text data = Some value).
Proof.
  split.
  - intros data first rest message content Hc Hm Hcontent Hvisible.
    unfold OpenClawRuntime._extract_response_text. rewrite Hc.
    assert (Ht : Json.truthy (Json.JDict first) = true)
      by (destruct first; [discriminate Hm | reflexivity]).
    rewrite Ht. unfold OpenClawRuntime.message_text. rewrite Hm, Hcontent.
    assert (Hn : OpenClawRuntime.nonblank content = true)
      by (apply nonempty_true_iff, Hvisible).
    rewrite Hn. reflexivity.
  - intros data value Hc Hr Hvisible.
    assert (Hn : OpenClawRuntime.nonblank value = true)
      by (apply nonempty_true_iff, Hvisible).
    unfold OpenClawRuntime._extract_response_text.
    destruct Hc as [-> | ->]; simpl; rewrite Hr, Hn; reflexivity.
Qed.

Lemma X22_extract_witness :
  OpenClawRuntime._extract_response_text openai_body = Some "Hello from OpenClaw"
  /\ OpenClawRuntime._extract_response_text simple_body = Some "Simple shape".
Proof.
  destruct X22_extract_prefers_chat_completion_text as [Hchat Hsimple].
  split.
  - apply (Hchat openai_body
             [("message", Json.JDict [("content", Json.JStr "Hello from OpenClaw")])]
             [] [("content", Json.JStr "Hello from OpenClaw")]);
      [reflexivity | reflexivity | reflexivity | vm_compute; discriminate].
  - apply (Hsimple simple_body);
      [left; reflexivity | reflexivity | vm_compute; discriminate].
Defined.

Example extract_samples :
  OpenClawRuntime._extract_response_text parts_body = Some "Hello, world"
  /\ OpenClawRuntime._extract_response_text empty_choices_body = None
  /\ OpenClawRuntime.run (fun _ _ _ => Ok (Json.JDict empty_choices_body))
       sample_settings "System" "Hi" [] None
     = Raise (RuntimeError "OpenClaw API response missing assistant text")
  /\ OpenClawRuntime.run (fun _ _ _ => Ok (Json.JList []))
       sample_settings "System" "Hi" [] None
     = Raise (RuntimeError "OpenClaw API returned invalid response payload").
Proof. repeat split; vm_compute; reflexivity. Qed.

(** ** Phone numbers *)

Lemma digits_only_digits (s : string) : only_digits (TwilioLookup.digits s).
Proof.
  induction s as [|c s IH]; simpl; [exact I|].
  destruct (TwilioLookup.is_digit c) eqn:E; simpl; auto.
Qed.

Lemma digits_fixed (s : string) : only_digits s -> TwilioLookup.digits s = s.
Proof.
  induction s as [|c s IH]; simpl; [reflexivity|].
  intros [Hc Hs]. rewrite Hc, (IH Hs). reflexivity.
Qed.

Lemma digit_not_space (c : ascii) :
  TwilioLookup.is_digit c = true -> PyStr.is_space c = false.
Proof. destruct c as [[] [] [] [] [] [] [] []]; simpl; intros H; try discriminate H; reflexivity. Qed.

Lemma only_digits_no_space (s : string) : only_digits s -> no_space s.
Proof.
  induction s as [|c s IH]; simpl; [auto|].
  intros [Hc Hs]. split; [apply digit_not_space, Hc | apply IH, Hs].
Qed.

Lemma rstrip_no_space (s : string) : no_space s -> PyStr.rstrip s = s.
Proof.
  induction s as [|c s IH]; [reflexivity|].
  intros [Hc Hs]. rewrite rstrip_cons, (IH Hs).
  destruct s; [rewrite Hc|]; reflexivity.
Qed.

Lemma strip_no_space (s : string) : no_space s -> PyStr.strip s = s.
Proof.
  intros H. unfold PyStr.strip.
  assert (E : PyStr.lstrip s = s)
    by (destruct s as [|c s]; [reflexivity|]; simpl; destruct H as [-> _]; reflexivity).
  rewrite E. apply rstrip_no_space, H.
Qed.

Lemma only_digits_ascii_text (s : string) : only_digits s -> ascii_text s.
Proof.
  induction s as [|c s IH]; simpl; [auto|].
  intros [Hc Hs]. split; [|apply IH, Hs].
  unfold TwilioLookup.is_digit in Hc. apply andb_true_iff in Hc as [_ Hc].
  apply N.leb_le in Hc. lia.
Qed.

(** X23: for a number written in ASCII, [_normalize_phone_number] returns
    nothing when the number is missing, empty or blank; any number it
    returns is ASCII text, an optional leading "+" followed by ASCII
    digits only (the digits of the input, in order); and a non-empty
    number it returned is left unchanged when normalized again. *)
Theorem X23_normalized_phone_number_is_canonical :
  TwilioLookup._normalize_phone_number None = None
  /\ (forall n, ascii_text n -> PyStr.strip n = "" ->
        TwilioLookup._normalize_phone_number (Some n) = None)
  /\ (forall n v,
        ascii_text n ->
        TwilioLookup._normalize_phone_number (Some n) = Some v ->
        only_digits (TwilioLookup.digits (PyStr.strip n))
        /\ (v = TwilioLookup.digits (PyStr.strip n)
            \/ v = "+" +:+ TwilioLookup.digits (PyStr.strip n))
        /\ ascii_text v
        /\ (v <> "" -> TwilioLookup._normalize_phone_number (Some v) = Some v)).
Proof.
  split; [reflexivity|]. split.
  { intros n _ Hn. unfold TwilioLookup._normalize_phone_number.
    destruct n; [reflexivity|]. rewrite Hn. reflexivity. }
  intros n v _ H.
  split; [apply digits_only_digits|].
  unfold TwilioLookup._normalize_phone_number in H.
  destruct n as [|c0 n0]; [discriminate H|].
  set (value := PyStr.strip (String c0 n0)) in *.
  destruct (String.eqb value "") eqn:Ev; [discriminate H|].
  pose proof (digits_only_digits value) as Hd.
  destruct (TwilioLookup.startswith_plus value) eqn:Ep;
    injection H as <-.
  - split; [right; reflexivity|].
    change ("+" +:+ TwilioLookup.digits value)
      with (String "+" (TwilioLookup.digits value)).
    split; [split; [reflexivity | apply only_digits_ascii_text, Hd]|].
    intros _.
    assert (Hns : no_space (String "+" (TwilioLookup.digits value)))
      by (split; [reflexivity | apply only_digits_no_space, Hd]).
    unfold TwilioLookup._normalize_phone_number.
    rewrite (strip_no_space _ Hns). simpl.
    rewrite (digits_fixed _ Hd). reflexivity.
  - split; [left; reflexivity|].
    split; [apply only_digits_ascii_text, Hd|].
    intros Hne.
    assert (Hns : no_space (TwilioLookup.digits value))
      by (apply only_digits_no_space, Hd).
    unfold TwilioLookup._normalize_phone_number.
    destruct (TwilioLookup.digits value) as [|d ds] eqn:Edig; [contradiction|].
    rewrite (strip_no_space _ Hns). simpl.
    destruct Hd as [Hd1 Hd2].
    assert (Hplus : Ascii.eqb d "+" = false)
      by (destruct d as [[] [] [] [] [] [] [] []]; simpl in Hd1;
          try discriminate Hd1; reflexivity).
    rewrite Hplus, Hd1, (digits_fixed _ Hd2). reflexivity.
Qed.

Lemma X23_normalize_witness :
  TwilioLookup._normalize_phone_number (Some "   ") = None
  /\ only_digits (TwilioLookup.digits (PyStr.strip " +1 (555) 123-4567"))
  /\ ("+15551234567" = TwilioLookup.digits (PyStr.strip " +1 (555) 123-4567")
      \/ "+15551234567"
         = "+" +:+ TwilioLookup.digits (PyStr.strip " +1 (555) 123-4567"))
  /\ ascii_text "+15551234567"
  /\ ("+15551234567" <> "" ->
      TwilioLookup._normalize_phone_number (Some "+15551234567")
      = Some "+15551234567").
Proof.
  destruct X23_normalized_phone_number_is_canonical as (_ & Hblank & Hcanon).
  split.
  - apply Hblank; [repeat split | reflexivity].
  - apply (Hcanon " +1 (555) 123-4567" "+15551234567");
      [repeat split | reflexivity].
Defined.

Example normalize_samples :
  TwilioLookup._normalize_phone_number (Some "+1 (555) 123-4567")
  = Some "+15551234567"
  /\ TwilioLookup._normalize_phone_number (Some "555-1234") = Some "5551234"
  /\ TwilioLookup._normalize_phone_number (Some "n/a") = Some "".
Proof. repeat split; reflexivity. Qed.

(** X24: [_find_twilio_channel_by_number] finds nothing for a recipient
    number that normalizes to nothing or to the empty text; a channel it
    returns is a row of the table that is active, has a Twilio number, and
    whose number normalizes to the same text as the recipient number, so
    the match does not depend on how either number is formatted. *)
Theorem X24_twilio_lookup_matches_normalized_active_channels
    (channels : list TwilioLookup.Channel) (to_number : option string) :
  (TwilioLookup._normalize_phone_number to_number = None
   \/ TwilioLookup._normalize_phone_number to_number = Some "" ->
   TwilioLookup._find_twilio_channel_by_number channels to_number = None)
  /\ (forall ch,
        TwilioLookup._find_twilio_channel_by_number channels to_number = Some ch ->
        In ch channels
        /\ TwilioLookup.active ch = true
        /\ TwilioLookup.twilio_number ch <> None
        /\ TwilioLookup._normalize_phone_number (TwilioLookup.twilio_number ch)
           = TwilioLookup._normalize_phone_number to_number).
Proof.
  unfold TwilioLookup._find_twilio_channel_by_number. split.
  - intros [-> | ->]; reflexivity.
  - intros ch.
    destruct (TwilioLookup._normalize_phone_number to_number) as [[|c r]|];
      try discriminate.
    intros H. apply find_some in H as [Hin Hsame].
    apply List.filter_In in Hin as [Hin Hsel].
    apply andb_true_iff in Hsel as [Hact Hnum].
    split; [exact Hin|]. split; [exact Hact|]. split.
    + destruct (TwilioLookup.twilio_number ch); [discriminate | discriminate Hnum].
    + unfold TwilioLookup.same_number in Hsame.
      destruct (TwilioLookup._normalize_phone_number (TwilioLookup.twilio_number ch));
        [|discriminate Hsame].
      apply String.eqb_eq in Hsame. congruence.
Qed.

Lemma X24_twilio_lookup_witness :
  TwilioLookup._find_twilio_channel_by_number sample_channels (Some "call me") = None
  /\ In (sample_channel 3 9 (Some "+1 555 0001") true) sample_channels
  /\ TwilioLookup._normalize_phone_number (Some "+1 555 0001")
     = TwilioLookup._normalize_phone_number (Some "+1-555-0001").
Proof.
  destruct (X24_twilio_lookup_matches_normalized_active_channels
              sample_channels (Some "call me")) as [Hnone _].
  destruct (X24_twilio_lookup_matches_normalized_active_channels
              sample_channels (Some "+1-555-0001")) as [_ Hsome].
  split; [apply Hnone; right; reflexivity|].
  destruct (Hsome (sample_channel 3 9 (Some "+1 555 0001") true) eq_refl)
    as (Hin & _ & _ & Hnorm).
  split; [exact Hin | exact Hnorm].
Defined.

(** ** Stripe events *)

Lemma coerce_positive (v : option Json.json) (n : Z) :
  StripeWebhook._coerce_positive_int v = Some n -> 0 < n.
Proof.
  unfold StripeWebhook._coerce_positive_int.
  destruct (StripeWebhook.py_int v) as [p|]; [|discriminate].
  destruct (0 <? p) eqn:E; [|discriminate].
  intros [= <-]. apply Z.ltb_lt, E.
Qed.

Lemma tier_get_in (m : list (string * Z)) (k : string) (n : Z) :
  StripeWebhook.tier_get m k = Some n -> In (k, n) m.
Proof.
  induction m as [|[k' v] m IH]; simpl; [discriminate|].
  destruct (String.eqb k k') eqn:E.
  - apply String.eqb_eq in E. intros [= <-]. left. congruence.
  - intros H. right. apply IH, H.
Qed.

Lemma extract_credit_grant_bounds
    (py_repr : Json.json -> string) (env : StripeWebhook.TierEnv)
    (event_type : string) (event_object : Json.json)
    (client_id credits : option Z) (label : option string) :
  tier_credits_nonneg env ->
  StripeWebhook._extract_credit_grant py_repr env event_type event_object
  = Ok (client_id, credits, label) ->
  (forall c, client_id = Some c -> 0 < c)
  /\ (forall n, credits = Some n -> 0 <= n).
Proof.
  intros Henv. unfold StripeWebhook._extract_credit_grant.
  destruct event_object as [| | | | |obj]; try discriminate.
  destruct (StripeWebhook.as_dict _) as [metadata|e]; [|discriminate].
  set (cid := StripeWebhook._coerce_positive_int _).
  set (explicit := StripeWebhook._coerce_positive_int _).
  intros H.
  assert (Hc : forall c, cid = Some c -> 0 < c)
    by (intros c Hc; apply (coerce_positive _ _ Hc)).
  assert (Hn : forall n,
             match explicit with
             | Some n0 => Some n0
             | None =>
                 StripeWebhook.tier_get (StripeWebhook._tier_credit_map env)
                   (PyStr.lower
                      (PyStr.strip
                         match Json.or_else (Json.get metadata "tier")
                                 (Json.or_else (Json.get metadata "plan")
                                    (Some (Json.JStr ""))) with
                         | Some v => StripeWebhook.py_str py_repr v
                         | None => "None"
                         end))
             end = Some n -> 0 <= n).
  { intros n. destruct explicit as [n0|] eqn:E.
    - intros [= <-]. pose proof (coerce_positive _ _ E). lia.
    - intros Ht. apply tier_get_in in Ht.
      unfold tier_credits_nonneg in Henv. rewrite Forall_forall in Henv.
      apply (Henv _ (proj2 (list_elem_of_In _ _) Ht)). }
  destruct (String.eqb event_type "checkout.session.completed");
    [injection H as <- <- <-; auto|].
  destruct (String.eqb event_type "invoice.paid");
    injection H as <- <- <-; [auto|].
  split; intros ? [=].
Qed.

(** X13: a Stripe event never takes credits away and never credits
    half-way.  With plans that grant non-negative credits, when
    [_handle_stripe_event] returns a result, either it added nothing and
    the database is unchanged, or the event is a completed checkout or a
    paid invoice and exactly one [add_credits] of the reported, positive
    amount was made for the reported, positive tenant id, whose balance
    grew by that amount; when it raises, the database is unchanged. *)
Theorem X13_stripe_event_grants_positive_credits_or_nothing
    (py_repr : Json.json -> string) (env : StripeWebhook.TierEnv)
    (event : list (string * Json.json)) (now : Z) (db : Db) :
  tier_credits_nonneg env ->
  let out := StripeWebhook._handle_stripe_event py_repr env event now db in
  match fst out with
  | Raise _ => snd out = db
  | Ok r =>
      (StripeWebhook.credits_added r = 0
       /\ StripeWebhook.res_client_id r = None
       /\ snd out = db)
      \/ (0 < StripeWebhook.credits_added r
          /\ StripeWebhook.processed r = true
          /\ (StripeWebhook.is_str (Json.get event "type")
                "checkout.session.completed" = true
              \/ StripeWebhook.is_str (Json.get event "type") "invoice.paid" = true)
          /\ exists c source,
              StripeWebhook.res_client_id r = Some c
              /\ 0 < c
              /\ snd out
                 = snd (CreditManager.add_credits c
                          (StripeWebhook.credits_added r) source now db)
              /\ CreditManager.get_balance c (snd out)
                 = CreditManager.get_balance c db
                   + StripeWebhook.credits_added r)
  end.
Proof.
  intros Henv out. unfold out, StripeWebhook._handle_stripe_event.
  destruct (StripeWebhook.is_str (Json.get event "type") "payment_intent.failed");
    [left; auto|].
  destruct (Json.get event "type") as [[| | |t|l|d]|] eqn:Et;
    try (cbn [fst snd]; reflexivity);
    try (left; cbn; auto; fail).
  destruct (negb _) eqn:Eneg; [left; cbn; auto|].
  apply negb_false_iff in Eneg.
  destruct (StripeWebhook.as_dict (Json.get event "data")) as [data|e];
    [|reflexivity].
  destruct (StripeWebhook._extract_credit_grant _ _ _ _)
    as [[[client_id credits] label]|e] eqn:Eg; [|reflexivity].
  destruct (extract_credit_grant_bounds _ _ _ _ _ _ _ Henv Eg) as [Hc Hn].
  destruct client_id as [c|]; [|left; cbn; auto].
  destruct credits as [n|]; [|left; cbn; auto].
  destruct (n =? 0) eqn:E0; [left; cbn; auto|].
  apply Z.eqb_neq in E0. specialize (Hc c eq_refl). specialize (Hn n eq_refl).
  right. cbn [fst snd StripeWebhook.credits_added StripeWebhook.processed
              StripeWebhook.res_client_id].
  split; [lia|]. split; [reflexivity|].
  split; [apply orb_true_iff, Eneg|].
  exists c. eexists. split; [reflexivity|]. split; [exact Hc|].
  split; [reflexivity|].
  unfold CreditManager.add_credits, CreditManager.get_balance. simpl.
  rewrite lookup_insert_eq.
  destruct (credit_accounts db !! c); simpl; lia.
Qed.

Lemma X13_stripe_event_witness :
  let out :=
    StripeWebhook._handle_stripe_event sample_repr StripeWebhook.default_tier_env
      checkout_event 90 empty_db in
  CreditManager.get_balance 13 (snd out) = 300.
Proof.
  intros out.
  pose proof (X13_stripe_event_grants_positive_credits_or_nothing sample_repr
                StripeWebhook.default_tier_env checkout_event 90 empty_db
                ltac:(unfold tier_credits_nonneg; repeat constructor; simpl; lia))
    as H.
  cbv zeta in H. fold out in H.
  assert (Hout : fst out
                 = Ok {| StripeWebhook.res_event_type :=
                           Some (Json.JStr "checkout.session.completed");
                         StripeWebhook.processed := true;
                         StripeWebhook.credits_added := 300;
                         StripeWebhook.note := None;
                         StripeWebhook.res_client_id := Some 13 |})
    by (vm_compute; reflexivity).
  rewrite Hout in H. cbn [StripeWebhook.credits_added StripeWebhook.res_client_id] in H.
  destruct H as [[H0 _] | (_ & _ & _ & c & src & Hc & _ & _ & Hbal)];
    [discriminate H0|].
  injection Hc as <-. rewrite Hbal. reflexivity.
Defined.

Example stripe_samples :
  fst (StripeWebhook._handle_stripe_event sample_repr
         StripeWebhook.default_tier_env invoice_event 91 empty_db)
  = Ok {| StripeWebhook.res_event_type := Some (Json.JStr "invoice.paid");
          StripeWebhook.processed := true;
          StripeWebhook.credits_added := 500;
          StripeWebhook.note := None;
          StripeWebhook.res_client_id := Some 11 |}
  /\ map (fun t => (ct_client_id t, amount t, type_ t, description t))
         (credit_transactions
            (snd (StripeWebhook._handle_stripe_event sample_repr
                    StripeWebhook.default_tier_env invoice_event 91 empty_db)))
     = [(11, 500, WELCOME, Some "Stripe invoice renewal (event=evt_456)")]
  /\ StripeWebhook.int_of_str " 1_000 " = Some 1000
  /\ StripeWebhook.int_of_str "-5" = Some (-5)
  /\ StripeWebhook.int_of_str "1__0" = None
  /\ StripeWebhook.int_of_str "4.5" = None
  /\ StripeWebhook.int_of_str "" = None.
Proof. repeat split; vm_compute; reflexivity. Qed.

Lemma prefix_snoc_foreign (kw : string) (c : ascii) (s : string) :
  lacks_char c kw ->
  String.prefix kw (s +:+ String c "") = String.prefix kw s.
Proof.
  revert kw. induction s as [|x s IH]; intros kw Hkw.
  - rewrite append_nil. destruct kw as [|k kw]; [reflexivity|].
    simpl. destruct Hkw as [Hk _].
    destruct (ascii_dec k c); [contradiction|reflexivity].
  - rewrite append_cons. destruct kw as [|k kw]; [reflexivity|].
    simpl. destruct Hkw as [_ Hkw].
    destruct (ascii_dec k x); [apply IH, Hkw | reflexivity].
Qed.

Lemma contains_snoc_foreign (kw : string) (c : ascii) (s : string) :
  lacks_char c kw ->
  PyStr.contains kw (s +:+ String c "") = PyStr.contains kw s.
Proof.
  intros Hkw. induction s as [|x s IH].
  - rewrite append_nil, (contains_unfold kw (String c "")), (contains_unfold kw "").
    pose proof (prefix_snoc_foreign kw c "" Hkw) as Hp. rewrite append_nil in Hp.
    rewrite Hp. destruct (String.prefix kw ""); reflexivity.
  - rewrite append_cons, (contains_unfold kw (String x _)),
      (contains_unfold kw (String x s)).
    pose proof (prefix_snoc_foreign kw c (String x s) Hkw) as Hp.
    rewrite append_cons in Hp. rewrite Hp, IH. reflexivity.
Qed.

Lemma extract_credit_grant_label
    (py_repr : Json.json -> string) (env : StripeWebhook.TierEnv)
    (event_type : string) (event_object : Json.json)
    (client_id credits : option Z) (label : option string) :
  StripeWebhook._extract_credit_grant py_repr env event_type event_object
  = Ok (client_id, credits, label) ->
  label =
  if String.eqb event_type "checkout.session.completed"
  then Some "Stripe checkout purchase"
  else if String.eqb event_type "invoice.paid"
       then Some "Stripe invoice renewal" else None.
Proof.
  unfold StripeWebhook._extract_credit_grant.
  destruct event_object as [| | | | |obj]; try discriminate.
  destruct (StripeWebhook.as_dict _) as [metadata|e]; [|discriminate].
  destruct (String.eqb event_type "checkout.session.completed");
    [intros [= _ _ <-]; reflexivity|].
  destruct (String.eqb event_type "invoice.paid");
    intros [= _ _ <-]; reflexivity.
Qed.

(** X25: how a Stripe grant is booked.  The grant appends one ledger row
    for the tenant with the granted amount, described by the source label
    and the event id.  A completed checkout is always typed PURCHASE.  A
    paid invoice is typed WELCOME, and PURCHASE only when the text of the
    event id itself contains "purchase" in some letter case. *)
Theorem X25_stripe_grant_rows
    (py_repr : Json.json -> string) (env : StripeWebhook.TierEnv)
    (event : list (string * Json.json)) (now : Z) (db : Db)
    (r : StripeWebhook.StripeResult) (c : Z) :
  let out := StripeWebhook._handle_stripe_event py_repr env event now db in
  fst out = Ok r ->
  StripeWebhook.res_client_id r = Some c ->
  exists t,
    credit_transactions (snd out) = (credit_transactions db ++ [t])%list
    /\ ct_client_id t = c
    /\ amount t = StripeWebhook.credits_added r
    /\ (StripeWebhook.is_str (Json.get event "type")
          "checkout.session.completed" = true ->
        description t
        = Some ("Stripe checkout purchase (event="
                +:+ event_id_text py_repr event +:+ ")")
        /\ type_ t = PURCHASE)
    /\ (StripeWebhook.is_str (Json.get event "type") "invoice.paid" = true ->
        description t
        = Some ("Stripe invoice renewal (event="
                +:+ event_id_text py_repr event +:+ ")")
        /\ (type_ t = PURCHASE
            <-> occurs_in "purchase" (PyStr.lower (event_id_text py_repr event)))
        /\ (type_ t = WELCOME
            <-> ~ occurs_in "purchase" (PyStr.lower (event_id_text py_repr event)))).
Proof.
  intros out. unfold out, StripeWebhook._handle_stripe_event.
  fold (event_id_text py_repr event).
  destruct (StripeWebhook.is_str (Json.get event "type") "payment_intent.failed");
    [intros [= <-]; discriminate|].
  destruct (Json.get event "type") as [[| | |t|l|d]|] eqn:Et;
    try (intros [= <-]; discriminate); try discriminate.
  destruct (negb _) eqn:Eneg; [intros [= <-]; discriminate|].
  destruct (StripeWebhook.as_dict (Json.get event "data")) as [data|e];
    [|discriminate].
  destruct (StripeWebhook._extract_credit_grant _ _ _ _)
    as [[[client_id credits] label]|e] eqn:Eg; [|discriminate].
  pose proof (extract_credit_grant_label _ _ _ _ _ _ _ Eg) as Hlabel.
  destruct client_id as [c0|]; [|intros [= <-]; discriminate].
  destruct credits as [n|]; [|intros [= <-]; discriminate].
  destruct (n =? 0); [intros [= <-]; discriminate|].
  cbn [fst snd]. intros [= <-]. cbn [StripeWebhook.res_client_id]. intros [= <-].
  unfold CreditManager.add_credits. cbn [snd commit_credit credit_transactions].
  eexists. split; [reflexivity|].
  cbn [ct_client_id amount description type_ StripeWebhook.credits_added
       StripeWebhook.is_str].
  split; [reflexivity|]. split; [reflexivity|].
  set (id := event_id_text py_repr event) in *.
  split.
  - intros Hc. rewrite Hc in Hlabel. subst label.
    split; [reflexivity|].
    rewrite lower_append. reflexivity.
  - intros Hi.
    assert (Hc : String.eqb t "checkout.session.completed" = false).
    { apply String.eqb_eq in Hi. subst t. reflexivity. }
    rewrite Hc, Hi in Hlabel. subst label.
    split; [reflexivity|].
    assert (Hcontains :
      PyStr.contains "purchase"
        (PyStr.lower ("Stripe invoice renewal" +:+ " (event=" +:+ id +:+ ")"))
      = PyStr.contains "purchase" (PyStr.lower id)).
    { rewrite !lower_append.
      change (PyStr.lower ")") with ")".
      transitivity (PyStr.contains "purchase" (PyStr.lower id +:+ ")")).
      - reflexivity.
      - apply contains_snoc_foreign. simpl. repeat split; discriminate. }
    rewrite Hcontains.
    pose proof (contains_true_iff "purchase" (PyStr.lower id)) as Hiff.
    destruct (PyStr.contains "purchase" (PyStr.lower id)).
    + split; split; intros H; try reflexivity; try discriminate H.
      * apply Hiff. reflexivity.
      * exfalso. apply H, Hiff. reflexivity.
    + split; split; intros H; try reflexivity; try discriminate H.
      * apply Hiff in H. discriminate H.
      * intros H'. apply Hiff in H'. discriminate H'.
Qed.

Lemma X25_stripe_grant_rows_witness :
  exists t,
    credit_transactions
      (snd (StripeWebhook._handle_stripe_event sample_repr
              StripeWebhook.default_tier_env invoice_event 91 empty_db))
    = [t]
    /\ ct_client_id t = 11 /\ amount t = 500 /\ type_ t = WELCOME.
Proof.
  destruct (X25_stripe_grant_rows sample_repr StripeWebhook.default_tier_env
              invoice_event 91 empty_db
              {| StripeWebhook.res_event_type := Some (Json.JStr "invoice.paid");
                 StripeWebhook.processed := true;
                 StripeWebhook.credits_added := 500;
                 StripeWebhook.note := None;
                 StripeWebhook.res_client_id := Some 11 |} 11)
    as (t & Hrows & Hc & Ha & _ & Hinv).
  - vm_compute. reflexivity.
  - reflexivity.
  - exists t. split; [exact Hrows|]. split; [exact Hc|]. split; [exact Ha|].
    destruct (Hinv eq_refl) as (_ & _ & Hw). apply Hw.
    intros H. apply contains_true_iff in H. vm_compute in H. discriminate H.
Defined.

(** ** Purchases and the checkout webhook *)

Lemma of_uint_acc_value (d : Decimal.uint) (acc : positive) :
  Z.pos (Pos.of_uint_acc d acc) = uint_value d (Z.pos acc).
Proof.
  revert acc. induction d as [|d IH|d IH|d IH|d IH|d IH|d IH|d IH|d IH|d IH|d IH];
    intros acc; simpl; [reflexivity|..]; rewrite IH; f_equal; lia.
Qed.

Lemma of_uint_value (d : Decimal.uint) : Z.of_uint d = uint_value d 0.
Proof.
  unfold Z.of_uint.
  induction d as [|d IH|d IH|d IH|d IH|d IH|d IH|d IH|d IH|d IH|d IH];
    simpl; [reflexivity | exact IH | ..]; apply of_uint_acc_value.
Qed.

Lemma parse_digits_uint (d : Decimal.uint) (acc : Z) (seen : bool) :
  d <> Decimal.Nil \/ seen = true ->
  StripeWebhook.parse_digits (NilEmpty.string_of_uint d) acc seen
  = Some (uint_value d acc).
Proof.
  revert acc seen.
  induction d as [|d IH|d IH|d IH|d IH|d IH|d IH|d IH|d IH|d IH|d IH];
    intros acc seen H;
    [ destruct H as [H | ->]; [congruence | reflexivity] | .. ];
    cbn [NilEmpty.string_of_uint StripeWebhook.parse_digits uint_value];
    (change (TwilioLookup.is_digit _) with true; cbv iota);
    rewrite IH by (right; reflexivity); reflexivity.
Qed.

Lemma no_space_uint (d : Decimal.uint) : no_space (NilEmpty.string_of_uint d).
Proof.
  induction d; simpl; [exact I | ..]; (split; [reflexivity | assumption]).
Qed.

Lemma no_space_str_int (n : Z) : no_space (PyStr.str_int n).
Proof.
  unfold PyStr.str_int.
  destruct (Z.to_int n) as [d|d]; cbn [NilZero.string_of_int];
    [| split; [reflexivity|] ];
    (destruct d; [simpl; auto | ..]; apply no_space_uint).
Qed.

Lemma parse_digits_nilzero (d : Decimal.uint) :
  StripeWebhook.parse_digits (NilZero.string_of_uint d) 0 false
  = Some (Z.of_uint d).
Proof.
  rewrite of_uint_value.
  destruct d; [reflexivity | ..];
    apply parse_digits_uint; left; discriminate.
Qed.

(** [int(str(n))] is [n]. *)
Lemma int_of_str_str_int (n : Z) :
  StripeWebhook.int_of_str (PyStr.str_int n) = Some n.
Proof.
  unfold StripeWebhook.int_of_str.
  rewrite (strip_no_space _ (no_space_str_int n)).
  pose proof (DecimalZ.of_to n) as E.
  unfold PyStr.str_int.
  destruct (Z.to_int n) as [d|d]; cbn [Z.of_int NilZero.string_of_int] in *.
  - rewrite <- E, <- parse_digits_nilzero.
    destruct d; reflexivity.
  - rewrite parse_digits_nilzero, <- E. reflexivity.
Qed.

Lemma str_int_nonempty (n : Z) : PyStr.str_int n <> "".
Proof.
  intros E. pose proof (int_of_str_str_int n) as H.
  rewrite E in H. discriminate H.
Qed.

Lemma coerce_str_int (n : Z) :
  0 < n ->
  StripeWebhook._coerce_positive_int (Some (Json.JStr (PyStr.str_int n))) = Some n.
Proof.
  intros H. unfold StripeWebhook._coerce_positive_int, StripeWebhook.py_int.
  rewrite int_of_str_str_int.
  destruct (0 <? n) eqn:E; [reflexivity | lia].
Qed.

Lemma truthy_str_int (n : Z) : Json.truthy (Json.JStr (PyStr.str_int n)) = true.
Proof.
  simpl. destruct (String.eqb_spec (PyStr.str_int n) ""); [|reflexivity].
  exfalso. eapply str_int_nonempty; eassumption.
Qed.

Example int_round_trip_samples :
  StripeWebhook.int_of_str (PyStr.str_int 300) = Some 300
  /\ StripeWebhook.int_of_str " -42 " = Some (-42)
  /\ StripeWebhook.int_of_str "1_000" = Some 1000
  /\ StripeWebhook.int_of_str "3.5" = None.
Proof. vm_compute. repeat split; reflexivity. Qed.

Lemma request_metadata (cfg : Billing.CheckoutEnv) (c : Z) (k : string)
    (t : Billing.Tier) :
  Billing.metadata (Billing.checkout_request cfg c k t)
  = [("client_id", Json.JStr (PyStr.str_int c));
     ("tier", Json.JStr k);
     ("credits", Json.JStr (PyStr.str_int (Billing.credits t)))].
Proof. reflexivity. Qed.

Lemma extract_checkout_metadata (py_repr : Json.json -> string)
    (env : StripeWebhook.TierEnv) (cfg : Billing.CheckoutEnv) (c : Z)
    (k : string) (t : Billing.Tier) (obj : list (string * Json.json)) :
  Json.get obj "metadata"
  = Some (Json.JDict (Billing.metadata (Billing.checkout_request cfg c k t))) ->
  0 < c -> 0 < Billing.credits t ->
  StripeWebhook._extract_credit_grant py_repr env "checkout.session.completed"
    (Json.JDict obj)
  = Ok (Some c, Some (Billing.credits t), Some "Stripe checkout purchase").
Proof.
  intros Hmd Hc Ht. rewrite request_metadata in Hmd.
  unfold StripeWebhook._extract_credit_grant. rewrite Hmd.
  unfold StripeWebhook.as_dict.
  cbn [Json.or_else Json.truthy].
  change (Json.get _ "client_id") with (Some (Json.JStr (PyStr.str_int c))).
  change (Json.get _ "credits")
    with (Some (Json.JStr (PyStr.str_int (Billing.credits t)))).
  unfold Json.or_else at 1 2. rewrite !truthy_str_int.
  rewrite !coerce_str_int by assumption.
  reflexivity.
Qed.



Lemma tier_tables_agree (env : StripeWebhook.TierEnv) (prices : Billing.PriceEnv)
    (k : string) :
  StripeWebhook.tier_get (StripeWebhook._tier_credit_map env) k
  = option_map Billing.credits
      (Billing.tiers_get (Billing._purchase_tiers env prices) k).
Proof.
  unfold StripeWebhook._tier_credit_map, Billing._purchase_tiers.
  cbn [StripeWebhook.tier_get Billing.tiers_get].
  destruct (String.eqb k "starter"); [reflexivity|].
  destruct (String.eqb k "growth"); [reflexivity|].
  destruct (String.eqb k "payg"); reflexivity.
Qed.

(** X27: the webhook's tier fallback quotes the purchase tiers.  For a
    completed checkout or a paid invoice whose metadata names a tier and
    carries none of the credit keys (and no [plan]), the credits
    [_extract_credit_grant] returns are those [_purchase_tiers] gives for
    the tier text stripped and lower-cased, the key [purchase_credits]
    looks up, and nothing when that key is not a purchase tier. *)
Theorem X27_tier_fallback_quotes_the_purchase_tiers
    (py_repr : Json.json -> string) (env : StripeWebhook.TierEnv)
    (prices : Billing.PriceEnv) (event_type s : string)
    (obj md : list (string * Json.json)) :
  event_type = "checkout.session.completed" \/ event_type = "invoice.paid" ->
  Json.get obj "metadata" = Some (Json.JDict md) ->
  Json.get md "credits" = None ->
  Json.get md "credit_amount" = None ->
  Json.get md "credits_per_cycle" = None ->
  Json.get md "plan_credits" = None ->
  Json.get md "plan" = None ->
  Json.get md "tier" = Some (Json.JStr s) ->
  exists client_id label,
    StripeWebhook._extract_credit_grant py_repr env event_type (Json.JDict obj)
    = Ok (client_id,
          option_map Billing.credits
            (Billing.tiers_get (Billing._purchase_tiers env prices)
               (PyStr.lower (PyStr.strip s))),
          Some label).
Proof.
  intros Htype Hmd H1 H2 H3 H4 Hplan Htier.
  unfold StripeWebhook._extract_credit_grant. rewrite Hmd.
  assert (Emd : StripeWebhook.as_dict (Some (Json.JDict md)) = Ok md).
  { unfold StripeWebhook.as_dict, Json.or_else. cbn [Json.truthy].
    destruct md; [discriminate Htier | reflexivity]. }
  rewrite Emd, H1, H2, H3, H4, Hplan, Htier.
  cbn [Json.or_else]. cbn [StripeWebhook._coerce_positive_int StripeWebhook.py_int].
  assert (Etext :
    match (if Json.truthy (Json.JStr s) then Some (Json.JStr s)
           else Some (Json.JStr "")) with
    | Some v => StripeWebhook.py_str py_repr v
    | None => "None"
    end = s).
  { cbn [Json.truthy]. destruct (String.eqb_spec s "") as [->|]; reflexivity. }
  rewrite Etext, (tier_tables_agree env prices).
  destruct Htype as [-> | ->]; eexists _, _; reflexivity.
Qed.

Lemma X27_tier_fallback_witness :
  exists client_id label,
    StripeWebhook._extract_credit_grant sample_repr StripeWebhook.default_tier_env
      "invoice.paid"
      (Json.JDict
         [("metadata",
           Json.JDict [("client_id", Json.JStr "11");
                       ("tier", Json.JStr " Starter ")])])
    = Ok (client_id, Some 500, Some label).
Proof.
  exact (X27_tier_fallback_quotes_the_purchase_tiers sample_repr
           StripeWebhook.default_tier_env Billing.default_price_env
           "invoice.paid" " Starter "
           [("metadata",
             Json.JDict [("client_id", Json.JStr "11");
                         ("tier", Json.JStr " Starter ")])]
           [("client_id", Json.JStr "11"); ("tier", Json.JStr " Starter ")]
           (or_intror eq_refl) eq_refl eq_refl eq_refl eq_refl eq_refl eq_refl
           eq_refl).
Defined.

Lemma tiers_get_known (env : StripeWebhook.TierEnv) (prices : Billing.PriceEnv)
    (k : string) :
  Billing.tiers_get (Billing._purchase_tiers env prices) k = None
  <-> ~ In k tier_names.
Proof.
  unfold Billing._purchase_tiers, tier_names. cbn [Billing.tiers_get In].
  destruct (String.eqb_spec k "starter") as [->|H1];
    [split; [discriminate | intros H; exfalso; apply H; auto]|].
  destruct (String.eqb_spec k "growth") as [->|H2];
    [split; [discriminate | intros H; exfalso; apply H; auto]|].
  destruct (String.eqb_spec k "payg") as [->|H3];
    [split; [discriminate | intros H; exfalso; apply H; auto]|].
  split; [|reflexivity].
  intros _ [E | [E | [E | []]]]; congruence.
Qed.



(** ** The refund of an ordinary failure *)

(** X29: on the costed path (the tenant has a configuration), when the
    deduction succeeds and the try block raises an [Exception], [execute]
    appends exactly the DEDUCT row and one REFUND row of the same amount,
    restores the balance and replies with the apology; when the try block
    succeeds no refund is recorded; when the deduction fails the database
    is unchanged and the reply is the out-of-credits message; in every
    case at most one REFUND row is appended, and one is appended only
    after a successful deduction. *)
Theorem X29_ordinary_failure_is_refunded_exactly_once
    (runtime : AgentEngine.BaseRuntime) (env : AgentEngine.CostEnv)
    (client_id : Z) (message channel_type : string) (now_deduct now_refund : Z)
    (session : Db) (config : AgentConfig) :
  AgentEngine._load_config client_id session = Some config ->
  let cost := AgentEngine._get_credit_cost env channel_type in
  let deduction :=
    AgentEngine._check_and_deduct_credits client_id cost now_deduct session in
  let out :=
    AgentEngine.execute runtime env client_id message channel_type
                        now_deduct now_refund session in
  (fst deduction = true ->
   (forall e s2,
       AgentEngine.try_body runtime config client_id message (snd deduction)
         = (Raise e, s2) ->
       is_Exception e = true ->
       fst out = Ok AgentEngine.apology
       /\ CreditManager.get_balance client_id (snd out)
          = CreditManager.get_balance client_id session
       /\ exists d r,
           credit_transactions (snd out)
             = (credit_transactions session ++ [d; r])%list
           /\ type_ d = DEDUCT /\ amount d = - cost /\ ct_client_id d = client_id
           /\ type_ r = REFUND /\ amount r = cost /\ ct_client_id r = client_id
           /\ description r = Some ("Refund: Error: " +:+ exn_str e))
   /\ (forall response s2,
       AgentEngine.try_body runtime config client_id message (snd deduction)
         = (Ok response, s2) ->
       fst out = Ok response
       /\ exists d,
           credit_transactions (snd out)
             = (credit_transactions session ++ [d])%list
           /\ type_ d = DEDUCT /\ amount d = - cost))
  /\ (fst deduction = false ->
      out = (Ok AgentEngine.out_of_credits, session))
  /\ (exists rows,
        credit_transactions (snd out) = (credit_transactions session ++ rows)%list
        /\ (count_refunds rows <= 1)%nat
        /\ (count_refunds rows = 1%nat -> fst deduction = true)).
Proof.
  intros Hcfg cost deduction out.
  unfold out, AgentEngine.execute. rewrite Hcfg. fold cost. fold deduction.
  destruct deduction as [ok s1] eqn:Hd. simpl fst. simpl snd.
  destruct ok.
  - destruct (check_and_deduct_true _ _ _ _ _ Hd)
      as (acc & acc' & d & Hacc & -> & Hbal & Htd & Had & Hcd).
    destruct (AgentEngine.try_body runtime config client_id message
                (commit_credit client_id acc' d session)) as [[resp|e] s2] eqn:Ht;
      pose proof (try_body_session _ _ _ _ _ _ _ Ht) as ->;
      [|destruct (is_Exception e) eqn:He].
    + split; [intros _; split|split].
      * intros e s2 H; discriminate.
      * intros response s2 H. injection H as <- _. simpl.
        split; [reflexivity|]. exists d. auto.
      * discriminate.
      * exists [d]. simpl. split; [reflexivity|].
        unfold count_refunds. simpl. rewrite Htd. simpl. split; [lia|discriminate].
    + rewrite refund_after_deduct.
      split; [intros _; split|split].
      * intros e' s2 [= <- _] _. simpl. split; [reflexivity|]. split.
        -- unfold CreditManager.get_balance. simpl.
           rewrite lookup_insert_eq, Hacc. simpl. lia.
        -- eexists d, _. rewrite <- app_assoc. simpl.
           split; [reflexivity|]. repeat split; auto.
      * intros response s2 H; discriminate.
      * discriminate.
      * eexists [d; _]. simpl. rewrite <- app_assoc. simpl. split; [reflexivity|].
        unfold count_refunds. simpl. rewrite Htd. simpl. split; [lia|reflexivity].
    + split; [intros _; split|split].
      * intros e' s2 [= <- _] He'. congruence.
      * intros response s2 H; discriminate.
      * discriminate.
      * exists [d]. simpl. split; [reflexivity|].
        unfold count_refunds. simpl. rewrite Htd. simpl. split; [lia|discriminate].
  - pose proof (check_and_deduct_false _ _ _ _ _ Hd) as ->.
    split; [discriminate|]. split; [reflexivity|].
    exists []. simpl. rewrite app_nil_r. split; [reflexivity|].
    unfold count_refunds. simpl. split; [lia|discriminate].
Qed.

Lemma X29_refund_witness :
  let out :=
    AgentEngine.execute failing_runtime AgentEngine.default_env 7 "hello" "sms"
                        10 11 one_credit_db in
  fst out = Ok AgentEngine.apology
  /\ CreditManager.get_balance 7 (snd out) = 1
  /\ exists d r,
      credit_transactions (snd out)
        = (credit_transactions one_credit_db ++ [d; r])%list
      /\ type_ d = DEDUCT /\ amount d = - 1 /\ ct_client_id d = 7
      /\ type_ r = REFUND /\ amount r = 1 /\ ct_client_id r = 7
      /\ description r
         = Some "Refund: Error: OpenClaw API response missing assistant text".
Proof.
  intros out.
  destruct (X29_ordinary_failure_is_refunded_exactly_once
              failing_runtime AgentEngine.default_env 7 "hello" "sms" 10 11
              one_credit_db sample_config) as [H _].
  - vm_compute. reflexivity.
  - destruct (H eq_refl) as [Hfail _].
    exact (Hfail (RuntimeError "OpenClaw API response missing assistant text")
                 _ eq_refl eq_refl).
Defined.
